(** * Email template verifier: shallow embedding of [main.py]

    The development follows the single endpoint [verify_template] of
    [src/main.py].  The endpoint fetches a page, parses it with
    BeautifulSoup, runs four heuristics (test keywords, image/text ratio,
    link liveness, footer completeness) and combines them into a verdict.

    What lives outside the repository is kept outside the model and
    passed in as a [World]: the answers of the network to [requests.get]
    and [requests.head], the tree produced by the HTML parser or the
    exception it raises, and the serialisation [str(tag)] of a tag.
    Everything the source file itself computes is defined below and
    executable.

    Python [str] values are modelled by Stdlib strings; a character is read
    as the code point of the same number (U+0000 to U+00FF), and the
    character tables below ([isspace], [lower_char], the regex classes) are
    Python's tables restricted to that range. *)

From Stdlib Require Import List String Ascii Bool Arith NArith ZArith Lia.
From Stdlib Require Import DecimalString SpecFloat.
Import ListNotations.

Local Open Scope string_scope.
Local Open Scope list_scope.

Set Implicit Arguments.
Set Warnings "-register-all".

(* ================================================================== *)
(** * Python strings *)
(* ================================================================== *)

Module Py.

Definition ord (c : ascii) : N := N_of_ascii c.

Definition between (lo hi : N) (c : ascii) : bool :=
  ((lo <=? ord c) && (ord c <=? hi))%N.

(** [str.isspace] on one character; also the class [\s] of [re]. *)
Definition isspace (c : ascii) : bool :=
  between 9 13 c || between 28 32 c || (ord c =? 133)%N || (ord c =? 160)%N.

(** The class [\d] of [re] for a [str] pattern. *)
Definition isdecimal (c : ascii) : bool := between 48 57 c.

(** The class [\w] of [re] for a [str] pattern: alphanumeric or [_]. *)
Definition isword (c : ascii) : bool :=
  between 48 57 c || between 65 90 c || (ord c =? 95)%N || between 97 122 c
  || (ord c =? 170)%N || between 178 179 c || (ord c =? 181)%N
  || between 185 186 c || between 188 190 c
  || between 192 214 c || between 216 246 c || between 248 255 c.

(** [str.lower] on one character of the range U+0000 to U+00FF, where it
    gives one character of the range again.  Outside the range
    [str.lower] may give two characters for one (U+0130), which is not
    modelled. *)
Definition lower_char (c : ascii) : ascii :=
  if between 65 90 c || between 192 214 c || between 216 222 c
  then ascii_of_N (ord c + 32) else c.

Fixpoint lower (s : string) : string :=
  match s with
  | EmptyString => EmptyString
  | String c s' => String (lower_char c) (lower s')
  end.

Fixpoint lstrip (s : string) : string :=
  match s with
  | EmptyString => EmptyString
  | String c s' => if isspace c then lstrip s' else s
  end.

Fixpoint rstrip (s : string) : string :=
  match s with
  | EmptyString => EmptyString
  | String c s' =>
      match rstrip s' with
      | EmptyString => if isspace c then EmptyString else String c EmptyString
      | r => String c r
      end
  end.

(** [s.strip()] *)
Definition strip (s : string) : string := rstrip (lstrip s).

(** [s.startswith(p)] *)
Definition startswith (p s : string) : bool := String.prefix p s.

(** [sub in s] *)
Fixpoint contains (sub s : string) : bool :=
  startswith sub s
  || match s with
     | EmptyString => false
     | String _ s' => contains sub s'
     end.

(** [sep.join(l)] *)
Fixpoint join (sep : string) (l : list string) : string :=
  match l with
  | [] => EmptyString
  | [x] => x
  | x :: rest => x ++ sep ++ join sep rest
  end.

(** [s[:n]] *)
Definition take (n : nat) (s : string) : string := String.substring 0 n s.

(** [str(i)] for an [int], as an f-string interpolates it. *)
Definition str_of_int (i : Z) : string := NilZero.string_of_int (Z.to_int i).

Definition nonempty (s : string) : bool :=
  match s with EmptyString => false | _ => true end.

(** Python floats are IEEE binary64 values. *)
Definition float := spec_float.

Definition inf : float := S754_infinity false.

(** The literals [0.1] and [2.0]: the doubles nearest to them,
    [0x1.999999999999ap-4] and [0x1p+1]. *)
Definition f0_1 : float := S754_finite false 7205759403792794 (-56).
Definition f2_0 : float := S754_finite false 4503599627370496 (-51).

(** [x <= y] on floats. *)
Definition le (x y : float) : bool := SFleb x y.

(** [a / b] for two lengths: the correctly rounded quotient.  The divisor
    is never zero where the source divides (it tests [== 0] first), and the
    quotient of two lengths is far below the overflow threshold. *)
Definition truediv (a b : nat) : float :=
  match N.of_nat a, N.of_nat b with
  | _, N0 => S754_nan
  | N0, Npos _ => S754_zero false
  | Npos ma, Npos mb =>
      SFdiv 53 1024 (S754_finite false ma 0) (S754_finite false mb 0)
  end.

End Py.

(* ================================================================== *)
(** * Regular expressions ([re]) *)
(* ================================================================== *)

Module Re.

(** The fragment of [re] syntax that [ADDRESS_REGEX] uses.  Groups only
    serve as parentheses there, since the source tests the result of
    [search] for truth and never reads a group. *)
Inductive regex : Type :=
| Void                                  (* matches nothing *)
| Eps                                   (* the empty pattern *)
| Lit (c : ascii)                       (* a literal character *)
| Class (p : ascii -> bool)             (* \d, \s, \w *)
| Cat (r1 r2 : regex)                   (* r1 r2 *)
| Alt (r1 r2 : regex)                   (* r1 | r2 *)
| Star (r : regex).                     (* r* *)

Definition d : regex := Class Py.isdecimal.
Definition s : regex := Class Py.isspace.
Definition w : regex := Class Py.isword.

(** [r+] *)
Definition Plus (r : regex) : regex := Cat r (Star r).

(** [r{n}] *)
Fixpoint Exactly (n : nat) (r : regex) : regex :=
  match n with
  | O => Eps
  | S n' => Cat r (Exactly n' r)
  end.

(** [r{0,n}] *)
Fixpoint Upto (n : nat) (r : regex) : regex :=
  match n with
  | O => Eps
  | S n' => Alt Eps (Cat r (Upto n' r))
  end.

(** [r{lo,hi}] *)
Definition Repeat (lo hi : nat) (r : regex) : regex :=
  Cat (Exactly lo r) (Upto (hi - lo) r).

(** [r{lo,}] *)
Definition AtLeast (lo : nat) (r : regex) : regex :=
  Cat (Exactly lo r) (Star r).

Fixpoint seq (rs : list regex) : regex :=
  match rs with
  | [] => Eps
  | [r] => r
  | r :: rest => Cat r (seq rest)
  end.

(** A literal under [re.IGNORECASE]. *)
Definition lit_matches (c x : ascii) : bool :=
  Ascii.eqb (Py.lower_char c) (Py.lower_char x).

(** The strings a pattern matches in full. *)
Inductive Matches : regex -> string -> Prop :=
| MEps : Matches Eps ""
| MLit c x : lit_matches c x = true -> Matches (Lit c) (String x "")
| MClass (p : ascii -> bool) x : p x = true -> Matches (Class p) (String x "")
| MCat r1 r2 u v : Matches r1 u -> Matches r2 v -> Matches (Cat r1 r2) (u ++ v)
| MAltL r1 r2 u : Matches r1 u -> Matches (Alt r1 r2) u
| MAltR r1 r2 u : Matches r2 u -> Matches (Alt r1 r2) u
| MStar0 r : Matches (Star r) ""
| MStarS r u v : Matches r u -> Matches (Star r) v -> Matches (Star r) (u ++ v).

Fixpoint nullable (r : regex) : bool :=
  match r with
  | Void => false
  | Eps => true
  | Lit _ => false
  | Class _ => false
  | Cat r1 r2 => nullable r1 && nullable r2
  | Alt r1 r2 => nullable r1 || nullable r2
  | Star _ => true
  end.

(** Constructors that drop [Void] as they build, so that a derivative
    that can no longer match stays small. *)
Definition cat (r1 r2 : regex) : regex :=
  match r1, r2 with
  | Void, _ => Void
  | _, Void => Void
  | Eps, _ => r2
  | _, _ => Cat r1 r2
  end.

Definition alt (r1 r2 : regex) : regex :=
  match r1, r2 with
  | Void, _ => r2
  | _, Void => r1
  | _, _ => Alt r1 r2
  end.

(** What remains to be matched after reading [x]. *)
Fixpoint deriv (x : ascii) (r : regex) : regex :=
  match r with
  | Void => Void
  | Eps => Void
  | Lit c => if lit_matches c x then Eps else Void
  | Class p => if p x then Eps else Void
  | Cat r1 r2 =>
      if nullable r1
      then alt (cat (deriv x r1) r2) (deriv x r2)
      else cat (deriv x r1) r2
  | Alt r1 r2 => alt (deriv x r1) (deriv x r2)
  | Star r1 => cat (deriv x r1) (Star r1)
  end.

(** [pattern.match(s)] as a truth value: some prefix of [s] matches. *)
Fixpoint match_ (r : regex) (s : string) : bool :=
  nullable r
  || match s with
     | EmptyString => false
     | String x s' => match_ (deriv x r) s'
     end.

(** [pattern.search(s)] as a truth value: a match starts somewhere. *)
Fixpoint search (r : regex) (s : string) : bool :=
  match_ r s
  || match s with
     | EmptyString => false
     | String _ s' => search r s'
     end.

End Re.

(* ================================================================== *)
(** * The parsed document ([bs4]) *)
(* ================================================================== *)

Module Soup.

(** A node of the tree that [BeautifulSoup(html, "html.parser")] builds.
    [NavigableString] is a text node that [get_text] reports; [Comment]
    stands for the string nodes it leaves out (comments, declarations and
    the like).  The soup itself is the [Tag] at the root. *)
Inductive node : Type :=
| NavigableString (s : string)
| Comment (s : string)
| Tag (name : string) (attrs : list (string * string)) (contents : list node).

(** [tag.descendants]: every node below [n], in document order. *)
Fixpoint descendants (n : node) : list node :=
  match n with
  | Tag _ _ contents => flat_map (fun c => c :: descendants c) contents
  | _ => []
  end.

Definition named (name : string) (n : node) : bool :=
  match n with
  | Tag nm _ _ => String.eqb nm name
  | _ => false
  end.

Fixpoint lookup (k : string) (attrs : list (string * string)) : option string :=
  match attrs with
  | [] => None
  | (k', v) :: rest => if String.eqb k' k then Some v else lookup k rest
  end.

(** [tag.get(k)] *)
Definition get (k : string) (n : node) : option string :=
  match n with
  | Tag _ attrs _ => lookup k attrs
  | _ => None
  end.

(** The filter [k=True] of [find_all]: the attribute is present. *)
Definition has_attr (k : string) (n : node) : bool :=
  match get k n with Some _ => true | None => false end.

(** [tag[k]].  The source only evaluates it on tags that [find_all]
    selected with [k=True], where the attribute is present. *)
Definition item (k : string) (n : node) : string :=
  match get k n with Some v => v | None => EmptyString end.

(** [n.find_all(name)] and [n.find_all(name, k=True)]; [p] is the
    attribute filter. *)
Definition find_all (name : string) (p : node -> bool) (n : node) : list node :=
  filter (fun x => named name x && p x) (descendants n).

Definition any_attrs (_ : node) : bool := true.

(** [n.find(name)]: the first match of [find_all], or [None]. *)
Definition find (name : string) (n : node) : option node :=
  hd_error (find_all name any_attrs n).

(** The text nodes below [n], in document order. *)
Definition strings (n : node) : list string :=
  flat_map (fun x => match x with NavigableString t => [t] | _ => [] end)
           (descendants n).

(** [n.get_text(separator=sep, strip=True)]: every text node is stripped,
    the empty ones are dropped and the rest is joined. *)
Definition get_text (sep : string) (n : node) : string :=
  Py.join sep (filter Py.nonempty (map Py.strip (strings n))).

(** Induction over the tree: a property holds of every node if it holds
    of the string nodes and passes from the contents of a tag to the tag. *)
Section NodeInduction.
Variable P : node -> Prop.
Hypothesis P_string : forall t, P (NavigableString t).
Hypothesis P_comment : forall t, P (Comment t).
Hypothesis P_tag :
  forall name attrs contents, Forall P contents -> P (Tag name attrs contents).

Fixpoint node_induction (n : node) : P n :=
  match n with
  | NavigableString t => P_string t
  | Comment t => P_comment t
  | Tag name attrs contents =>
      P_tag name attrs
        ((fix all (l : list node) : Forall P l :=
            match l with
            | [] => Forall_nil P
            | c :: l' => Forall_cons c (node_induction c) (all l')
            end) contents)
  end.
End NodeInduction.

End Soup.

(* ================================================================== *)
(** * Exceptions, the network and the effect monad *)
(* ================================================================== *)

(** The exception classes that the handlers of the source tell apart:
    [requests.RequestException] (caught by name), FastAPI's [HTTPException]
    (raised by the endpoint itself) and every other class. *)
Inductive exn : Type :=
| RequestException (msg : string)
| HTTPException (status_code : Z) (detail : string)
| OtherException (msg : string).

Inductive outcome (A : Type) : Type :=
| Return (a : A)
| Raise (e : exn).

Arguments Return {A} a.
Arguments Raise {A} e.

Record response : Type := { status_code : Z; text : string }.

(** Everything outside the repository.  [get url] is what
    [requests.get(url, timeout=10)] does; [head k url] is what the [k]-th
    [requests.head(url, allow_redirects=True, timeout=5)] of the request
    does ([k] counts from 0), so that two probes of one URL may differ.
    [BeautifulSoup html] is what [BeautifulSoup(html, "html.parser")] does:
    it returns the tree, or it raises where the parser rejects the markup
    ([bs4.ParserRejectedMarkup], a class outside [requests]).  [str tag] is
    the serialisation [str(tag)]. *)
Record World : Type := {
  get : string -> outcome response;
  head : nat -> string -> outcome response;
  BeautifulSoup : string -> outcome Soup.node;
  str : Soup.node -> string
}.

(** The URLs probed so far, oldest first. *)
Definition probes : Type := list string.

(** A computation that probes the network and may raise. *)
Definition M (A : Type) : Type := probes -> outcome A * probes.

Definition ret {A} (a : A) : M A := fun log => (Return a, log).

Definition raise {A} (e : exn) : M A := fun log => (Raise e, log).

Definition bind {A B} (m : M A) (f : A -> M B) : M B :=
  fun log =>
    match m log with
    | (Return a, log') => f a log'
    | (Raise e, log') => (Raise e, log')
    end.

(** [try: m except <class>: h] where [catches] says which exceptions belong
    to the class. *)
Definition try_except {A} (m : M A) (catches : exn -> bool) (h : exn -> M A) : M A :=
  fun log =>
    match m log with
    | (Raise e, log') => if catches e then h e log' else (Raise e, log')
    | r => r
    end.

Declare Scope monad_scope.
Delimit Scope monad_scope with monad.
Notation "x <- m ;; k" := (bind m (fun x => k))
  (at level 100, m at next level, right associativity) : monad_scope.
Notation "' p <- m ;; k" := (bind m (fun x => match x with p => k end))
  (at level 100, p pattern, m at next level, right associativity) : monad_scope.
Local Open Scope monad_scope.

Definition requests_get (W : World) (url : string) : M response :=
  fun log => (get W url, log).

Definition requests_head (W : World) (url : string) : M response :=
  fun log => (head W (List.length log) url, log ++ [url]).

(** Line 30: the parser probes nothing; it returns the tree or raises. *)
Definition html_parser (W : World) (html : string) : M Soup.node :=
  fun log => (BeautifulSoup W html, log).

Definition is_RequestException (e : exn) : bool :=
  match e with RequestException _ => true | _ => false end.

(** The bare [except:] catches every exception. *)
Definition anything (_ : exn) : bool := true.

(** [str(e)] of a caught exception. *)
Definition exn_str (e : exn) : string :=
  match e with
  | RequestException msg => msg
  | HTTPException _ detail => detail
  | OtherException msg => msg
  end.

(* ================================================================== *)
(** * [main.py] *)
(* ================================================================== *)

Definition TEST_KEYWORDS : list string :=
  [ "test"; "dummy"; "lorem ipsum"; "sample template";
    "placeholder"; "example"; "this is a test" ].

(** [\d{1,5}\s+\w+(\s+\w+)*,\s*\w+(\s+\w+)*,\s*\w{2,}\s*\d{5,}],
    compiled with [re.IGNORECASE]. *)
Definition ADDRESS_REGEX : Re.regex :=
  Re.seq
    [ Re.Repeat 1 5 Re.d; Re.Plus Re.s; Re.Plus Re.w;
      Re.Star (Re.Cat (Re.Plus Re.s) (Re.Plus Re.w)); Re.Lit ",";
      Re.Star Re.s; Re.Plus Re.w;
      Re.Star (Re.Cat (Re.Plus Re.s) (Re.Plus Re.w)); Re.Lit ",";
      Re.Star Re.s; Re.AtLeast 2 Re.w; Re.Star Re.s; Re.AtLeast 5 Re.d ].

(** The [checks] object and the response of the endpoint. *)
Module Result.

Record checks : Type := {
  is_test_template : bool;
  image_text_ratio : Py.float;
  image_text_ratio_ok : bool;
  broken_links : list string;
  all_links_valid : bool;
  footer_link_valid : bool;
  footer_address_found : bool
}.

Record t : Type := {
  status : string;
  url : string;
  checks_ : checks;
  content_length : nat;
  preview_snippet : string;
  verification : string;
  message : string
}.

End Result.

(** [href.startswith("http://") or href.startswith("https://")] *)
Definition is_absolute (href : string) : bool :=
  Py.startswith "http://" href || Py.startswith "https://" href.

(** Line 33. *)
Definition text_content (soup : Soup.node) : string :=
  Py.lower (Soup.get_text " " soup).

(** Line 34. *)
Definition is_test_template (soup : Soup.node) : bool :=
  existsb (fun keyword => Py.contains keyword (text_content soup)) TEST_KEYWORDS.

(** Lines 37 and 38. *)
Definition total_text_len (soup : Soup.node) : nat :=
  String.length (text_content soup).

Definition total_img_len (W : World) (soup : Soup.node) : nat :=
  list_sum (map (fun img => String.length (str W img))
                (Soup.find_all "img" Soup.any_attrs soup)).

(** Lines 41 to 44. *)
Definition image_text_ratio (W : World) (soup : Soup.node) : Py.float :=
  if Nat.eqb (total_text_len soup) 0 then Py.inf
  else Py.truediv (total_img_len W soup) (total_text_len soup).

(** Line 93: [0.1 <= image_text_ratio <= 2.0]. *)
Definition image_text_ratio_ok (ratio : Py.float) : bool :=
  Py.le Py.f0_1 ratio && Py.le ratio Py.f2_0.

(** Lines 47 and 67: [find_all("a", href=True)]. *)
Definition links (n : Soup.node) : list Soup.node :=
  Soup.find_all "a" (Soup.has_attr "href") n.

(** Lines 49 to 58: the loop over [links], with [broken_links] as its
    accumulator. *)
Fixpoint validate_links (W : World) (links : list Soup.node)
         (broken_links : list string) : M (list string) :=
  match links with
  | [] => ret broken_links
  | link :: rest =>
      let href := Soup.item "href" link in
      if is_absolute href then
        broken_links' <-
          try_except
            (r <- requests_head W href ;;
             if (400 <=? status_code r)%Z
             then ret (broken_links ++ [href])
             else ret broken_links)
            is_RequestException
            (fun _ => ret (broken_links ++ [href])) ;;
        validate_links W rest broken_links'
      else validate_links W rest broken_links
  end.

(** Lines 68 to 77: the loop over [footer_links]; [true] is the [break]
    after [footer_link_valid = True]. *)
Fixpoint check_footer_links (W : World) (footer_links : list Soup.node) : M bool :=
  match footer_links with
  | [] => ret false
  | f_link :: rest =>
      let href := Soup.item "href" f_link in
      if is_absolute href then
        alive <-
          try_except
            (r <- requests_head W href ;;
             ret (status_code r <? 400)%Z)
            anything
            (fun _ => ret false) ;;
        if alive then ret true else check_footer_links W rest
      else check_footer_links W rest
  end.

(** Lines 61 to 85. *)
Definition footer_checks (W : World) (soup : Soup.node) : M (bool * bool) :=
  match Soup.find "footer" soup with
  | Some footer =>
      footer_link_valid <- check_footer_links W (links footer) ;;
      let footer_text := Soup.get_text " " footer in
      ret (footer_link_valid, Re.search ADDRESS_REGEX footer_text)
  | None => ret (false, false)
  end.

(** Lines 104 to 118. *)
Definition verdict (c : Result.checks) : string * string :=
  if Result.is_test_template c then
    ("fail", "The template appears to be a test/dummy template.")
  else if negb (Result.all_links_valid c) then
    ("fail", "One or more clickable links are broken.")
  else if negb (Result.footer_link_valid c) || negb (Result.footer_address_found c) then
    ("fail", "Footer is missing a valid clickable website link or full company address.")
  else if negb (Result.image_text_ratio_ok c) then
    ("warning", "Image to text ratio is not balanced.")
  else
    ("pass", "Template passed all basic standard checks.").

(** Lines 29 to 120: what follows a fetch with status 200. *)
Definition run_checks (W : World) (url html : string) : M Result.t :=
  soup <- html_parser W html ;;
  broken_links <- validate_links W (links soup) [] ;;
  ' (footer_link_valid, footer_address_found) <- footer_checks W soup ;;
  let c :=
    {| Result.is_test_template := is_test_template soup;
       Result.image_text_ratio := image_text_ratio W soup;
       Result.image_text_ratio_ok := image_text_ratio_ok (image_text_ratio W soup);
       Result.broken_links := broken_links;
       Result.all_links_valid := Nat.eqb (List.length broken_links) 0;
       Result.footer_link_valid := footer_link_valid;
       Result.footer_address_found := footer_address_found |} in
  ret {| Result.status := "success";
         Result.url := url;
         Result.checks_ := c;
         Result.content_length := String.length html;
         Result.preview_snippet := Py.take 300 html;
         Result.verification := fst (verdict c);
         Result.message := snd (verdict c) |}.

(** The endpoint, lines 23 to 123. *)
Definition verify_template (W : World) (url : string) : M Result.t :=
  try_except
    (resp <- requests_get W url ;;
     if negb (status_code resp =? 200)%Z then
       raise (HTTPException 400
                ("Unable to fetch URL, status code: "
                   ++ Py.str_of_int (status_code resp)))
     else run_checks W url (text resp))
    is_RequestException
    (fun e => raise (HTTPException 500 ("Request failed: " ++ exn_str e))).

(* ================================================================== *)
(** * Vocabulary of the specification *)
(* ================================================================== *)

(** [sub] occurs in [s] as a literal substring. *)
Definition Substring (sub s : string) : Prop :=
  exists pre post : string, s = (pre ++ sub ++ post)%string.

(** The three readings of what a probe did.  [alive]: it answered with a
    status below 400.  [broken]: it answered with a status of 400 or more,
    or raised a [requests.RequestException] (timeout, DNS, connection).
    [foreign]: it raised an exception of another class. *)
Definition alive (o : outcome response) : bool :=
  match o with
  | Return r => (status_code r <? 400)%Z
  | Raise _ => false
  end.

Definition broken (o : outcome response) : bool :=
  match o with
  | Return r => (400 <=? status_code r)%Z
  | Raise e => is_RequestException e
  end.

Definition foreign (o : outcome response) : bool :=
  match o with
  | Return _ => false
  | Raise e => negb (is_RequestException e)
  end.

(** The hrefs of a list of anchors that start with [http://] or
    [https://], as written and in order. *)
Definition absolute_hrefs (anchors : list Soup.node) : list string :=
  filter is_absolute (map (Soup.item "href") anchors).

(** What the network does when [urls] are probed one after the other, the
    first of them as probe number [k]. *)
Fixpoint probe_all (W : World) (k : nat) (urls : list string)
  : list (string * outcome response) :=
  match urls with
  | [] => []
  | u :: rest => (u, head W k u) :: probe_all W (S k) rest
  end.

Definition broken_among (W : World) (k : nat) (urls : list string) : list string :=
  map fst (filter (fun p => broken (snd p)) (probe_all W k urls)).

Definition no_foreign (W : World) (k : nat) (urls : list string) : bool :=
  forallb (fun p => negb (foreign (snd p))) (probe_all W k urls).

Definition some_alive (W : World) (k : nat) (urls : list string) : bool :=
  existsb (fun p => alive (snd p)) (probe_all W k urls).

(** The prefix of [urls] up to and including the first one whose probe is
    alive, or all of [urls] when none is. *)
Fixpoint upto_first_alive (W : World) (k : nat) (urls : list string) : list string :=
  match urls with
  | [] => []
  | u :: rest =>
      if alive (head W k u) then [u] else u :: upto_first_alive W (S k) rest
  end.

(** The fetch of [url] answered with status 200 and the page [resp], and
    the parser made the tree [soup] of the text of the page. *)
Definition fetched (W : World) (url : string) (resp : response)
           (soup : Soup.node) : Prop :=
  get W url = Return resp /\ status_code resp = 200%Z
  /\ BeautifulSoup W (text resp) = Return soup.

(** The wording of the specification for the text that the keyword test
    reads, "lowercased, whitespace-collapsed": every run of whitespace
    becomes one space, the ends are trimmed, letters are lowercased.  It is
    only compared with [text_content], which is what the source computes. *)
Fixpoint collapse_runs (s : string) : string :=
  match s with
  | EmptyString => EmptyString
  | String c s' =>
      if Py.isspace c then
        match s' with
        | EmptyString => String " " EmptyString
        | String c' _ =>
            if Py.isspace c' then collapse_runs s'
            else String " " (collapse_runs s')
        end
      else String c (collapse_runs s')
  end.

Definition whitespace_collapsed (s : string) : string :=
  Py.lower (Py.strip (collapse_runs s)).

(** The absolute hrefs of all anchors of the document, and of the anchors
    inside its footer. *)
Definition global_urls (soup : Soup.node) : list string :=
  absolute_hrefs (links soup).

Definition footer_urls (soup : Soup.node) : list string :=
  match Soup.find "footer" soup with
  | Some footer => absolute_hrefs (links footer)
  | None => []
  end.

Definition footer_address (soup : Soup.node) : bool :=
  match Soup.find "footer" soup with
  | Some footer => Re.search ADDRESS_REGEX (Soup.get_text " " footer)
  | None => false
  end.

(** The address pattern spelled out without the pattern language, piece by
    piece as [main.py] writes it: a street number of one to five decimal
    digits, whitespace, a street name of one or more words, a comma, a
    city of one or more words, a comma, a region token of two or more word
    characters and a postal code of five or more decimal digits, with
    optional whitespace after each comma and before the postal code.  Words
    are runs of word characters separated by whitespace.  It is only
    compared with [ADDRESS_REGEX], which is the pattern of the source. *)
Fixpoint all_chars (p : ascii -> bool) (s : string) : bool :=
  match s with
  | EmptyString => true
  | String c s' => p c && all_chars p s'
  end.

Definition digits (s : string) : bool := all_chars Py.isdecimal s.

Definition spaces (s : string) : bool := all_chars Py.isspace s.

Definition word (s : string) : bool := Py.nonempty s && all_chars Py.isword s.

Inductive words : string -> Prop :=
| words_one u : word u = true -> words u
| words_more u gap rest :
    word u = true -> spaces gap = true -> gap <> EmptyString -> words rest ->
    words (u ++ gap ++ rest)%string.

Definition address_shape (m : string) : Prop :=
  exists number gap1 street gap2 city gap3 region gap4 code : string,
    m = (number ++ gap1 ++ street ++ "," ++ gap2 ++ city ++ ","
           ++ gap3 ++ region ++ gap4 ++ code)%string
    /\ digits number = true /\ 1 <= String.length number <= 5
    /\ spaces gap1 = true /\ 1 <= String.length gap1
    /\ words street
    /\ spaces gap2 = true
    /\ words city
    /\ spaces gap3 = true
    /\ word region = true /\ 2 <= String.length region
    /\ spaces gap4 = true
    /\ digits code = true /\ 5 <= String.length code.

Definition message_test : string :=
  "The template appears to be a test/dummy template.".
Definition message_links : string :=
  "One or more clickable links are broken.".
Definition message_footer : string :=
  "Footer is missing a valid clickable website link or full company address.".
Definition message_ratio : string :=
  "Image to text ratio is not balanced.".
Definition message_pass : string :=
  "Template passed all basic standard checks.".

(** The outcome of a probe depends on the URL alone. *)
Definition probe_fixed (W : World) : Prop :=
  forall k k' u, head W k u = head W k' u.

(* ================================================================== *)
(** * Example documents and networks *)
(* ================================================================== *)

Module Examples.
Import Soup(node, NavigableString, Comment, Tag).

Definition answer (code : Z) : outcome response :=
  Return {| status_code := code; text := EmptyString |}.

(** A world that serves one page whatever the URL, parses it to [soup],
    and answers probes by [probe]. *)
Definition world (page : outcome response) (soup : node)
           (probe : nat -> string -> outcome response) : World :=
  {| get := fun _ => page;
     head := probe;
     BeautifulSoup := fun _ => Return soup;
     str := fun _ => "<img src='logo.png'/>" |}.

Definition page : outcome response :=
  Return {| status_code := 200; text := "<html>...</html>" |}.

Definition a (href : string) (label : string) : node :=
  Tag "a" [("href", href)] [NavigableString label].

Definition good_footer : node :=
  Tag "footer" []
    [ NavigableString "123 Main Street, Springfield, IL 62704";
      a "https://good.example" "Home" ].

(** Every URL answers 200, except [http://bad.example], which answers 404. *)
Definition bad_is_404 (_ : nat) (u : string) : outcome response :=
  if String.eqb u "http://bad.example" then answer 404 else answer 200.

(** A test template with a broken link and a complete footer. *)
Definition soup_test_and_broken : node :=
  Tag "[document]" []
    [ Tag "p" [] [NavigableString "Latest news"];
      a "http://bad.example" "more";
      good_footer ].

Definition world_test_and_broken : World :=
  world page soup_test_and_broken bad_is_404.

End Examples.

Module ExamplesC2.
Import Soup(node, NavigableString, Comment, Tag).

(** A page with one absolute link whose host label has 64 characters. *)
Definition long_label_url : string :=
  "http://aaaaaaaaaaaaaaaaaaaaaaaaaaaaaaaaaaaaaaaaaaaaaaaaaaaaaaaaaaaaaaaa.example".

Definition soup_long_label : node :=
  Tag "[document]" []
    [ Tag "p" [] [NavigableString "Welcome to our newsletter"];
      Examples.a long_label_url "read more";
      Examples.good_footer ].

(** The probe of that link raises an exception that is not a
    [requests.RequestException]; every other probe answers 200. *)
Definition raises_on_long_label (_ : nat) (u : string) : outcome response :=
  if String.eqb u long_label_url
  then Raise (OtherException "LocationParseError: label empty or too long")
  else Examples.answer 200.

Definition world_long_label : World :=
  Examples.world Examples.page soup_long_label raises_on_long_label.

End ExamplesC2.

Module ExamplesC3.
Import Soup(node, NavigableString, Comment, Tag).

(** A text node with two spaces between [Lorem] and [ipsum], as a wrapped
    line of HTML source leaves them. *)
Definition soup_lorem : node :=
  Tag "[document]" []
    [ Tag "p" [] [NavigableString "Lorem  ipsum dolor sit amet"];
      Examples.good_footer ].

Definition world_lorem : World :=
  Examples.world Examples.page soup_lorem (fun _ _ => Examples.answer 200).

Definition soup_latest : node :=
  Tag "[document]" []
    [ Tag "h1" [] [NavigableString "  Latest News "];
      Examples.good_footer ].

Definition world_latest : World :=
  Examples.world Examples.page soup_latest (fun _ _ => Examples.answer 200).

End ExamplesC3.

Module ExamplesC4.
Import Soup(node, NavigableString, Comment, Tag).

(** A document of images only: its text nodes are blank. *)
Definition soup_images_only : node :=
  Tag "[document]" []
    [ NavigableString "  ";
      Tag "img" [("src", "banner.png")] [];
      Tag "footer" [] [Tag "img" [("src", "logo.png")] []] ].

Definition world_images_only : World :=
  Examples.world Examples.page soup_images_only (fun _ _ => Examples.answer 200).

(** A text of 42 characters and one image, whose markup has 21. *)
Definition soup_half : node :=
  Tag "[document]" []
    [ Tag "p" [] [NavigableString " Our spring offers are here, come and look. "];
      Tag "img" [("src", "logo.png")] [] ].

Definition world_half : World :=
  Examples.world Examples.page soup_half (fun _ _ => Examples.answer 200).

End ExamplesC4.

Module ExamplesC5.
Import Soup(node, NavigableString, Comment, Tag).

Definition area_bad : node :=
  Tag "area" [("shape", "rect"); ("href", "http://bad.example")] [].

(** An image map whose [area] carries a dead link, a stylesheet [link],
    one relative anchor, and a complete footer. *)
Definition soup_area : node :=
  Tag "[document]" []
    [ Tag "link" [("rel", "stylesheet"); ("href", "https://cdn.example/site.css")] [];
      Tag "p" [] [NavigableString "Spring offers"];
      Tag "map" [("name", "offers")] [area_bad];
      Examples.a "/contact" "Contact";
      Examples.good_footer ].

Definition world_area : World :=
  Examples.world Examples.page soup_area Examples.bad_is_404.

End ExamplesC5.

Module ExamplesC6.
Import Soup(node, NavigableString, Comment, Tag).

(** Two dead links, one of them twice, among live, relative, [mailto:]
    and fragment links. *)
Definition soup_links : node :=
  Tag "[document]" []
    [ Tag "p" [] [NavigableString "Our spring offers"];
      Examples.a "http://good.example" "shop";
      Examples.a "http://bad.example" "old offer";
      Examples.a "/contact" "contact";
      Examples.a "mailto:hello@good.example" "write";
      Examples.a "https://down.example" "partner";
      Examples.a "#top" "top";
      Examples.a "http://bad.example" "old offer again";
      Examples.good_footer ].

(** [http://bad.example] answers 404, [https://down.example] times out,
    every other URL answers 200. *)
Definition probe (_ : nat) (u : string) : outcome response :=
  if String.eqb u "http://bad.example" then Examples.answer 404
  else if String.eqb u "https://down.example"
       then Raise (RequestException "ConnectTimeout")
       else Examples.answer 200.

Definition world_links : World :=
  Examples.world Examples.page soup_links probe.

(** A link whose host label has 64 characters, then a dead link, then the
    live link of the footer. *)
Definition soup_abort : node :=
  Tag "[document]" []
    [ Tag "p" [] [NavigableString "Our spring offers"];
      Examples.a ExamplesC2.long_label_url "read more";
      Examples.a "http://bad.example" "old offer";
      Examples.good_footer ].

(** The probe of the long label raises an exception that is not a
    [requests.RequestException], [http://bad.example] answers 404, every
    other URL answers 200. *)
Definition probe_abort (_ : nat) (u : string) : outcome response :=
  if String.eqb u ExamplesC2.long_label_url
  then Raise (OtherException "LocationParseError: label empty or too long")
  else if String.eqb u "http://bad.example" then Examples.answer 404
       else Examples.answer 200.

Definition world_abort : World :=
  Examples.world Examples.page soup_abort probe_abort.

End ExamplesC6.

Module ExamplesC7.
Import Soup(node, NavigableString, Comment, Tag).

(** A footer with four absolute links and a relative one. *)
Definition footer : node :=
  Tag "footer" []
    [ NavigableString "123 Main Street, Springfield, IL 62704";
      Examples.a "https://odd.example" "one";
      Examples.a "/imprint" "imprint";
      Examples.a "https://gone.example" "two";
      Examples.a "https://good.example" "three";
      Examples.a "https://later.example" "four" ].

Definition soup_footer : node :=
  Tag "[document]" [] [Tag "p" [] [NavigableString "Our spring offers"]; footer].

(** During the global loop (probes 0 to 3) every URL answers 200.  After
    it, [https://odd.example] raises an exception that is not a
    [requests.RequestException], [https://gone.example] answers 410, and
    the other URLs answer 200. *)
Definition probe (k : nat) (u : string) : outcome response :=
  if Nat.ltb k 4 then Examples.answer 200
  else if String.eqb u "https://odd.example"
       then Raise (OtherException "UnicodeError")
       else if String.eqb u "https://gone.example" then Examples.answer 410
            else Examples.answer 200.

Definition world_footer : World :=
  Examples.world Examples.page soup_footer probe.

End ExamplesC7.

Module ExamplesC8.
Import Soup(node, NavigableString, Comment, Tag).

(** A balanced page with a live link, an address in a [div], and no
    [footer] element. *)
Definition soup_no_footer : node :=
  Tag "[document]" []
    [ Tag "p" [] [NavigableString "Our spring offers are here, come and see"];
      Tag "img" [("src", "banner.png")] [];
      Examples.a "https://good.example" "shop";
      Tag "div" [("class", "footer")]
        [ NavigableString "123 Main Street, Springfield, IL 62704";
          Examples.a "https://good.example" "Home" ] ].

Definition world_no_footer : World :=
  Examples.world Examples.page soup_no_footer (fun _ _ => Examples.answer 200).

End ExamplesC8.

Module ExamplesC9.
Import Soup(node, NavigableString, Comment, Tag).

Definition footer_contact : node :=
  Tag "footer" []
    [ Tag "p" [] [NavigableString "  Contact us! "];
      Examples.a "https://good.example" "Home" ].

Definition soup_address : node :=
  Tag "[document]" []
    [ Tag "p" [] [NavigableString "Our spring offers"];
      Tag "footer" []
        [ Tag "span" [] [NavigableString " 123 Main Street, "];
          Tag "span" [] [NavigableString "Springfield, IL 62704 "] ] ].

Definition world_address : World :=
  Examples.world Examples.page soup_address (fun _ _ => Examples.answer 200).

End ExamplesC9.

Module ExamplesC10.
Import Soup(node, NavigableString, Comment, Tag).

Definition footer_dead : node :=
  Tag "footer" []
    [ NavigableString "123 Main Street, Springfield, IL 62704";
      Examples.a "http://bad.example" "Home" ].

(** A test template whose footer holds one absolute link, a dead one. *)
Definition soup_test_dead_footer : node :=
  Tag "[document]" []
    [ Tag "p" [] [NavigableString "This is a test"]; footer_dead ].

Definition world_test_dead_footer : World :=
  Examples.world Examples.page soup_test_dead_footer Examples.bad_is_404.

(** The same footer below a text without keywords. *)
Definition soup_dead_footer : node :=
  Tag "[document]" []
    [ Tag "p" [] [NavigableString "Our spring offers"]; footer_dead ].

Definition world_dead_footer : World :=
  Examples.world Examples.page soup_dead_footer Examples.bad_is_404.

End ExamplesC10.

(* ================================================================== *)
(** * Further vocabulary *)
(* ================================================================== *)

(** [m] is an integer nearest to [n / d]: the distance is at most one
    half. *)
Definition nearest (m n d : Z) : Prop :=
  ((2 * m - 1) * d <= 2 * n <= (2 * m + 1) * d)%Z.

(** Every character of [s] is whitespace. *)
Fixpoint all_space (s : string) : bool :=
  match s with
  | EmptyString => true
  | String c s' => Py.isspace c && all_space s'
  end.

(** Two characters that agree on the four things the address pattern asks
    of a character: being a decimal digit, whitespace, a word character, a
    comma. *)
Definition same_class (x y : ascii) : bool :=
  Bool.eqb (Py.isdecimal x) (Py.isdecimal y)
  && Bool.eqb (Py.isspace x) (Py.isspace y)
  && Bool.eqb (Py.isword x) (Py.isword y)
  && Bool.eqb (Ascii.eqb x ",") (Ascii.eqb y ",").

(** Two strings of one length whose characters agree in that way, place
    by place. *)
Fixpoint alike (s t : string) : bool :=
  match s, t with
  | EmptyString, EmptyString => true
  | String x s', String y t' => same_class x y && alike s' t'
  | _, _ => false
  end.

(** Every character class and literal of a pattern gives one answer on
    two characters that agree in that way. *)
Fixpoint reads_classes (r : Re.regex) : Prop :=
  match r with
  | Re.Void | Re.Eps => True
  | Re.Lit c =>
      forall x y, same_class x y = true -> Re.lit_matches c x = Re.lit_matches c y
  | Re.Class p => forall x y, same_class x y = true -> p x = p y
  | Re.Cat r1 r2 | Re.Alt r1 r2 => reads_classes r1 /\ reads_classes r2
  | Re.Star r1 => reads_classes r1
  end.

Module ExamplesX.
Import Soup(node, NavigableString, Comment, Tag).

(** The fetch answers 404. *)
Definition world_404 : World :=
  Examples.world (Return {| status_code := 404; text := "Not Found" |})
                 Examples.soup_test_and_broken Examples.bad_is_404.

(** The fetch times out. *)
Definition world_timeout : World :=
  Examples.world (Raise (RequestException "ConnectTimeout"))
                 Examples.soup_test_and_broken Examples.bad_is_404.

(** The fetch answers 200 with markup that the parser rejects. *)
Definition world_rejected_markup : World :=
  {| get := fun _ => Return {| status_code := 200; text := "<![x]>" |};
     head := fun _ _ => Examples.answer 200;
     BeautifulSoup :=
       fun _ => Raise (OtherException "ParserRejectedMarkup: rejected by the parser");
     str := fun _ => EmptyString |}.

(** A page that passes every check. *)
Definition soup_pass : node :=
  Tag "[document]" []
    [ Tag "h1" [] [NavigableString "Our spring offers"];
      Tag "img" [("src", "banner.png")] [];
      Examples.a "https://good.example/shop" "Shop now";
      Examples.good_footer ].

Definition world_pass : World :=
  Examples.world Examples.page soup_pass (fun _ _ => Examples.answer 200).

(** A page of text only. *)
Definition soup_text_only : node :=
  Tag "[document]" []
    [ Tag "p" [] [NavigableString "Our spring offers"]; Examples.good_footer ].

Definition world_text_only : World :=
  Examples.world Examples.page soup_text_only (fun _ _ => Examples.answer 200).

(** Keywords in capitals. *)
Definition soup_capitals : node :=
  Tag "[document]" []
    [ Tag "p" [] [NavigableString "LOREM IPSUM dolor"]; Examples.good_footer ].

End ExamplesX.

(* ================================================================== *)
(** * Strings *)
(* ================================================================== *)

Section StringFacts.

Local Open Scope string_scope.

Lemma append_nil_r (s : string) : s ++ "" = s.
Proof. induction s as [|c s IH]; simpl; [reflexivity | now rewrite IH]. Qed.

Lemma append_assoc (s t u : string) : (s ++ t) ++ u = s ++ t ++ u.
Proof. induction s as [|c s IH]; simpl; [reflexivity | now rewrite IH]. Qed.

Lemma append_eq_nil (s t : string) : s ++ t = "" -> s = "" /\ t = "".
Proof. destruct s; simpl; [auto | discriminate]. Qed.

Lemma startswith_spec (p s : string) :
  Py.startswith p s = true <-> exists t, s = p ++ t.
Proof.
  unfold Py.startswith. revert s.
  induction p as [|a p IH]; intros s; simpl.
  - destruct s; split; eauto.
  - destruct s as [|b s].
    + split; [discriminate | intros [t Ht]; discriminate].
    + simpl. destruct (ascii_dec a b) as [->|Hab].
      * rewrite IH. split; intros [t Ht]; exists t.
        -- now rewrite Ht.
        -- now injection Ht.
      * split; [discriminate | intros [t Ht]; injection Ht; congruence].
Qed.

Lemma contains_spec (sub s : string) :
  Py.contains sub s = true <-> Substring sub s.
Proof.
  unfold Substring.
  induction s as [|c s IH]; cbn [Py.contains];
    rewrite orb_true_iff, startswith_spec.
  - split.
    + intros [[t Ht]|Hf]; [|discriminate]. now exists "", t.
    + intros (pre & post & H). left.
      symmetry in H. apply append_eq_nil in H as [-> H]. simpl in H.
      exists post. now rewrite H.
  - rewrite IH. split.
    + intros [[t Ht]|(pre & post & H)].
      * now exists "", t.
      * exists (String c pre), post. simpl. now rewrite H.
    + intros (pre & post & H). destruct pre as [|a pre]; simpl in H.
      * left. now exists post.
      * right. injection H as _ H. now exists pre, post.
Qed.

Lemma Substring_trans (a b s : string) :
  Substring a b -> Substring b s -> Substring a s.
Proof.
  intros (p1 & q1 & ->) (p2 & q2 & ->).
  exists (p2 ++ p1), (q1 ++ q2).
  now rewrite !append_assoc.
Qed.

End StringFacts.

(* ================================================================== *)
(** * The matcher agrees with the meaning of patterns *)
(* ================================================================== *)

Module ReFacts.
Import Re.
Local Open Scope string_scope.

Lemma Matches_nil_nullable r u : Matches r u -> u = "" -> nullable r = true.
Proof.
  induction 1; intros E; simpl; try reflexivity; try discriminate.
  - apply append_eq_nil in E as [-> ->]. now rewrite IHMatches1, IHMatches2.
  - now rewrite IHMatches.
  - rewrite IHMatches by assumption. apply orb_true_r.
Qed.

Lemma nullable_spec r : nullable r = true <-> Matches r "".
Proof.
  split; [|intros H; now apply (Matches_nil_nullable H)].
  induction r; simpl; intros H; try discriminate.
  - constructor.
  - apply andb_true_iff in H as [H1 H2].
    change "" with ("" ++ ""). constructor; auto.
  - apply orb_true_iff in H as [H|H]; [apply MAltL | apply MAltR]; auto.
  - constructor.
Qed.

Lemma Void_empty u : ~ Matches Void u.
Proof. intros H; inversion H. Qed.

Lemma cat_spec r1 r2 u : Matches (cat r1 r2) u <-> Matches (Cat r1 r2) u.
Proof.
  split; intros H.
  - destruct r1, r2; simpl in H;
      solve [ assumption
            | now apply Void_empty in H
            | change u with ("" ++ u); constructor; [constructor | assumption] ].
  - inversion H as [| | |a b u1 u2 H1 H2| | | |]; subst.
    destruct r1, r2; cbn [cat];
      solve [ now constructor
            | now apply Void_empty in H1
            | now apply Void_empty in H2
            | inversion H1; subst; exact H2 ].
Qed.

Lemma alt_spec r1 r2 u : Matches (alt r1 r2) u <-> Matches (Alt r1 r2) u.
Proof.
  split; intros H.
  - destruct r1, r2; simpl in H;
      solve [ assumption | now apply MAltL | now apply MAltR ].
  - inversion H as [| | | |a b v H1|a b v H1| |]; subst;
      destruct r1, r2; cbn [alt];
      solve [ assumption | now apply MAltL | now apply MAltR
            | now apply Void_empty in H1 ].
Qed.

Lemma Star_cons r x u :
  Matches (Star r) (String x u) ->
  exists u1 u2, u = u1 ++ u2 /\ Matches r (String x u1) /\ Matches (Star r) u2.
Proof.
  intros H. remember (Star r) as sr eqn:Er. remember (String x u) as xu eqn:Eu.
  revert u Eu.
  induction H as [| | | | | | |r' a b Ha _ Hb IHb]; intros u0 Eu; try discriminate.
  injection Er as ->.
  destruct a as [|y a]; simpl in Eu.
  - now apply IHb.
  - injection Eu as -> <-. now exists a, b.
Qed.

Lemma deriv_spec x r u : Matches (deriv x r) u <-> Matches r (String x u).
Proof.
  revert u. induction r as [| |c|p|r1 IH1 r2 IH2|r1 IH1 r2 IH2|r1 IH1];
    intros u; cbn [deriv].
  - split; intros H; inversion H.
  - split; intros H; inversion H.
  - destruct (lit_matches c x) eqn:E; split; intros H; inversion H; subst.
    + now constructor.
    + constructor.
    + congruence.
  - destruct (p x) eqn:E; split; intros H; inversion H; subst.
    + now constructor.
    + constructor.
    + congruence.
  - assert (Hcat : Matches (cat (deriv x r1) r2) u <->
                   exists u1 u2, u = u1 ++ u2 /\ Matches r1 (String x u1) /\ Matches r2 u2).
    { rewrite cat_spec. split.
      - intros H. inversion H as [| | |a b u1 u2 H1 H2| | | |]; subst.
        exists u1, u2. rewrite <- IH1. auto.
      - intros (u1 & u2 & -> & H1 & H2). constructor; [now apply IH1 | assumption]. }
    assert (Hsplit : Matches (Cat r1 r2) (String x u) <->
              (exists u1 u2, u = u1 ++ u2 /\ Matches r1 (String x u1) /\ Matches r2 u2)
              \/ (Matches r1 "" /\ Matches r2 (String x u))).
    { split.
      - intros H. inversion H as [| | |a b u1 u2 H1 H2 Ea Eu| | | |]; subst.
        destruct u1 as [|y u1]; simpl in Eu.
        + right. subst. auto.
        + injection Eu as -> <-. left. now exists u1, u2.
      - intros [(u1 & u2 & -> & H1 & H2)|[H1 H2]].
        + change (String x (u1 ++ u2)) with (String x u1 ++ u2). now constructor.
        + change (String x u) with ("" ++ String x u). now constructor. }
    rewrite Hsplit. destruct (nullable r1) eqn:N.
    + rewrite alt_spec. split.
      * intros H. inversion H; subst; [left; now apply Hcat | right].
        split; [now apply nullable_spec | now apply IH2].
      * intros [H|[_ H]]; [apply MAltL; now apply Hcat | apply MAltR; now apply IH2].
    + rewrite Hcat. split; [auto | intros [H|[H _]]; [assumption|]].
      apply nullable_spec in H. congruence.
  - rewrite alt_spec. split; intros H; inversion H; subst.
    + apply MAltL. now apply IH1.
    + apply MAltR. now apply IH2.
    + apply MAltL. now apply IH1.
    + apply MAltR. now apply IH2.
  - rewrite cat_spec. split.
    + intros H. inversion H as [| | |a b u1 u2 H1 H2| | | |]; subst.
      change (String x (u1 ++ u2)) with (String x u1 ++ u2).
      apply MStarS; [now apply IH1 | assumption].
    + intros H. apply Star_cons in H as (u1 & u2 & -> & H1 & H2).
      constructor; [now apply IH1 | assumption].
Qed.

(** [match_] finds a matching prefix exactly when there is one. *)
Lemma match_spec r s0 :
  match_ r s0 = true <-> exists u v, s0 = u ++ v /\ Matches r u.
Proof.
  revert r. induction s0 as [|x s0 IH]; intros r; cbn [match_].
  - rewrite orb_false_r, nullable_spec. split.
    + intros H. now exists "", "".
    + intros (u & v & E & H). symmetry in E.
      apply append_eq_nil in E as [-> _]. assumption.
  - rewrite orb_true_iff, nullable_spec, IH. split.
    + intros [H|(u & v & -> & H)].
      * now exists "", (String x s0).
      * exists (String x u), v. split; [reflexivity | now apply deriv_spec].
    + intros (u & v & E & H). destruct u as [|y u]; simpl in E.
      * now left.
      * injection E as -> ->. right. exists u, v.
        split; [reflexivity | now apply deriv_spec].
Qed.

(** [search] answers [true] exactly when some substring matches. *)
Lemma search_spec r s0 :
  search r s0 = true <->
  exists pre u post, s0 = pre ++ u ++ post /\ Matches r u.
Proof.
  induction s0 as [|x s0 IH]; cbn [search]; rewrite orb_true_iff, match_spec.
  - split.
    + intros [(u & v & E & H)|?]; [|discriminate]. now exists "", u, v.
    + intros (pre & u & post & E & H). left. symmetry in E.
      apply append_eq_nil in E as [-> E]. now exists u, post.
  - rewrite IH. split.
    + intros [(u & v & E & H)|(pre & u & post & -> & H)].
      * now exists "", u, v.
      * now exists (String x pre), u, post.
    + intros (pre & u & post & E & H). destruct pre as [|y pre]; simpl in E.
      * left. now exists u, post.
      * injection E as -> ->. right. now exists pre, u, post.
Qed.

End ReFacts.

(* ================================================================== *)
(** * The document tree *)
(* ================================================================== *)

Module SoupFacts.
Import Soup.

Lemma in_descendants_tag name attrs contents x :
  In x (descendants (Tag name attrs contents)) <->
  exists c, In c contents /\ (x = c \/ In x (descendants c)).
Proof.
  cbn [descendants]. rewrite in_flat_map.
  split; intros (c & Hc & [H|H]); exists c; (split; [assumption|]).
  - now left.
  - now right.
  - left. now symmetry.
  - now right.
Qed.

(** What lies below a descendant lies below the node itself. *)
Lemma descendants_trans n :
  forall y x, In y (descendants n) -> In x (descendants y) -> In x (descendants n).
Proof.
  induction n as [t|t|name attrs contents IH] using node_induction;
    intros y x Hy Hx; try contradiction.
  apply in_descendants_tag in Hy as (c & Hc & Hy).
  apply in_descendants_tag. exists c. split; [assumption|]. right.
  rewrite Forall_forall in IH.
  destruct Hy as [->|Hy]; [assumption | now apply (IH c Hc y)].
Qed.

Lemma find_all_spec name p n x :
  In x (find_all name p n) <->
  In x (descendants n) /\ named name x = true /\ p x = true.
Proof.
  unfold find_all. now rewrite filter_In, andb_true_iff.
Qed.

Lemma find_some name n f :
  find name n = Some f -> In f (descendants n) /\ named name f = true.
Proof.
  unfold find. intros H.
  assert (Hin : In f (find_all name any_attrs n)).
  { destruct (find_all name any_attrs n); [discriminate|].
    injection H as ->. now left. }
  apply find_all_spec in Hin. tauto.
Qed.

Lemma find_none name n :
  find name n = None ->
  forall x, In x (descendants n) -> named name x = false.
Proof.
  unfold find. intros H x Hx.
  destruct (named name x) eqn:E; [|reflexivity].
  assert (Hin : In x (find_all name any_attrs n))
    by (apply find_all_spec; auto).
  destruct (find_all name any_attrs n); [contradiction | discriminate].
Qed.

Lemma named_spec name x :
  named name x = true <-> exists attrs contents, x = Tag name attrs contents.
Proof.
  destruct x as [t|t|nm attrs contents]; simpl.
  - split; [discriminate | intros (? & ? & ?); discriminate].
  - split; [discriminate | intros (? & ? & ?); discriminate].
  - rewrite String.eqb_eq. split.
    + intros ->. eauto.
    + intros (? & ? & E). now injection E.
Qed.

Lemma has_attr_spec k x :
  has_attr k x = true <-> exists v, get k x = Some v.
Proof.
  unfold has_attr. destruct (get k x); split; eauto; try discriminate.
  intros [? ?]; discriminate.
Qed.

(** On a tag that carries the attribute, [tag[k]] is its value as the
    parser stored it. *)
Lemma item_get k x v : get k x = Some v -> item k x = v.
Proof. unfold item. now intros ->. Qed.

End SoupFacts.

(** The anchors below a node, characterised. *)
Lemma links_spec n x :
  In x (links n) <->
  In x (Soup.descendants n) /\
  exists attrs contents href,
    x = Soup.Tag "a" attrs contents /\ Soup.lookup "href" attrs = Some href.
Proof.
  unfold links. rewrite SoupFacts.find_all_spec, SoupFacts.named_spec,
    SoupFacts.has_attr_spec.
  split.
  - intros (Hd & (attrs & contents & ->) & (v & Hv)). split; [assumption|].
    now exists attrs, contents, v.
  - intros (Hd & attrs & contents & v & -> & Hv). repeat split; eauto.
Qed.

(** The anchors of the footer are among the anchors of the document. *)
Lemma footer_links_incl soup footer :
  Soup.find "footer" soup = Some footer -> incl (links footer) (links soup).
Proof.
  intros H x Hx. apply SoupFacts.find_some in H as [Hf _].
  unfold links in *. apply SoupFacts.find_all_spec in Hx as (Hx & Hn & Hp).
  apply SoupFacts.find_all_spec. repeat split; try assumption.
  now apply (SoupFacts.descendants_trans soup footer).
Qed.

Lemma absolute_hrefs_incl l1 l2 :
  incl l1 l2 -> incl (absolute_hrefs l1) (absolute_hrefs l2).
Proof.
  intros H u Hu. unfold absolute_hrefs in *.
  apply filter_In in Hu as [Hu Ha]. apply filter_In. split; [|assumption].
  apply in_map_iff in Hu as (x & <- & Hx). apply in_map. now apply H.
Qed.

(* ================================================================== *)
(** * The two probing loops *)
(* ================================================================== *)

Lemma absolute_hrefs_cons link rest :
  absolute_hrefs (link :: rest) =
  if is_absolute (Soup.item "href" link)
  then Soup.item "href" link :: absolute_hrefs rest
  else absolute_hrefs rest.
Proof. reflexivity. Qed.

Lemma length_snoc (log : probes) (u : string) :
  List.length (log ++ [u]) = S (List.length log).
Proof. rewrite length_app. simpl. lia. Qed.

Lemma broken_among_cons W k u rest :
  broken_among W k (u :: rest) =
  if broken (head W k u) then u :: broken_among W (S k) rest
  else broken_among W (S k) rest.
Proof.
  unfold broken_among. simpl. now destruct (broken (head W k u)).
Qed.

(** The global loop, when no probe raises an exception of a foreign
    class: every absolute href is probed, in order, and the hrefs whose
    probe is [broken] are appended to the accumulator. *)
Lemma validate_links_returns W anchors :
  forall acc log,
    no_foreign W (List.length log) (absolute_hrefs anchors) = true ->
    validate_links W anchors acc log =
    (Return (acc ++ broken_among W (List.length log) (absolute_hrefs anchors)),
     log ++ absolute_hrefs anchors).
Proof.
  induction anchors as [|link rest IH]; intros acc log Hno.
  - simpl. unfold ret, broken_among. simpl. now rewrite !app_nil_r.
  - cbn [validate_links]. rewrite absolute_hrefs_cons in *.
    destruct (is_absolute (Soup.item "href" link)); [|now apply IH].
    set (href := Soup.item "href" link) in *.
    unfold no_foreign in Hno. cbn [probe_all forallb snd] in Hno.
    apply andb_true_iff in Hno as [Hhere Hrest].
    rewrite broken_among_cons.
    unfold bind at 1. unfold try_except, bind, requests_head, ret.
    destruct (head W (List.length log) href) as [r|e] eqn:E; cbn [foreign broken] in *.
    + destruct (400 <=? status_code r)%Z.
      * rewrite IH by (now rewrite length_snoc).
        rewrite length_snoc, <- !app_assoc. reflexivity.
      * rewrite IH by (now rewrite length_snoc).
        rewrite length_snoc, <- !app_assoc. reflexivity.
    + apply negb_true_iff, negb_false_iff in Hhere. rewrite Hhere.
      rewrite IH by (now rewrite length_snoc).
      rewrite length_snoc, <- !app_assoc. reflexivity.
Qed.

(** The global loop, when some probe raises an exception of a foreign
    class: the exception leaves the loop. *)
Lemma validate_links_raises W anchors :
  forall acc log,
    no_foreign W (List.length log) (absolute_hrefs anchors) = false ->
    exists e log',
      validate_links W anchors acc log = (Raise e, log')
      /\ is_RequestException e = false.
Proof.
  induction anchors as [|link rest IH]; intros acc log Hno.
  - discriminate.
  - cbn [validate_links]. rewrite absolute_hrefs_cons in *.
    destruct (is_absolute (Soup.item "href" link)); [|now apply IH].
    set (href := Soup.item "href" link) in *.
    unfold no_foreign in Hno. cbn [probe_all forallb snd] in Hno.
    unfold bind at 1. unfold try_except, bind, requests_head, ret.
    destruct (head W (List.length log) href) as [r|e] eqn:E; cbn [foreign] in *.
    + simpl in Hno.
      destruct (400 <=? status_code r)%Z; apply IH; now rewrite length_snoc.
    + destruct (is_RequestException e) eqn:Ee; simpl in Hno.
      * apply IH. now rewrite length_snoc.
      * now exists e, (log ++ [href]).
Qed.

Lemma some_alive_cons W k u rest :
  some_alive W k (u :: rest) = alive (head W k u) || some_alive W (S k) rest.
Proof. reflexivity. Qed.

(** The footer loop: it never raises, it stops after the first probe
    that is alive, and it answers whether there was one. *)
Lemma check_footer_links_spec W anchors :
  forall log,
    check_footer_links W anchors log =
    (Return (some_alive W (List.length log) (absolute_hrefs anchors)),
     log ++ upto_first_alive W (List.length log) (absolute_hrefs anchors)).
Proof.
  induction anchors as [|link rest IH]; intros log.
  - simpl. unfold ret. now rewrite app_nil_r.
  - cbn [check_footer_links]. rewrite absolute_hrefs_cons.
    destruct (is_absolute (Soup.item "href" link)); [|now apply IH].
    set (href := Soup.item "href" link).
    rewrite some_alive_cons. cbn [upto_first_alive].
    unfold bind at 1. unfold try_except, bind, requests_head, ret, anything.
    destruct (head W (List.length log) href) as [r|e] eqn:E; cbn [alive].
    + destruct (status_code r <? 400)%Z; [reflexivity|].
      rewrite IH, length_snoc, <- app_assoc. reflexivity.
    + rewrite IH, length_snoc, <- app_assoc. reflexivity.
Qed.

(** [upto_first_alive] is a prefix of the list; it is the whole list when no
    probe is alive, and ends with the first alive probe otherwise. *)
Lemma upto_first_alive_prefix W urls :
  forall k, exists rest, urls = upto_first_alive W k urls ++ rest.
Proof.
  induction urls as [|u urls IH]; intros k; simpl.
  - now exists [].
  - destruct (alive (head W k u)).
    + now exists urls.
    + destruct (IH (S k)) as [rest E]. exists rest. simpl. now rewrite <- E.
Qed.

Lemma upto_first_alive_none W urls :
  forall k, some_alive W k urls = false -> upto_first_alive W k urls = urls.
Proof.
  induction urls as [|u urls IH]; intros k H; simpl; [reflexivity|].
  rewrite some_alive_cons in H. apply orb_false_iff in H as [H1 H2].
  rewrite H1. now rewrite IH.
Qed.

Lemma upto_first_alive_some W urls :
  forall k, some_alive W k urls = true ->
    exists before u after,
      urls = before ++ u :: after
      /\ upto_first_alive W k urls = before ++ [u]
      /\ alive (head W (k + List.length before) u) = true
      /\ some_alive W k before = false.
Proof.
  induction urls as [|u urls IH]; intros k H; [discriminate|].
  rewrite some_alive_cons in H. simpl.
  destruct (alive (head W k u)) eqn:E.
  - exists [], u, urls. simpl. rewrite Nat.add_0_r. auto.
  - simpl in H. destruct (IH (S k) H) as (before & v & after & -> & E1 & E2 & E3).
    exists (u :: before), v, after. simpl. rewrite E1.
    repeat split; try reflexivity.
    + now rewrite <- Nat.add_succ_comm.
    + rewrite some_alive_cons, E. assumption.
Qed.

(* ================================================================== *)
(** * The endpoint as a whole *)
(* ================================================================== *)

Lemma footer_checks_spec W soup log :
  footer_checks W soup log =
  (Return (some_alive W (List.length log) (footer_urls soup), footer_address soup),
   log ++ upto_first_alive W (List.length log) (footer_urls soup)).
Proof.
  unfold footer_checks, footer_urls, footer_address.
  destruct (Soup.find "footer" soup) as [footer|].
  - unfold bind. rewrite check_footer_links_spec. reflexivity.
  - unfold ret. simpl. now rewrite app_nil_r.
Qed.

Lemma all_links_valid_spec (l : list string) :
  Nat.eqb (List.length l) 0 = true <-> l = [].
Proof. destruct l; simpl; split; congruence. Qed.

(** After a fetch with status 200 the checks run to the end and produce
    the response below, unless a probe of the global loop raises an
    exception of a foreign class. *)
Lemma run_checks_returns W url html soup log :
  let k := List.length log + List.length (global_urls soup) in
  BeautifulSoup W html = Return soup ->
  no_foreign W (List.length log) (global_urls soup) = true ->
  exists r,
    run_checks W url html log =
      (Return r,
       log ++ global_urls soup ++ upto_first_alive W k (footer_urls soup))
    /\ Result.status r = "success"
    /\ Result.url r = url
    /\ Result.content_length r = String.length html
    /\ Result.preview_snippet r = Py.take 300 html
    /\ Result.verification r = fst (verdict (Result.checks_ r))
    /\ Result.message r = snd (verdict (Result.checks_ r))
    /\ Result.checks_ r =
       {| Result.is_test_template := is_test_template soup;
          Result.image_text_ratio := image_text_ratio W soup;
          Result.image_text_ratio_ok := image_text_ratio_ok (image_text_ratio W soup);
          Result.broken_links := broken_among W (List.length log) (global_urls soup);
          Result.all_links_valid :=
            Nat.eqb (List.length (broken_among W (List.length log) (global_urls soup))) 0;
          Result.footer_link_valid := some_alive W k (footer_urls soup);
          Result.footer_address_found := footer_address soup |}.
Proof.
  intros k Hsoup Hno. unfold run_checks.
  unfold bind at 1. unfold html_parser. rewrite Hsoup.
  unfold bind at 1. unfold global_urls in *.
  rewrite validate_links_returns by assumption. rewrite app_nil_l.
  unfold bind at 1. rewrite footer_checks_spec.
  rewrite length_app. fold k. unfold ret.
  eexists. split; [rewrite <- app_assoc; reflexivity|].
  cbn. repeat split.
Qed.

Lemma run_checks_raises W url html soup log :
  BeautifulSoup W html = Return soup ->
  no_foreign W (List.length log) (global_urls soup) = false ->
  exists e log',
    run_checks W url html log = (Raise e, log') /\ is_RequestException e = false.
Proof.
  intros Hsoup Hno. unfold run_checks, global_urls in *.
  destruct (validate_links_raises W _ [] log Hno) as (e & log' & E & He).
  exists e, log'. unfold bind at 1. unfold html_parser. rewrite Hsoup.
  unfold bind at 1. now rewrite E.
Qed.

(** When the parser raises, its exception ends the checks before any
    probe. *)
Lemma run_checks_parser_raises W url html e log :
  BeautifulSoup W html = Raise e ->
  run_checks W url html log = (Raise e, log).
Proof.
  intros Hsoup. unfold run_checks. unfold bind at 1.
  unfold html_parser. now rewrite Hsoup.
Qed.

Lemma verify_template_returns W url resp soup :
  fetched W url resp soup ->
  no_foreign W 0 (global_urls soup) = true ->
  exists r,
    verify_template W url [] =
      (Return r,
       global_urls soup
         ++ upto_first_alive W (List.length (global_urls soup))
              (footer_urls soup))
    /\ Result.status r = "success"
    /\ Result.url r = url
    /\ Result.content_length r = String.length (text resp)
    /\ Result.preview_snippet r = Py.take 300 (text resp)
    /\ Result.verification r = fst (verdict (Result.checks_ r))
    /\ Result.message r = snd (verdict (Result.checks_ r))
    /\ Result.checks_ r =
       {| Result.is_test_template := is_test_template soup;
          Result.image_text_ratio := image_text_ratio W soup;
          Result.image_text_ratio_ok :=
            image_text_ratio_ok (image_text_ratio W soup);
          Result.broken_links := broken_among W 0 (global_urls soup);
          Result.all_links_valid :=
            Nat.eqb (List.length (broken_among W 0 (global_urls soup))) 0;
          Result.footer_link_valid :=
            some_alive W (List.length (global_urls soup))
                       (footer_urls soup);
          Result.footer_address_found := footer_address soup |}.
Proof.
  intros (Hget & H200 & Hsoup) Hno.
  destruct (@run_checks_returns W url (text resp) soup [] Hsoup Hno) as (r & E & H).
  exists r. split; [|exact H].
  unfold verify_template, try_except, bind, requests_get.
  rewrite Hget. apply Z.eqb_eq in H200. rewrite H200.
  cbn [negb]. now rewrite E.
Qed.

(** A fetch whose status is not 200 ends the request with an
    [HTTPException] whose detail carries that status. *)
Lemma verify_template_status_error W url resp :
  get W url = Return resp -> status_code resp <> 200%Z ->
  verify_template W url [] =
  (Raise (HTTPException 400
            ("Unable to fetch URL, status code: " ++ Py.str_of_int (status_code resp))),
   []).
Proof.
  intros Hget H200. unfold verify_template, try_except, bind, requests_get.
  rewrite Hget. apply Z.eqb_neq in H200. rewrite H200. reflexivity.
Qed.

(** A fetch that raises a [requests.RequestException] ends the request with
    an [HTTPException] whose detail carries the cause. *)
Lemma verify_template_network_error W url msg :
  get W url = Raise (RequestException msg) ->
  verify_template W url [] =
  (Raise (HTTPException 500 ("Request failed: " ++ msg)), []).
Proof.
  intros Hget. unfold verify_template, try_except, bind, requests_get.
  now rewrite Hget.
Qed.

(** A response is produced exactly when the fetch answers 200, the parser
    returns a tree and no probe of the global loop raises an exception of
    a foreign class. *)
Lemma verify_template_returns_iff W url :
  (exists r log, verify_template W url [] = (Return r, log)) <->
  (exists resp soup, fetched W url resp soup
                     /\ no_foreign W 0 (global_urls soup) = true).
Proof.
  split.
  - intros (r & log & E).
    unfold verify_template, try_except, bind, requests_get in E.
    destruct (get W url) as [resp|e] eqn:Hget.
    + destruct (status_code resp =? 200)%Z eqn:H200; [|discriminate].
      cbn [negb] in E.
      destruct (BeautifulSoup W (text resp)) as [soup|e] eqn:Hsoup.
      * exists resp, soup.
        split; [split; [assumption | split; [now apply Z.eqb_eq | assumption]]|].
        destruct (no_foreign W 0 (global_urls soup)) eqn:Hno; [reflexivity|].
        destruct (@run_checks_raises W url (text resp) soup [] Hsoup Hno)
          as (e & l & E' & He).
        rewrite E', He in E. discriminate.
      * rewrite (@run_checks_parser_raises W url (text resp) e [] Hsoup) in E.
        destruct (is_RequestException e); discriminate.
    + destruct (is_RequestException e); discriminate.
  - intros (resp & soup & Hf & Hno).
    destruct (verify_template_returns Hf Hno) as (r & E & _). eauto.
Qed.

(** What a response that the endpoint returned after a fetch with status 200
    is made of. *)
Lemma verify_template_inv W url resp soup r log :
  fetched W url resp soup ->
  verify_template W url [] = (Return r, log) ->
  no_foreign W 0 (global_urls soup) = true
  /\ log = global_urls soup
             ++ upto_first_alive W (List.length (global_urls soup))
                  (footer_urls soup)
  /\ Result.status r = "success"
  /\ Result.url r = url
  /\ Result.content_length r = String.length (text resp)
  /\ Result.preview_snippet r = Py.take 300 (text resp)
  /\ Result.verification r = fst (verdict (Result.checks_ r))
  /\ Result.message r = snd (verdict (Result.checks_ r))
  /\ Result.checks_ r =
     {| Result.is_test_template := is_test_template soup;
        Result.image_text_ratio := image_text_ratio W soup;
        Result.image_text_ratio_ok :=
          image_text_ratio_ok (image_text_ratio W soup);
        Result.broken_links := broken_among W 0 (global_urls soup);
        Result.all_links_valid :=
          Nat.eqb (List.length (broken_among W 0 (global_urls soup))) 0;
        Result.footer_link_valid :=
          some_alive W (List.length (global_urls soup))
                     (footer_urls soup);
        Result.footer_address_found := footer_address soup |}.
Proof.
  intros Hf E.
  assert (Hno : no_foreign W 0 (global_urls soup) = true).
  { destruct (proj1 (verify_template_returns_iff W url))
      as (resp' & soup' & (Hget' & _ & Hsoup') & Hno); [eauto|].
    destruct Hf as (Hget & _ & Hsoup).
    rewrite Hget in Hget'. injection Hget' as <-.
    rewrite Hsoup in Hsoup'. now injection Hsoup' as <-. }
  split; [exact Hno|].
  destruct (verify_template_returns Hf Hno) as (r' & E' & H).
  rewrite E in E'. injection E' as <- ->. split; [reflexivity | exact H].
Qed.

(** After a fetch with status 200 a response is returned, unless a probe of
    the global loop raises an exception of a foreign class. *)
Lemma verify_template_responds W url resp soup :
  fetched W url resp soup ->
  no_foreign W 0 (global_urls soup) = true ->
  exists r log, verify_template W url [] = (Return r, log).
Proof.
  intros Hf Hno. destruct (verify_template_returns Hf Hno) as (r & E & _). eauto.
Qed.

(* ================================================================== *)
(** * C1: the verdict *)
(* ================================================================== *)

(** C1.  For every document fetched with status 200, the verdict and the
    message of the response are given by exactly one of five rules, tried
    in this order: test content, then a broken global link, then a footer
    flag that is false, then an unbalanced ratio, then pass.  The
    conditions of the five cases exclude each other, and the check fields
    they read are the values computed from the document; in particular a
    test template with a broken global link gets the test-template
    message.  A response is returned whenever the probes of the global
    loop answer with a status or raise a [requests.RequestException]; C2
    has the other case. *)
Theorem C1_verdict_precedence W url resp soup :
  fetched W url resp soup ->
  (no_foreign W 0 (global_urls soup) = true ->
   exists r log, verify_template W url [] = (Return r, log))
  /\ forall r log,
       verify_template W url [] = (Return r, log) ->
       let c := Result.checks_ r in
       Result.is_test_template c = is_test_template soup
       /\ Result.broken_links c = broken_among W 0 (global_urls soup)
       /\ ((Result.is_test_template c = true
            /\ Result.verification r = "fail" /\ Result.message r = message_test)
           \/
           (Result.is_test_template c = false
            /\ Result.broken_links c <> []
            /\ Result.verification r = "fail" /\ Result.message r = message_links)
           \/
           (Result.is_test_template c = false
            /\ Result.broken_links c = []
            /\ (Result.footer_link_valid c = false
                \/ Result.footer_address_found c = false)
            /\ Result.verification r = "fail" /\ Result.message r = message_footer)
           \/
           (Result.is_test_template c = false
            /\ Result.broken_links c = []
            /\ Result.footer_link_valid c = true
            /\ Result.footer_address_found c = true
            /\ Result.image_text_ratio_ok c = false
            /\ Result.verification r = "warning"
            /\ Result.message r = message_ratio)
           \/
           (Result.is_test_template c = false
            /\ Result.broken_links c = []
            /\ Result.footer_link_valid c = true
            /\ Result.footer_address_found c = true
            /\ Result.image_text_ratio_ok c = true
            /\ Result.verification r = "pass"
            /\ Result.message r = message_pass))
       /\ (Result.is_test_template c = true ->
           Result.broken_links c <> [] ->
           Result.verification r = "fail" /\ Result.message r = message_test).
Proof.
  intros Hf. split; [exact (verify_template_responds Hf)|].
  intros r log E.
  destruct (verify_template_inv Hf E)
    as (_ & _ & _ & _ & _ & _ & Hv & Hm & Hc).
  cbv zeta. rewrite Hv, Hm, Hc. unfold verdict.
  cbn [Result.is_test_template Result.broken_links
       Result.footer_link_valid Result.footer_address_found
       Result.image_text_ratio_ok Result.all_links_valid].
  split; [reflexivity|]. split; [reflexivity|]. split.
  - destruct (is_test_template soup); [left; auto|]. right.
    destruct (broken_among W 0 (global_urls soup)) as [|b bs] eqn:Eb.
    + right. cbn [List.length Nat.eqb negb].
      destruct (some_alive W _ _); cbn [negb orb].
      * destruct (footer_address soup); cbn [negb].
        -- right.
           destruct (image_text_ratio_ok (image_text_ratio W soup));
             cbn [negb fst snd]; [right | left]; auto 10.
        -- left. auto 10.
      * left. auto 10.
    + left. cbn [List.length Nat.eqb negb fst snd].
      repeat split; [discriminate].
  - intros -> _. auto.
Qed.

(** A test template with a broken link and a complete footer: rule 1. *)
Lemma C1_verdict_precedence_witness :
  exists r log,
    verify_template Examples.world_test_and_broken "https://t.example/mail.html" []
      = (Return r, log)
    /\ Result.is_test_template (Result.checks_ r) = true
    /\ Result.broken_links (Result.checks_ r) = ["http://bad.example"]
    /\ Result.footer_link_valid (Result.checks_ r) = true
    /\ Result.footer_address_found (Result.checks_ r) = true
    /\ Result.verification r = "fail"
    /\ Result.message r = message_test.
Proof.
  destruct (@C1_verdict_precedence Examples.world_test_and_broken
              "https://t.example/mail.html"
              {| status_code := 200; text := "<html>...</html>" |}
              Examples.soup_test_and_broken)
    as [Hret Hall].
  - split; [|split]; reflexivity.
  - destruct Hret as (r & log & E); [vm_compute; reflexivity|].
    exists r, log. split; [exact E|].
    destruct (Hall r log E) as (Ht & Hb & _ & Hp).
    rewrite Ht, Hb in Hp. rewrite Ht, Hb.
    destruct Hp as [Hv Hm]; [vm_compute; reflexivity | vm_compute; discriminate |].
    vm_compute in E. injection E as <- _.
    repeat split.
Defined.

(* ================================================================== *)
(** * C2: when the endpoint raises *)
(* ================================================================== *)

(** C2, at the failing input.  The fetch answers 200, and the endpoint
    still raises: the exception of the one probe of the global loop is not
    a [requests.RequestException], so neither the handler of the loop nor
    the handler of the endpoint catches it.  The same exception raised by
    a probe of the footer loop is swallowed there. *)
Theorem C2_foreign_exception_escapes :
  fetched ExamplesC2.world_long_label "https://t.example/mail.html"
          {| status_code := 200; text := "<html>...</html>" |}
          ExamplesC2.soup_long_label
  /\ verify_template ExamplesC2.world_long_label "https://t.example/mail.html" []
     = (Raise (OtherException "LocationParseError: label empty or too long"),
        [ExamplesC2.long_label_url])
  /\ check_footer_links ExamplesC2.world_long_label
       [Examples.a ExamplesC2.long_label_url "read more"] []
     = (Return false, [ExamplesC2.long_label_url]).
Proof.
  split; [split; [|split]; reflexivity|]. split; vm_compute; reflexivity.
Qed.

(* ================================================================== *)
(** * C3: test keywords *)
(* ================================================================== *)

Lemma is_test_template_spec soup :
  is_test_template soup = true <->
  exists keyword, In keyword TEST_KEYWORDS /\ Substring keyword (text_content soup).
Proof.
  unfold is_test_template. rewrite existsb_exists.
  split; intros (k & Hk & H); exists k; (split; [assumption|]);
    now apply contains_spec.
Qed.

(** C3 as stated fails: the text node [Lorem  ipsum dolor sit amet] keeps
    its two spaces in the text that the source searches, so the keyword
    [lorem ipsum] is not found and no other keyword occurs, although the
    whitespace-collapsed, lowercased text contains [lorem ipsum]. *)
Lemma C3_counterexample :
  exists r log,
    verify_template ExamplesC3.world_lorem "https://t.example/mail.html" []
      = (Return r, log)
    /\ Result.is_test_template (Result.checks_ r) = false
    /\ In "lorem ipsum" TEST_KEYWORDS
    /\ Substring "lorem ipsum"
         (whitespace_collapsed (Soup.get_text " " ExamplesC3.soup_lorem)).
Proof.
  eexists. eexists. split; [vm_compute; reflexivity|].
  split; [reflexivity|]. split; [simpl; tauto|].
  apply contains_spec. vm_compute. reflexivity.
Qed.

(** C3, amended.  For every document fetched with status 200,
    [is_test_template] is true exactly when the text that the source
    searches contains one of the seven keywords as a literal substring; the
    text is the text nodes of the document, each stripped, the empty ones
    dropped, joined by single spaces and lowercased, with the whitespace
    inside a text node kept as written.  No word boundary is required:
    text containing [latest] matches through the embedded [test].  A
    response is returned whenever the probes of the global loop answer with
    a status or raise a [requests.RequestException]; C2 has the other
    case. *)
Theorem C3_test_keywords W url resp soup :
  fetched W url resp soup ->
  (no_foreign W 0 (global_urls soup) = true ->
   exists r log, verify_template W url [] = (Return r, log))
  /\ forall r log,
       verify_template W url [] = (Return r, log) ->
       let searched :=
         Py.lower (Py.join " " (filter Py.nonempty
                                  (map Py.strip (Soup.strings soup)))) in
       (Result.is_test_template (Result.checks_ r) = true <->
        exists keyword,
          In keyword [ "test"; "dummy"; "lorem ipsum"; "sample template";
                       "placeholder"; "example"; "this is a test" ]
          /\ Substring keyword searched)
       /\ (Substring "latest" searched ->
           Result.is_test_template (Result.checks_ r) = true).
Proof.
  intros Hf. split; [exact (verify_template_responds Hf)|].
  intros r log E.
  destruct (verify_template_inv Hf E)
    as (_ & _ & _ & _ & _ & _ & _ & _ & Hc).
  cbv zeta. rewrite Hc. cbn [Result.is_test_template].
  change (Py.lower _) with (text_content soup).
  split; [apply is_test_template_spec|].
  intros H. apply is_test_template_spec. exists "test". split; [now left|].
  apply Substring_trans with (b := "latest"); [|assumption].
  now exists "la", "".
Qed.

(** The heading [  Latest News ] makes the document a test template. *)
Lemma C3_test_keywords_witness :
  exists r log,
    verify_template ExamplesC3.world_latest "https://t.example/mail.html" []
      = (Return r, log)
    /\ text_content ExamplesC3.soup_latest
       = "latest news 123 main street, springfield, il 62704 home"
    /\ Result.is_test_template (Result.checks_ r) = true.
Proof.
  destruct (@C3_test_keywords ExamplesC3.world_latest
              "https://t.example/mail.html"
              {| status_code := 200; text := "<html>...</html>" |}
              ExamplesC3.soup_latest)
    as [Hret Hall].
  - split; [|split]; reflexivity.
  - destruct Hret as (r & log & E); [vm_compute; reflexivity|].
    exists r, log. split; [exact E|]. split; [vm_compute; reflexivity|].
    apply (Hall r log E). apply contains_spec. vm_compute. reflexivity.
Defined.

(* ================================================================== *)
(** * Floating point: the quotient of two lengths *)
(* ================================================================== *)

Module FloatFacts.
Local Open Scope Z_scope.

Lemma digits2_pos_bounds (p : positive) :
  2 ^ (Zpos (digits2_pos p) - 1) <= Zpos p < 2 ^ Zpos (digits2_pos p).
Proof.
  induction p as [p IH|p IH|]; cbn [digits2_pos].
  - rewrite Pos2Z.inj_succ.
    replace (Z.succ (Zpos (digits2_pos p)) - 1) with (Z.succ (Zpos (digits2_pos p) - 1)) by lia.
    rewrite !Z.pow_succ_r by lia. lia.
  - rewrite Pos2Z.inj_succ.
    replace (Z.succ (Zpos (digits2_pos p)) - 1) with (Z.succ (Zpos (digits2_pos p) - 1)) by lia.
    rewrite !Z.pow_succ_r by lia. lia.
  - simpl. lia.
Qed.

Lemma digits2_pos_unique (p : positive) (k : Z) :
  2 ^ (k - 1) <= Zpos p < 2 ^ k -> Zpos (digits2_pos p) = k.
Proof.
  intros [Hlo Hhi]. pose proof (digits2_pos_bounds p) as [Dlo Dhi].
  assert (0 < k).
  { destruct (Z.ltb_spec 0 k); [assumption|].
    assert (2 ^ k <= 2 ^ 0) by (destruct (Z.eq_dec k 0); [subst; lia|rewrite Z.pow_neg_r by lia; simpl; lia]).
    simpl in *. lia. }
  set (d := Zpos (digits2_pos p)) in *.
  destruct (Z.lt_trichotomy d k) as [Hlt|[Heq|Hgt]]; [|assumption|].
  - assert (2 ^ d <= 2 ^ (k - 1)) by (apply Z.pow_le_mono_r; lia). lia.
  - assert (2 ^ k <= 2 ^ (d - 1)) by (apply Z.pow_le_mono_r; lia). lia.
Qed.

Lemma new_location_spec (b r : Z) :
  0 < b -> 0 <= r < b ->
  (r = 0 /\ new_location b r = loc_Exact)
  \/ (0 < r /\ 2 * r < b /\ new_location b r = loc_Inexact Lt)
  \/ (2 * r = b /\ new_location b r = loc_Inexact Eq)
  \/ (b < 2 * r /\ new_location b r = loc_Inexact Gt).
Proof.
  intros Hb Hr. unfold new_location.
  destruct (Z.even b) eqn:Ev.
  - unfold new_location_even. destruct (Z.eqb_spec r 0) as [->|Hr0]; [now left|].
    right.
    destruct (Z.compare_spec (2 * r) b); [right; left | left | right; right];
      repeat split; try reflexivity; lia.
  - unfold new_location_odd. destruct (Z.eqb_spec r 0) as [->|Hr0]; [now left|].
    right.
    assert (Hodd : Z.odd b = true) by (rewrite <- Z.negb_even, Ev; reflexivity).
    apply Z.odd_spec in Hodd as [h Hh].
    destruct (Z.compare_spec (2 * r + 1) b); [left | left | right; right];
      repeat split; try reflexivity; lia.
Qed.

Lemma shr_record_of_loc_m m l : shr_m (shr_record_of_loc m l) = m.
Proof. destruct l as [|[]]; reflexivity. Qed.

Lemma loc_of_shr_record_of_loc m l :
  loc_of_shr_record (shr_record_of_loc m l) = l.
Proof. destruct l as [|[]]; reflexivity. Qed.

Lemma Zdigits2_53 q : 2 ^ 52 <= q < 2 ^ 53 -> Zdigits2 q = 53.
Proof.
  intros H. destruct q as [|p|p]; try (simpl in H; lia).
  simpl. now apply digits2_pos_unique.
Qed.

Lemma Zdigits2_54 q : 2 ^ 53 <= q < 2 ^ 54 -> Zdigits2 q = 54.
Proof.
  intros H. destruct q as [|p|p]; try (simpl in H; lia).
  simpl. now apply digits2_pos_unique.
Qed.

Lemma fexp_normal e : -1021 <= e -> fexp 53 1024 e = e - 53.
Proof. intros H. unfold fexp, emin. lia. Qed.

(** No shift is needed for a mantissa of 53 bits. *)
Lemma shr_fexp_53 m e l :
  2 ^ 52 <= m < 2 ^ 53 -> -1000 <= e ->
  shr_fexp 53 1024 m e l = (shr_record_of_loc m l, e).
Proof.
  intros Hm He. unfold shr_fexp. rewrite (Zdigits2_53 Hm), fexp_normal by lia.
  replace (53 + e - 53 - e) with 0 by lia. reflexivity.
Qed.

(** A mantissa of 54 bits is shifted by one place. *)
Lemma shr_fexp_54 m e l :
  2 ^ 53 <= m < 2 ^ 54 -> -1000 <= e ->
  shr_fexp 53 1024 m e l = (shr_1 (shr_record_of_loc m l), e + 1).
Proof.
  intros Hm He. unfold shr_fexp. rewrite (Zdigits2_54 Hm), fexp_normal by lia.
  replace (54 + e - 53 - e) with 1 by lia. reflexivity.
Qed.

Lemma round_no_shift q r d :
  0 < d -> 0 <= r < d ->
  let m := round_nearest_even q (new_location d r) in
  q <= m <= q + 1 /\ nearest m (q * d + r) d.
Proof.
  intros Hd Hr. unfold nearest.
  destruct (new_location_spec Hd Hr)
    as [[H0 ->]|[(H0 & H1 & ->)|[[H0 ->]|[H0 ->]]]]; cbn [round_nearest_even].
  - split; lia.
  - split; lia.
  - destruct (Z.even q); split; lia.
  - split; lia.
Qed.

Lemma round_one_shift p r d :
  0 < d -> 0 <= r < d ->
  let mrs := shr_1 (shr_record_of_loc (Zpos p) (new_location d r)) in
  let m := round_nearest_even (shr_m mrs) (loc_of_shr_record mrs) in
  (p <> 1)%positive ->
  Z.div2 (Zpos p) <= m <= Z.div2 (Zpos p) + 1
  /\ nearest m (Zpos p * d + r) (2 * d).
Proof.
  intros Hd Hr. unfold nearest.
  destruct (new_location_spec Hd Hr)
    as [[H0 ->]|[(H0 & H1 & ->)|[[H0 ->]|[H0 ->]]]];
    destruct p as [h|h|];
    cbn [shr_1 shr_record_of_loc shr_m loc_of_shr_record round_nearest_even
         orb Z.div2 Pos.div2];
    intros Hp; try congruence;
    try (destruct (Z.even (Zpos h))); split; lia.
Qed.

Lemma round_carry m e :
  2 ^ 52 <= m <= 2 ^ 53 -> -1000 <= e ->
  exists mrs e',
    shr_fexp 53 1024 m e loc_Exact = (mrs, e')
    /\ ((m < 2 ^ 53 /\ shr_m mrs = m /\ e' = e)
        \/ (m = 2 ^ 53 /\ shr_m mrs = 2 ^ 52 /\ e' = e + 1)).
Proof.
  intros Hm He. destruct (Z.eq_dec m (2 ^ 53)) as [->|Hne].
  - rewrite shr_fexp_54 by lia. eexists. eexists. split; [reflexivity|].
    right. split; [reflexivity|]. split; reflexivity.
  - rewrite shr_fexp_53 by lia. eexists. eexists. split; [reflexivity|].
    left. split; [lia|]. split; reflexivity.
Qed.

Lemma nearest_carry n d :
  0 < d -> nearest (2 ^ 53) n d -> nearest (2 ^ 52) n (2 * d).
Proof. unfold nearest. intros Hd H. change (2 ^ 53) with 9007199254740992 in H.
  change (2 ^ 52) with 4503599627370496. lia. Qed.

Lemma finish_round (mrs : shr_record) (e : Z) (m : Z) :
  shr_m mrs = m -> 2 ^ 52 <= m < 2 ^ 53 -> e <= 0 ->
  exists p,
    match shr_m mrs with
    | Z0 => S754_zero false
    | Zpos p => if Z.leb e (1024 - 53) then S754_finite false p e
                else S754_infinity false
    | Zneg _ => S754_nan
    end = S754_finite false p e
    /\ Zpos p = m.
Proof.
  intros -> Hm He. destruct m as [|p|p]; try (simpl in Hm; lia).
  exists p. split; [|reflexivity].
  destruct (Z.leb_spec e (1024 - 53)); [reflexivity | lia].
Qed.

(** The rounding step of a division: from a quotient [q] of 53 or 54 bits
    at exponent [e] and the remainder [r], the result is a float
    [m * 2 ^ (e + k)] whose mantissa has 53 bits and is an integer nearest
    to the exact quotient scaled by [2 ^ k]. *)
Lemma binary_round_aux_nearest q e r d :
  2 ^ 52 <= q < 2 ^ 54 -> -1000 <= e <= -2 -> 0 < d -> 0 <= r < d ->
  exists m k c,
    binary_round_aux 53 1024 false q e (new_location d r)
      = S754_finite false m (e + k)
    /\ 2 ^ 52 <= Zpos m < 2 ^ 53
    /\ ((k = 0 /\ c = 1) \/ (k = 1 /\ c = 2) \/ (k = 2 /\ c = 4))
    /\ nearest (Zpos m) (q * d + r) (c * d).
Proof.
  intros Hq He Hd Hr. unfold binary_round_aux.
  destruct (Z.lt_ge_cases q (2 ^ 53)) as [Hlt|Hge].
  - rewrite shr_fexp_53 by lia.
    rewrite shr_record_of_loc_m, loc_of_shr_record_of_loc.
    destruct (@round_no_shift q r d Hd Hr) as [Hm1 Hn].
    set (m1 := round_nearest_even q (new_location d r)) in *.
    destruct (@round_carry m1 e) as (mrs & e2 & E & [(H1 & H2 & ->)|(H1 & H2 & ->)]);
      try lia; rewrite E.
    + destruct (@finish_round mrs e m1) as (p & -> & Hp); try lia.
      exists p, 0, 1. rewrite Z.add_0_r, Hp, Z.mul_1_l.
      split; [reflexivity|]. split; [lia|]. split; [auto|]. exact Hn.
    + destruct (@finish_round mrs (e + 1) (2 ^ 52)) as (p & -> & Hp);
        try assumption; try lia.
      exists p, 1, 2. rewrite Hp.
      split; [reflexivity|]. split; [lia|]. split; [auto|].
      apply nearest_carry; [assumption|]. now rewrite <- H1.
  - rewrite shr_fexp_54 by lia.
    destruct q as [|p|p]; try (simpl in Hge; lia).
    assert (Hp1 : (p <> 1)%positive) by (intros ->; simpl in Hge; lia).
    destruct (@round_one_shift p r d Hd Hr Hp1) as [Hm1 Hn].
    set (mrs1 := shr_1 (shr_record_of_loc (Z.pos p) (new_location d r))) in *.
    set (m1 := round_nearest_even (shr_m mrs1) (loc_of_shr_record mrs1)) in *.
    assert (Hdiv : 2 ^ 52 <= Z.div2 (Z.pos p) < 2 ^ 53).
    { rewrite Z.div2_div. change (2 ^ 53) with (2 * 2 ^ 52) in Hge.
      change (2 ^ 54) with (2 * 2 ^ 53) in Hq. split.
      - apply Z.div_le_lower_bound; lia.
      - apply Z.div_lt_upper_bound; lia. }
    destruct (@round_carry m1 (e + 1))
      as (mrs & e2 & E & [(H1 & H2 & ->)|(H1 & H2 & ->)]);
      try lia; rewrite E.
    + destruct (@finish_round mrs (e + 1) m1) as (p' & -> & Hp); try lia.
      exists p', 1, 2. rewrite Hp.
      split; [reflexivity|]. split; [lia|]. split; [auto|]. exact Hn.
    + destruct (@finish_round mrs (e + 1 + 1) (2 ^ 52)) as (p' & -> & Hp);
        try assumption; try lia.
      exists p', 2, 4. rewrite Hp.
      replace (e + 1 + 1) with (e + 2) by lia.
      split; [reflexivity|]. split; [lia|]. split; [auto|].
      replace (4 * d) with (2 * (2 * d)) by lia.
      apply nearest_carry; [lia|]. now rewrite <- H1.
Qed.

Lemma digits2_pos_le (p : positive) (k : Z) :
  0 <= k -> Zpos p < 2 ^ k -> 1 <= Zpos (digits2_pos p) <= k.
Proof.
  intros Hk Hp. pose proof (digits2_pos_bounds p) as [Hlo _].
  split; [lia|].
  destruct (Z.le_gt_cases (Zpos (digits2_pos p)) k) as [H|H]; [assumption|].
  assert (2 ^ k <= 2 ^ (Zpos (digits2_pos p) - 1)) by (apply Z.pow_le_mono_r; lia).
  lia.
Qed.

(** The quotient of two integers below [2 ^ 52], as [SFdiv] computes it: a
    float [m * 2 ^ (- t)] whose mantissa has 53 bits and is an integer
    nearest to the exact quotient scaled by [2 ^ t]. *)
Lemma SFdiv_nearest (ma mb : positive) :
  Zpos ma < 2 ^ 52 -> Zpos mb < 2 ^ 52 ->
  exists m t,
    SFdiv 53 1024 (S754_finite false ma 0) (S754_finite false mb 0)
      = S754_finite false m (- t)
    /\ 2 ^ 52 <= Zpos m < 2 ^ 53
    /\ 0 <= t
    /\ nearest (Zpos m) (Zpos ma * 2 ^ t) (Zpos mb).
Proof.
  intros Ha Hb. unfold SFdiv, SFdiv_core_binary. cbn [xorb Zdigits2].
  pose proof (digits2_pos_bounds ma) as [Ha1 Ha2].
  pose proof (digits2_pos_bounds mb) as [Hb1 Hb2].
  pose proof (@digits2_pos_le ma 52 ltac:(lia) Ha) as Hd1.
  pose proof (@digits2_pos_le mb 52 ltac:(lia) Hb) as Hd2.
  set (d1 := Zpos (digits2_pos ma)) in *.
  set (d2 := Zpos (digits2_pos mb)) in *.
  set (a := Zpos ma) in *. set (b := Zpos mb) in *.
  replace (d1 + 0 - (d2 + 0)) with (d1 - d2) by lia.
  rewrite fexp_normal by lia.
  replace (Z.min (d1 - d2 - 53) (0 - 0)) with (d1 - d2 - 53) by lia.
  set (e := d1 - d2 - 53).
  set (s := 53 + d2 - d1).
  replace (0 - 0 - e) with s by (unfold e, s; lia).
  assert (Hs : 2 <= s <= 104) by (unfold s; lia).
  assert (Hm' : match s with
                | Z0 => a
                | Zpos _ => Z.shiftl a s
                | Zneg _ => 0
                end = a * 2 ^ s).
  { destruct s as [|ps|ps] eqn:Es; try lia. now rewrite Z.shiftl_mul_pow2 by lia. }
  rewrite Hm'. clear Hm'.
  assert (Hbpos : 0 < b) by (unfold b; lia).
  pose proof (Z_div_mod (a * 2 ^ s) b ltac:(lia)) as Hdiv.
  destruct (Z.div_eucl (a * 2 ^ s) b) as [q r]. destruct Hdiv as [Hqr Hr].
  (* the quotient has 53 or 54 bits *)
  assert (Hpow_lo : 2 ^ 52 * 2 ^ d2 = 2 ^ (d1 - 1) * 2 ^ s).
  { rewrite <- !Z.pow_add_r by lia. f_equal. unfold s. lia. }
  assert (Hpow_hi : 2 ^ d1 * 2 ^ s = 2 ^ 54 * 2 ^ (d2 - 1)).
  { rewrite <- !Z.pow_add_r by lia. f_equal. unfold s. lia. }
  assert (Hs0 : 0 < 2 ^ s) by (apply Z.pow_pos_nonneg; lia).
  assert (Hlo : 2 ^ 52 * b < a * 2 ^ s + 2 ^ s).
  { assert (2 ^ 52 * b < 2 ^ 52 * 2 ^ d2) by (apply Z.mul_lt_mono_pos_l; lia).
    assert (2 ^ (d1 - 1) * 2 ^ s <= a * 2 ^ s) by (apply Z.mul_le_mono_nonneg_r; lia).
    lia. }
  assert (Hlo' : 2 ^ 52 * b <= a * 2 ^ s).
  { assert (2 ^ 52 * b < 2 ^ 52 * 2 ^ d2) by (apply Z.mul_lt_mono_pos_l; lia).
    assert (2 ^ (d1 - 1) * 2 ^ s <= a * 2 ^ s) by (apply Z.mul_le_mono_nonneg_r; lia).
    lia. }
  assert (Hhi : a * 2 ^ s < 2 ^ 54 * b).
  { assert (a * 2 ^ s < 2 ^ d1 * 2 ^ s) by (apply Z.mul_lt_mono_pos_r; lia).
    assert (2 ^ 54 * 2 ^ (d2 - 1) <= 2 ^ 54 * b) by (apply Z.mul_le_mono_nonneg_l; lia).
    lia. }
  assert (Hq : 2 ^ 52 <= q < 2 ^ 54).
  { split.
    - destruct (Z.le_gt_cases (2 ^ 52) q) as [H|H]; [assumption|].
      assert (b * q <= b * (2 ^ 52 - 1)) by (apply Z.mul_le_mono_nonneg_l; lia).
      lia.
    - destruct (Z.lt_ge_cases q (2 ^ 54)) as [H|H]; [assumption|].
      assert (b * 2 ^ 54 <= b * q) by (apply Z.mul_le_mono_nonneg_l; lia).
      lia. }
  destruct (@binary_round_aux_nearest q e r b Hq ltac:(unfold e; lia) Hbpos Hr)
    as (m & k & c & E & Hm & Hk & Hn).
  exists m, (s - k). rewrite E.
  split; [f_equal; unfold e, s; lia|]. split; [assumption|]. split; [lia|].
  assert (Hc : 2 ^ s = 2 ^ (s - k) * c /\ 0 < c).
  { destruct Hk as [[-> ->]|[[-> ->]|[-> ->]]].
    - rewrite Z.sub_0_r. lia.
    - replace s with (s - 1 + 1) at 1 by lia. rewrite Z.pow_add_r by lia. lia.
    - replace s with (s - 2 + 2) at 1 by lia. rewrite Z.pow_add_r by lia. lia. }
  destruct Hc as [Hc Hc0]. unfold nearest in *.
  replace (q * b + r) with (a * 2 ^ (s - k) * c) in Hn by (rewrite Hc in Hqr; lia).
  split.
  - apply Z.mul_le_mono_pos_r with (p := c); [assumption|]. lia.
  - apply Z.mul_le_mono_pos_r with (p := c); [assumption|]. lia.
Qed.

Lemma SFleb_finite_pos m1 e1 m2 e2 :
  SFleb (S754_finite false m1 e1) (S754_finite false m2 e2) = true <->
  e1 < e2 \/ (e1 = e2 /\ Zpos m1 <= Zpos m2).
Proof.
  unfold SFleb. cbn [SFcompare].
  destruct (Z.compare_spec e1 e2) as [H|H|H].
  - change (Pos.compare_cont Eq m1 m2) with (Pos.compare m1 m2).
    rewrite Pos2Z.inj_compare.
    destruct (Z.compare_spec (Zpos m1) (Zpos m2)) as [Hm|Hm|Hm].
    + split; [intros _; right; split; lia | reflexivity].
    + split; [intros _; right; split; lia | reflexivity].
    + split; [discriminate | intros [H0|[_ H0]]; lia].
  - split; [intros _; left; lia | reflexivity].
  - split; [discriminate | intros [H0|[H0 _]]; lia].
Qed.

Lemma le_f0_1_finite m t :
  Py.le Py.f0_1 (S754_finite false m (- t)) = true <->
  t < 56 \/ (t = 56 /\ 7205759403792794 <= Zpos m).
Proof. unfold Py.le, Py.f0_1. rewrite SFleb_finite_pos. lia. Qed.

Lemma le_f2_0_finite m t :
  Py.le (S754_finite false m (- t)) Py.f2_0 = true <->
  51 < t \/ (t = 51 /\ Zpos m <= 4503599627370496).
Proof. unfold Py.le, Py.f2_0. rewrite SFleb_finite_pos. lia. Qed.

Lemma nearest_ge_tenth m t a b :
  2 ^ 52 <= m < 2 ^ 53 -> 0 <= t -> 0 < a -> 0 < b < 2 ^ 52 ->
  nearest m (a * 2 ^ t) b ->
  (t < 56 \/ (t = 56 /\ 7205759403792794 <= m)) <-> b <= 10 * a.
Proof.
  unfold nearest. intros Hm Ht Ha Hb [Hlo Hhi].
  change (2 ^ 52) with 4503599627370496 in *.
  change (2 ^ 53) with 9007199254740992 in *.
  assert (Hmb1 : 4503599627370496 * b <= m * b) by (apply Z.mul_le_mono_nonneg_r; lia).
  assert (Hmb2 : m * b <= 9007199254740991 * b) by (apply Z.mul_le_mono_nonneg_r; lia).
  split.
  - intros [H|[-> H]].
    + assert (2 ^ t <= 2 ^ 55) by (apply Z.pow_le_mono_r; lia).
      assert (a * 2 ^ t <= a * 2 ^ 55) by (apply Z.mul_le_mono_nonneg_l; lia).
      change (2 ^ 55) with 36028797018963968 in *. lia.
    + assert (7205759403792794 * b <= m * b) by (apply Z.mul_le_mono_nonneg_r; lia).
      change (2 ^ 56) with 72057594037927936 in *. lia.
  - intros H. destruct (Z.lt_trichotomy t 56) as [Hlt|[Heq|Hgt]]; [now left| |].
    + right. split; [assumption|]. subst t.
      destruct (Z.le_gt_cases 7205759403792794 m) as [Hle|Hgt]; [assumption|].
      assert (m * b <= 7205759403792793 * b) by (apply Z.mul_le_mono_nonneg_r; lia).
      change (2 ^ 56) with 72057594037927936 in *. lia.
    + assert (2 ^ 57 <= 2 ^ t) by (apply Z.pow_le_mono_r; lia).
      assert (a * 2 ^ 57 <= a * 2 ^ t) by (apply Z.mul_le_mono_nonneg_l; lia).
      change (2 ^ 57) with 144115188075855872 in *. lia.
Qed.

Lemma nearest_le_two m t a b :
  2 ^ 52 <= m < 2 ^ 53 -> 0 <= t -> 0 < a -> 0 < b < 2 ^ 52 ->
  nearest m (a * 2 ^ t) b ->
  (51 < t \/ (t = 51 /\ m <= 4503599627370496)) <-> a <= 2 * b.
Proof.
  unfold nearest. intros Hm Ht Ha Hb [Hlo Hhi].
  change (2 ^ 52) with 4503599627370496 in *.
  change (2 ^ 53) with 9007199254740992 in *.
  assert (Hmb1 : 4503599627370496 * b <= m * b) by (apply Z.mul_le_mono_nonneg_r; lia).
  assert (Hmb2 : m * b <= 9007199254740991 * b) by (apply Z.mul_le_mono_nonneg_r; lia).
  split.
  - intros [H|[-> H]].
    + assert (2 ^ 52 <= 2 ^ t) by (apply Z.pow_le_mono_r; lia).
      assert (a * 2 ^ 52 <= a * 2 ^ t) by (apply Z.mul_le_mono_nonneg_l; lia).
      change (2 ^ 52) with 4503599627370496 in *. lia.
    + assert (m * b <= 4503599627370496 * b) by (apply Z.mul_le_mono_nonneg_r; lia).
      change (2 ^ 51) with 2251799813685248 in *. lia.
  - intros H. destruct (Z.lt_trichotomy t 51) as [Hlt|[Heq|Hgt]]; [| |now left].
    + assert (2 ^ t <= 2 ^ 50) by (apply Z.pow_le_mono_r; lia).
      assert (a * 2 ^ t <= a * 2 ^ 50) by (apply Z.mul_le_mono_nonneg_l; lia).
      change (2 ^ 50) with 1125899906842624 in *. lia.
    + right. split; [assumption|]. subst t.
      destruct (Z.le_gt_cases m 4503599627370496) as [Hle|Hgt]; [assumption|].
      assert (4503599627370497 * b <= m * b) by (apply Z.mul_le_mono_nonneg_r; lia).
      change (2 ^ 51) with 2251799813685248 in *. lia.
Qed.

(** The balance test on the quotient of two lengths below [2 ^ 52] decides
    the exact inequalities [b <= 10 a] and [a <= 2 b]: rounding the
    quotient to a double never moves it across [0.1] or [2.0]. *)
Lemma image_text_ratio_ok_exact (a b : nat) :
  (0 < b)%nat -> Z.of_nat a < 2 ^ 52 -> Z.of_nat b < 2 ^ 52 ->
  image_text_ratio_ok (Py.truediv a b) = true <->
  (b <= 10 * a /\ a <= 2 * b)%nat.
Proof.
  intros Hb Ha52 Hb52. unfold Py.truediv.
  destruct (N.of_nat b) as [|mb] eqn:Eb; [lia|].
  destruct (N.of_nat a) as [|ma] eqn:Ea.
  - assert (a = 0%nat) by lia. subst a.
    split; [vm_compute; discriminate | lia].
  - assert (Hza : Z.of_nat a = Zpos ma) by lia.
    assert (Hzb : Z.of_nat b = Zpos mb) by lia.
    destruct (@SFdiv_nearest ma mb) as (m & t & -> & Hm & Ht & Hn); try lia.
    unfold image_text_ratio_ok.
    rewrite andb_true_iff, le_f0_1_finite, le_f2_0_finite.
    rewrite (@nearest_ge_tenth (Zpos m) t (Zpos ma) (Zpos mb)) by (assumption || lia).
    rewrite (@nearest_le_two (Zpos m) t (Zpos ma) (Zpos mb)) by (assumption || lia).
    lia.
Qed.

End FloatFacts.

(* ================================================================== *)
(** * C4: image to text ratio *)
(* ================================================================== *)

(** A ratio that passes the test [0.1 <= ratio <= 2.0] is a finite
    positive number; infinity, zero and NaN do not pass. *)
Lemma image_text_ratio_ok_finite ratio :
  image_text_ratio_ok ratio = true -> exists m e, ratio = S754_finite false m e.
Proof.
  destruct ratio as [s|s| |s m e].
  - destruct s; vm_compute; discriminate.
  - destruct s; vm_compute; discriminate.
  - vm_compute; discriminate.
  - destruct s; [|intros _; eauto].
    intros H. apply andb_true_iff in H as [H _].
    unfold Py.le, SFleb, Py.f0_1 in H. cbn [SFcompare] in H. discriminate.
Qed.

(** The quotient at and around the two bounds: [1/10] and [2/1] are
    balanced, [99/1000] and [2001/1000] are not, and [1/3] is the double
    [0x1.5555555555555p-2]. *)
Lemma truediv_at_the_bounds :
  Py.truediv 1 10 = Py.f0_1
  /\ Py.truediv 2 1 = Py.f2_0
  /\ Py.truediv 1 3 = S754_finite false 6004799503160661 (-54)
  /\ image_text_ratio_ok (Py.truediv 1 10) = true
  /\ image_text_ratio_ok (Py.truediv 2 1) = true
  /\ image_text_ratio_ok (Py.truediv 99 1000) = false
  /\ image_text_ratio_ok (Py.truediv 2001 1000) = false
  /\ image_text_ratio_ok (Py.truediv 0 7) = false.
Proof. repeat split; vm_compute; reflexivity. Qed.

(** C4.  For every document fetched with status 200, [image_text_ratio] is
    the sum of the lengths of [str(img)] over the [img] elements of the
    document divided by the length of the extracted text, and positive
    infinity when that length is zero.  Divided means: the ratio is zero
    when there is no image markup, and otherwise, for lengths below
    [2 ^ 52], it is the double [m * 2 ^ (- t)] with a mantissa [m] of 53
    bits that lies within half a unit of [img_len * 2 ^ t / text_len].
    [image_text_ratio_ok] is true exactly when [0.1 <= ratio] and
    [ratio <= 2.0], which for such lengths is exactly when
    [text_len <= 10 * img_len] and [img_len <= 2 * text_len]; it is false
    for infinity.  A response is returned whenever the probes of the
    global loop answer with a status or raise a
    [requests.RequestException]; C2 has the other case. *)
Theorem C4_image_text_ratio W url resp soup :
  fetched W url resp soup ->
  (no_foreign W 0 (global_urls soup) = true ->
   exists r log, verify_template W url [] = (Return r, log))
  /\ forall r log,
       verify_template W url [] = (Return r, log) ->
       let imgs := Soup.find_all "img" Soup.any_attrs soup in
       let img_len := list_sum (map (fun img => String.length (str W img)) imgs) in
       let text_len := String.length (text_content soup) in
       let ratio := Result.image_text_ratio (Result.checks_ r) in
       let ok := Result.image_text_ratio_ok (Result.checks_ r) in
       (forall x, In x imgs <->
                  In x (Soup.descendants soup)
                  /\ exists attrs contents, x = Soup.Tag "img" attrs contents)
       /\ (text_len = 0 -> ratio = S754_infinity false /\ ok = false)
       /\ (text_len <> 0 -> ratio = Py.truediv img_len text_len)
       /\ (text_len <> 0 -> img_len = 0 -> ratio = S754_zero false /\ ok = false)
       /\ (text_len <> 0 -> img_len <> 0 ->
           (Z.of_nat img_len < 2 ^ 52)%Z -> (Z.of_nat text_len < 2 ^ 52)%Z ->
           exists m t,
             ratio = S754_finite false m (- t)
             /\ (2 ^ 52 <= Zpos m < 2 ^ 53)%Z /\ (0 <= t)%Z
             /\ nearest (Zpos m) (Z.of_nat img_len * 2 ^ t) (Z.of_nat text_len))
       /\ (ok = true <-> Py.le Py.f0_1 ratio = true /\ Py.le ratio Py.f2_0 = true)
       /\ (text_len <> 0 ->
           (Z.of_nat img_len < 2 ^ 52)%Z -> (Z.of_nat text_len < 2 ^ 52)%Z ->
           (ok = true <-> text_len <= 10 * img_len /\ img_len <= 2 * text_len))
       /\ (ratio = S754_infinity false -> ok = false).
Proof.
  intros Hf. split; [exact (verify_template_responds Hf)|].
  intros r log E.
  destruct (verify_template_inv Hf E)
    as (_ & _ & _ & _ & _ & _ & _ & _ & Hc).
  cbv zeta. rewrite Hc. cbn [Result.image_text_ratio Result.image_text_ratio_ok].
  assert (Hdiv : String.length (text_content soup) <> 0 ->
                 image_text_ratio W soup
                 = Py.truediv (total_img_len W soup) (total_text_len soup)).
  { intros H0. unfold image_text_ratio, total_text_len.
    apply Nat.eqb_neq in H0. now rewrite H0. }
  fold (total_img_len W soup). fold (total_text_len soup) in *.
  split; [|split; [|split; [|split; [|split; [|split; [|split]]]]]].
  - intros x. rewrite SoupFacts.find_all_spec, SoupFacts.named_spec.
    unfold Soup.any_attrs. tauto.
  - intros H0. unfold image_text_ratio. rewrite H0.
    split; reflexivity.
  - exact Hdiv.
  - intros H0 Hi. rewrite (Hdiv H0), Hi. unfold Py.truediv.
    destruct (N.of_nat (total_text_len soup)) eqn:Et; [lia|].
    split; reflexivity.
  - intros H0 Hi Hi52 Ht52. rewrite (Hdiv H0). unfold Py.truediv.
    destruct (N.of_nat (total_text_len soup)) as [|mb] eqn:Et; [lia|].
    destruct (N.of_nat (total_img_len W soup)) as [|ma] eqn:Ei; [lia|].
    assert (Hza : Z.of_nat (total_img_len W soup) = Zpos ma) by lia.
    assert (Hzb : Z.of_nat (total_text_len soup) = Zpos mb) by lia.
    rewrite Hza, Hzb in *.
    destruct (@FloatFacts.SFdiv_nearest ma mb Hi52 Ht52)
      as (m & t & Em & Hm & Ht & Hn).
    exists m, t. auto.
  - unfold image_text_ratio_ok. apply andb_true_iff.
  - intros H0 Hi52 Ht52. rewrite (Hdiv H0).
    apply FloatFacts.image_text_ratio_ok_exact; [lia | assumption | assumption].
  - intros ->. reflexivity.
Qed.

(** A text of 42 characters beside 21 characters of image markup: the
    ratio is the double [0.5] and balanced.  A document of images only: the
    ratio is infinite and not balanced. *)
Lemma C4_image_text_ratio_witness :
  (exists r log,
     verify_template ExamplesC4.world_half "https://t.example/mail.html" []
       = (Return r, log)
     /\ String.length (text_content ExamplesC4.soup_half) = 42
     /\ Result.image_text_ratio (Result.checks_ r)
        = S754_finite false 4503599627370496 (-53)
     /\ Result.image_text_ratio_ok (Result.checks_ r) = true)
  /\ (exists r log,
        verify_template ExamplesC4.world_images_only "https://t.example/mail.html" []
          = (Return r, log)
        /\ text_content ExamplesC4.soup_images_only = EmptyString
        /\ Result.image_text_ratio (Result.checks_ r) = S754_infinity false
        /\ Result.image_text_ratio_ok (Result.checks_ r) = false).
Proof.
  split.
  - destruct (@C4_image_text_ratio ExamplesC4.world_half
                "https://t.example/mail.html"
                {| status_code := 200; text := "<html>...</html>" |}
                ExamplesC4.soup_half)
      as [Hret Hall].
    + split; [|split]; reflexivity.
    + destruct Hret as (r & log & E); [vm_compute; reflexivity|].
      exists r, log. split; [exact E|]. split; [vm_compute; reflexivity|].
      destruct (Hall r log E) as (_ & _ & Hdiv & _ & _ & _ & Hok & _).
      split.
      * rewrite Hdiv by (vm_compute; discriminate). vm_compute. reflexivity.
      * apply Hok;
          first [ now (vm_compute; discriminate)
                | now (vm_compute; reflexivity)
                | (vm_compute; split; lia) ].
  - destruct (@C4_image_text_ratio ExamplesC4.world_images_only
                "https://t.example/mail.html"
                {| status_code := 200; text := "<html>...</html>" |}
                ExamplesC4.soup_images_only)
      as [Hret Hall].
    + split; [|split]; reflexivity.
    + destruct Hret as (r & log & E); [vm_compute; reflexivity|].
      exists r, log. split; [exact E|]. split; [vm_compute; reflexivity|].
      destruct (Hall r log E) as (_ & Hzero & _).
      apply Hzero. vm_compute. reflexivity.
Defined.

(* ================================================================== *)
(** * C5: the anchor collection *)
(* ================================================================== *)

(** C5 as stated fails: an [area] element carries an href, a dead one, and
    is not in the collection; its href is never probed and never
    reported. *)
Lemma C5_counterexample :
  In ExamplesC5.area_bad (Soup.descendants ExamplesC5.soup_area)
  /\ Soup.get "href" ExamplesC5.area_bad = Some "http://bad.example"
  /\ ~ In ExamplesC5.area_bad (links ExamplesC5.soup_area)
  /\ exists r log,
       verify_template ExamplesC5.world_area "https://t.example/mail.html" []
         = (Return r, log)
       /\ log = ["https://good.example"; "https://good.example"]
       /\ Result.broken_links (Result.checks_ r) = [].
Proof.
  split; [vm_compute; tauto|]. split; [reflexivity|]. split.
  - vm_compute. intros [H|[H|H]]; try discriminate; assumption.
  - eexists. eexists. split; [vm_compute; reflexivity|]. split; reflexivity.
Qed.

(** C5, amended.  The anchor collection of a node consists of the [a]
    elements below it that carry an href attribute, and of no other
    element; the href of each is read as the parser stored it, with no
    normalisation and no resolution of relative URLs.  The global loop
    runs over the collection of the document and the footer loop over the
    collection of the footer: the URLs probed during a request are the
    absolute hrefs of the first, in order, followed by a prefix of the
    absolute hrefs of the second.  A response is returned whenever the
    probes of the global loop answer with a status or raise a
    [requests.RequestException]; C2 has the other case. *)
Theorem C5_anchor_collection W url resp soup :
  fetched W url resp soup ->
  (forall n x,
      In x (links n) <->
      In x (Soup.descendants n)
      /\ exists attrs contents href,
           x = Soup.Tag "a" attrs contents
           /\ Soup.lookup "href" attrs = Some href
           /\ Soup.item "href" x = href)
  /\ (no_foreign W 0 (global_urls soup) = true ->
      exists r log, verify_template W url [] = (Return r, log))
  /\ forall r log,
       verify_template W url [] = (Return r, log) ->
       let global := filter is_absolute (map (Soup.item "href") (links soup)) in
       let in_footer :=
         match Soup.find "footer" soup with
         | Some footer => filter is_absolute (map (Soup.item "href") (links footer))
         | None => []
         end in
       exists scanned rest,
         log = global ++ scanned /\ in_footer = scanned ++ rest.
Proof.
  intros Hf. split; [|split; [exact (verify_template_responds Hf)|]].
  - intros n x. rewrite links_spec. split.
    + intros (Hd & attrs & contents & href & -> & Hl). split; [assumption|].
      exists attrs, contents, href. repeat split; try assumption.
      unfold Soup.item. simpl. now rewrite Hl.
    + intros (Hd & attrs & contents & href & -> & Hl & _). split; [assumption|].
      now exists attrs, contents, href.
  - intros r log E.
    destruct (verify_template_inv Hf E) as (_ & Hlog & _).
    cbv zeta.
    destruct (upto_first_alive_prefix W (footer_urls soup)
                (List.length (global_urls soup))) as [rest Hrest].
    eexists. exists rest. split; [exact Hlog | exact Hrest].
Qed.

(** On the image map only the anchors are collected and probed. *)
Lemma C5_anchor_collection_witness :
  map (Soup.item "href") (links ExamplesC5.soup_area)
    = ["/contact"; "https://good.example"]
  /\ exists r log,
       verify_template ExamplesC5.world_area "https://t.example/mail.html" []
         = (Return r, log)
       /\ exists scanned rest,
            log = ["https://good.example"] ++ scanned
            /\ ["https://good.example"] = scanned ++ rest.
Proof.
  split; [vm_compute; reflexivity|].
  destruct (@C5_anchor_collection ExamplesC5.world_area
              "https://t.example/mail.html"
              {| status_code := 200; text := "<html>...</html>" |}
              ExamplesC5.soup_area)
    as (_ & Hret & Hall).
  - split; [|split]; reflexivity.
  - destruct Hret as (r & log & E); [vm_compute; reflexivity|].
    exists r, log. split; [exact E|]. exact (Hall r log E).
Defined.

(* ================================================================== *)
(** * C6: the global link validator *)
(* ================================================================== *)

Lemma broken_spec (o : outcome response) :
  broken o = true <->
  (exists r, o = Return r /\ (400 <= status_code r)%Z)
  \/ (exists msg, o = Raise (RequestException msg)).
Proof.
  destruct o as [r|e]; simpl.
  - rewrite Z.leb_le. split.
    + intros H. left. eauto.
    + intros [(r' & E & H)|(msg & E)]; [now injection E as <- | discriminate].
  - destruct e; simpl; split; try discriminate; eauto.
    + intros [(r' & E & _)|(m & E)]; discriminate.
    + intros [(r' & E & _)|(m & E)]; discriminate.
Qed.

(** C6, at the failing input.  The fetch answers 200 and the page holds
    three absolute links.  The probe of the first one fails with an
    exception that is not a [requests.RequestException]: the loop stops
    there, the exception leaves the endpoint, and the second link, a dead
    one, is neither probed nor reported.  The footer loop, run over the
    same anchors, passes over the failing probe and goes on to the next
    links. *)
Theorem C6_failing_probe_stops_the_loop :
  fetched ExamplesC6.world_abort "https://t.example/mail.html"
          {| status_code := 200; text := "<html>...</html>" |}
          ExamplesC6.soup_abort
  /\ filter is_absolute (map (Soup.item "href") (links ExamplesC6.soup_abort))
     = [ ExamplesC2.long_label_url; "http://bad.example"; "https://good.example" ]
  /\ head ExamplesC6.world_abort 0 ExamplesC2.long_label_url
     = Raise (OtherException "LocationParseError: label empty or too long")
  /\ broken (head ExamplesC6.world_abort 1 "http://bad.example") = true
  /\ verify_template ExamplesC6.world_abort "https://t.example/mail.html" []
     = (Raise (OtherException "LocationParseError: label empty or too long"),
        [ExamplesC2.long_label_url])
  /\ check_footer_links ExamplesC6.world_abort (links ExamplesC6.soup_abort) []
     = (Return true,
        [ ExamplesC2.long_label_url; "http://bad.example"; "https://good.example" ]).
Proof.
  split; [split; [|split]; reflexivity|].
  repeat split; vm_compute; reflexivity.
Qed.

(** X16.  The global loop on the requests that return.  In every response
    returned after a fetch with status 200, the first probes of the request
    are the anchor hrefs that start with [http://] or [https://], all of
    them and no other href, in document order and once per occurrence.
    [broken_links] lists, in that order and with repetitions, the hrefs
    whose own probe answered with a status of 400 or more or raised a
    [requests.RequestException]; [all_links_valid] is true exactly when
    [broken_links] is empty.  A response is returned whenever the probes of
    the global loop answer with a status or raise a
    [requests.RequestException]. *)
Theorem X16_broken_links_of_a_response W url resp soup :
  fetched W url resp soup ->
  (no_foreign W 0 (global_urls soup) = true ->
   exists r log, verify_template W url [] = (Return r, log))
  /\ forall r log,
       verify_template W url [] = (Return r, log) ->
       let urls :=
         filter is_absolute (map (Soup.item "href") (links soup)) in
       let c := Result.checks_ r in
       firstn (List.length urls) log = urls
       /\ Result.broken_links c
          = map fst (filter (fun p => broken (snd p)) (probe_all W 0 urls))
       /\ (forall o : outcome response,
              broken o = true <->
              (exists a, o = Return a /\ (400 <= status_code a)%Z)
              \/ (exists msg, o = Raise (RequestException msg)))
       /\ (Result.all_links_valid c = true <-> Result.broken_links c = []).
Proof.
  intros Hf. split; [exact (verify_template_responds Hf)|].
  intros r log E.
  destruct (verify_template_inv Hf E)
    as (_ & Hlog & _ & _ & _ & _ & _ & _ & Hc).
  cbv zeta. rewrite Hc. cbn [Result.broken_links Result.all_links_valid].
  split; [|split; [|split]].
  - change (filter is_absolute _) with (global_urls soup).
    rewrite Hlog, firstn_app, Nat.sub_diag, firstn_all. simpl. apply app_nil_r.
  - reflexivity.
  - apply broken_spec.
  - apply all_links_valid_spec.
Qed.

(** Eight anchors, five of them absolute; the dead one occurs twice. *)
Lemma X16_broken_links_of_a_response_witness :
  exists r log,
    verify_template ExamplesC6.world_links "https://t.example/mail.html" []
      = (Return r, log)
    /\ firstn 5 log
       = [ "http://good.example"; "http://bad.example";
           "https://down.example"; "http://bad.example";
           "https://good.example" ]
    /\ Result.broken_links (Result.checks_ r)
       = [ "http://bad.example"; "https://down.example"; "http://bad.example" ]
    /\ Result.all_links_valid (Result.checks_ r) = false.
Proof.
  destruct (@X16_broken_links_of_a_response ExamplesC6.world_links
              "https://t.example/mail.html"
              {| status_code := 200; text := "<html>...</html>" |}
              ExamplesC6.soup_links)
    as [Hret Hall].
  - split; [|split]; reflexivity.
  - destruct Hret as (r & log & E); [vm_compute; reflexivity|].
    exists r, log. split; [exact E|].
    destruct (Hall r log E) as (Hlog & Hb & _ & Hv).
    split; [exact Hlog|]. split; [exact Hb|].
    destruct (Result.all_links_valid (Result.checks_ r)); [|reflexivity].
    rewrite Hb in Hv. destruct Hv as [Hv _]. specialize (Hv eq_refl).
    vm_compute in Hv. discriminate.
Defined.

(* ================================================================== *)
(** * C7: the footer link *)
(* ================================================================== *)

Lemma alive_spec (o : outcome response) :
  alive o = true <-> exists r, o = Return r /\ (status_code r < 400)%Z.
Proof.
  destruct o as [r|e]; simpl.
  - rewrite Z.ltb_lt. split.
    + eauto.
    + intros (r' & E & H). now injection E as <-.
  - split; [discriminate | intros (r' & E & _); discriminate].
Qed.

Lemma some_alive_false W urls :
  forall k, some_alive W k urls = false <->
    forall i u, nth_error urls i = Some u -> alive (head W (k + i) u) = false.
Proof.
  induction urls as [|v urls IH]; intros k.
  - split; [intros _ [|i] u H; discriminate | reflexivity].
  - rewrite some_alive_cons, orb_false_iff, IH. split.
    + intros [H0 H] [|i] u Hi; simpl in Hi.
      * injection Hi as <-. now rewrite Nat.add_0_r.
      * rewrite <- Nat.add_succ_comm. now apply H.
    + intros H. split.
      * specialize (H 0 v eq_refl). now rewrite Nat.add_0_r in H.
      * intros i u Hi. rewrite Nat.add_succ_comm. now apply (H (S i)).
Qed.

(** C7.  When the document has a footer, the footer loop probes the
    absolute hrefs of the anchors of the footer in document order, after
    the probes of the global loop.  Either one of these probes answers with
    a status below 400: then the loop stops at the first such probe and
    [footer_link_valid] is true.  Or none does, which includes a footer
    without absolute links: then every one of them is probed and
    [footer_link_valid] is false.  A probe that raises, whatever the class
    of the exception, is not alive and does not end the loop.  A response
    is returned whenever the probes of the global loop answer with a
    status or raise a [requests.RequestException]; C2 has the other
    case. *)
Theorem C7_footer_link W url resp soup footer :
  fetched W url resp soup ->
  Soup.find "footer" soup = Some footer ->
  (no_foreign W 0 (global_urls soup) = true ->
   exists r log, verify_template W url [] = (Return r, log))
  /\ (forall r log,
         verify_template W url [] = (Return r, log) ->
         let urls := filter is_absolute (map (Soup.item "href") (links footer)) in
         let k := List.length (global_urls soup) in
         let valid := Result.footer_link_valid (Result.checks_ r) in
         exists scanned,
           log = global_urls soup ++ scanned
           /\ ((valid = true
                /\ exists before u after a,
                     urls = before ++ u :: after
                     /\ scanned = before ++ [u]
                     /\ head W (k + List.length before) u = Return a
                     /\ (status_code a < 400)%Z
                     /\ forall i v, nth_error before i = Some v ->
                                    alive (head W (k + i) v) = false)
               \/
               (valid = false
                /\ scanned = urls
                /\ forall i v, nth_error urls i = Some v ->
                               alive (head W (k + i) v) = false)))
  /\ (forall e, alive (Raise e) = false).
Proof.
  intros Hf Hfooter. split; [exact (verify_template_responds Hf)|].
  split; [|reflexivity]. intros r log E.
  destruct (verify_template_inv Hf E)
    as (_ & Hlog & _ & _ & _ & _ & _ & _ & Hc).
  cbv zeta. rewrite Hc. cbn [Result.footer_link_valid].
  unfold footer_urls in *. rewrite Hfooter in *.
  change (filter is_absolute _) with (absolute_hrefs (links footer)).
  set (urls := absolute_hrefs (links footer)) in *.
  set (k := List.length (global_urls soup)) in *.
  eexists. split; [exact Hlog|].
  destruct (some_alive W k urls) eqn:Ealive.
  - left. split; [reflexivity|].
    destruct (upto_first_alive_some W urls k Ealive)
      as (before & u & after & Hu & Hs & Ha & Hb).
    apply alive_spec in Ha as (a & Ha & Hlt).
    exists before, u, after, a. repeat split; try assumption.
    now apply some_alive_false.
  - right. split; [reflexivity|]. split.
    + now apply upto_first_alive_none.
    + now apply some_alive_false.
Qed.

(** The first footer link raises, the second answers 410, the third is
    alive: the loop stops there and never probes the fourth. *)
Lemma C7_footer_link_witness :
  exists r log,
    verify_template ExamplesC7.world_footer "https://t.example/mail.html" []
      = (Return r, log)
    /\ log = [ "https://odd.example"; "https://gone.example";
               "https://good.example"; "https://later.example";
               "https://odd.example"; "https://gone.example";
               "https://good.example" ]
    /\ Result.footer_link_valid (Result.checks_ r) = true.
Proof.
  destruct (@C7_footer_link ExamplesC7.world_footer
              "https://t.example/mail.html"
              {| status_code := 200; text := "<html>...</html>" |}
              ExamplesC7.soup_footer
              ExamplesC7.footer)
    as (Hret & _ & _).
  - split; [|split]; reflexivity.
  - vm_compute. reflexivity.
  - destruct Hret as (r & log & E); [vm_compute; reflexivity|].
    exists r, log. split; [exact E|].
    vm_compute in E. injection E as <- <-. split; reflexivity.
Defined.

(* ================================================================== *)
(** * C8: a document without a footer *)
(* ================================================================== *)

(** C8.  For every document fetched with status 200 that has no footer
    element, [footer_link_valid] and [footer_address_found] are both
    [false]; if moreover no test keyword is detected and no global link is
    broken, the verdict is [fail] with the footer message.  A response is
    returned whenever the probes of the global loop answer with a status
    or raise a [requests.RequestException]; C2 has the other case. *)
Theorem C8_no_footer W url resp soup :
  fetched W url resp soup ->
  Soup.find "footer" soup = None ->
  (no_foreign W 0 (global_urls soup) = true ->
   exists r log, verify_template W url [] = (Return r, log))
  /\ forall r log,
       verify_template W url [] = (Return r, log) ->
       Result.footer_link_valid (Result.checks_ r) = false
       /\ Result.footer_address_found (Result.checks_ r) = false
       /\ (Result.is_test_template (Result.checks_ r) = false ->
           Result.broken_links (Result.checks_ r) = [] ->
           Result.verification r = "fail" /\ Result.message r = message_footer).
Proof.
  intros Hf Hfooter. split; [exact (verify_template_responds Hf)|].
  intros r log E.
  destruct (verify_template_inv Hf E)
    as (_ & _ & _ & _ & _ & _ & Hv & Hm & Hc).
  rewrite Hv, Hm, Hc. unfold verdict.
  cbn [Result.is_test_template Result.broken_links Result.all_links_valid
       Result.footer_link_valid Result.footer_address_found].
  unfold footer_urls, footer_address. rewrite Hfooter.
  split; [reflexivity|]. split; [reflexivity|].
  intros -> ->. split; reflexivity.
Qed.

(** Everything else passes, and the verdict is the footer failure. *)
Lemma C8_no_footer_witness :
  exists r log,
    verify_template ExamplesC8.world_no_footer "https://t.example/mail.html" []
      = (Return r, log)
    /\ Result.footer_link_valid (Result.checks_ r) = false
    /\ Result.footer_address_found (Result.checks_ r) = false
    /\ Result.image_text_ratio_ok (Result.checks_ r) = true
    /\ Result.verification r = "fail"
    /\ Result.message r = message_footer.
Proof.
  destruct (@C8_no_footer ExamplesC8.world_no_footer
              "https://t.example/mail.html"
              {| status_code := 200; text := "<html>...</html>" |}
              ExamplesC8.soup_no_footer)
    as [Hret Hall].
  - split; [|split]; reflexivity.
  - vm_compute. reflexivity.
  - destruct Hret as (r & log & E); [vm_compute; reflexivity|].
    exists r, log. split; [exact E|].
    destruct (Hall r log E) as (Hl & Ha & Hv).
    split; [exact Hl|]. split; [exact Ha|].
    vm_compute in E. injection E as <- _.
    split; [vm_compute; reflexivity|]. apply Hv; reflexivity.
Defined.

(* ================================================================== *)
(** * The address pattern, piece by piece *)
(* ================================================================== *)

Lemma Matches_Cat_inv r1 r2 m :
  Re.Matches (Re.Cat r1 r2) m ->
  exists u v, m = (u ++ v)%string /\ Re.Matches r1 u /\ Re.Matches r2 v.
Proof.
  intros H. inversion H as [| | |a b u v H1 H2| | | |]; subst. eauto.
Qed.

Lemma lit_comma (x : ascii) : Re.lit_matches "," x = true -> x = ","%char.
Proof.
  destruct x as [[] [] [] [] [] [] [] []]; vm_compute; intros H;
    try discriminate H; reflexivity.
Qed.

Lemma Matches_comma m : Re.Matches (Re.Lit ",") m -> m = ",".
Proof.
  intros H. inversion H as [|c x Hx| | | | | |]; subst.
  now rewrite (lit_comma x Hx).
Qed.

Module AddressFacts.
Import Re.
Local Open Scope string_scope.

Lemma length_append (u v : string) :
  String.length (u ++ v) = String.length u + String.length v.
Proof. induction u as [|c u IH]; simpl; [reflexivity | now rewrite IH]. Qed.

Lemma all_chars_app p (u v : string) :
  all_chars p (u ++ v) = all_chars p u && all_chars p v.
Proof.
  induction u as [|c u IH]; simpl; [reflexivity|].
  now rewrite IH, andb_assoc.
Qed.

Lemma split_at (n : nat) (u : string) :
  n <= String.length u ->
  exists a b, u = a ++ b /\ String.length a = n.
Proof.
  revert u. induction n as [|n IH]; intros u H.
  - now exists "", u.
  - destruct u as [|c u]; simpl in H; [lia|].
    destruct (IH u) as (a & b & -> & Ha); [lia|].
    exists (String c a), b. simpl. now rewrite Ha.
Qed.

Lemma Matches_Eps_iff u : Matches Eps u <-> u = "".
Proof.
  split.
  - intros H. now inversion H.
  - intros ->. constructor.
Qed.

Lemma Matches_Class_iff p u :
  Matches (Class p) u <-> exists c, u = String c "" /\ p c = true.
Proof.
  split.
  - intros H. inversion H as [| |q x Hx| | | | |]; subst. eauto.
  - intros (c & -> & Hc). now constructor.
Qed.

Lemma Matches_Cat_iff r1 r2 m :
  Matches (Cat r1 r2) m <->
  exists u v, m = u ++ v /\ Matches r1 u /\ Matches r2 v.
Proof.
  split.
  - intros H. inversion H as [| | |a b u v H1 H2| | | |]; subst. eauto.
  - intros (u & v & -> & H1 & H2). now constructor.
Qed.

Lemma Matches_Alt_iff r1 r2 m :
  Matches (Alt r1 r2) m <-> Matches r1 m \/ Matches r2 m.
Proof.
  split.
  - intros H. inversion H; subst; auto.
  - intros [H|H]; [now apply MAltL | now apply MAltR].
Qed.

Lemma Matches_comma_iff m : Matches (Lit ",") m <-> m = ",".
Proof.
  split.
  - apply Matches_comma.
  - intros ->. now constructor.
Qed.

(** [p*], [p+], [p{n}], [p{0,n}], [p{lo,hi}] and [p{lo,}] over a class
    [p]: runs of characters of the class, of the lengths that the
    quantifier allows. *)
Lemma Matches_Star_Class p u :
  Matches (Star (Class p)) u <-> all_chars p u = true.
Proof.
  split.
  - intros H. remember (Star (Class p)) as r eqn:Er.
    induction H as [| | | | | | r0 | r0 a b Ha _ Hb IH]; try discriminate.
    + reflexivity.
    + injection Er as ->. apply Matches_Class_iff in Ha as (c & -> & Hc).
      simpl. rewrite Hc. now apply IH.
  - induction u as [|c u IH]; simpl; intros H.
    + constructor.
    + apply andb_true_iff in H as [Hc Hu].
      change (String c u) with (String c "" ++ u).
      apply MStarS; [now constructor | now apply IH].
Qed.

Lemma Matches_Plus_Class p u :
  Matches (Plus (Class p)) u <->
  all_chars p u = true /\ 1 <= String.length u.
Proof.
  unfold Plus. rewrite Matches_Cat_iff. split.
  - intros (a & b & -> & Ha & Hb).
    apply Matches_Class_iff in Ha as (c & -> & Hc).
    apply Matches_Star_Class in Hb. simpl. rewrite Hc, Hb. split; [reflexivity | lia].
  - intros [H Hlen]. destruct u as [|c u]; simpl in *; [lia|].
    apply andb_true_iff in H as [Hc Hu].
    exists (String c ""), u. split; [reflexivity|].
    split; [now constructor | now apply Matches_Star_Class].
Qed.

Lemma Matches_Exactly_Class n p u :
  Matches (Exactly n (Class p)) u <->
  all_chars p u = true /\ String.length u = n.
Proof.
  revert u. induction n as [|n IH]; intros u; cbn [Exactly].
  - rewrite Matches_Eps_iff. split.
    + intros ->. now split.
    + intros [_ H]. now destruct u.
  - rewrite Matches_Cat_iff. split.
    + intros (a & b & -> & Ha & Hb).
      apply Matches_Class_iff in Ha as (c & -> & Hc).
      apply IH in Hb as [Hb <-]. simpl. now rewrite Hc, Hb.
    + intros [H Hlen]. destruct u as [|c u]; simpl in *; [lia|].
      apply andb_true_iff in H as [Hc Hu].
      exists (String c ""), u. split; [reflexivity|].
      split; [now constructor|]. apply IH. split; [assumption | lia].
Qed.

Lemma Matches_Upto_Class n p u :
  Matches (Upto n (Class p)) u <->
  all_chars p u = true /\ String.length u <= n.
Proof.
  revert u. induction n as [|n IH]; intros u; cbn [Upto].
  - rewrite Matches_Eps_iff. split.
    + intros ->. now split.
    + intros [_ H]. destruct u; [reflexivity | simpl in H; lia].
  - rewrite Matches_Alt_iff, Matches_Eps_iff, Matches_Cat_iff. split.
    + intros [->|(a & b & -> & Ha & Hb)].
      * split; [reflexivity | simpl; lia].
      * apply Matches_Class_iff in Ha as (c & -> & Hc).
        apply IH in Hb as [Hb Hlen]. simpl. rewrite Hc, Hb.
        split; [reflexivity | lia].
    + intros [H Hlen]. destruct u as [|c u]; [now left|]. right.
      simpl in *. apply andb_true_iff in H as [Hc Hu].
      exists (String c ""), u. split; [reflexivity|].
      split; [now constructor|]. apply IH. split; [assumption | lia].
Qed.

Lemma Matches_Repeat_Class lo hi p u :
  lo <= hi ->
  Matches (Repeat lo hi (Class p)) u <->
  all_chars p u = true /\ lo <= String.length u <= hi.
Proof.
  intros Hlohi. unfold Repeat. rewrite Matches_Cat_iff. split.
  - intros (a & b & -> & Ha & Hb).
    apply Matches_Exactly_Class in Ha as [Ha La].
    apply Matches_Upto_Class in Hb as [Hb Lb].
    rewrite all_chars_app, length_append, Ha, Hb. split; [reflexivity | lia].
  - intros [H Hlen]. destruct (@split_at lo u) as (a & b & -> & La); [lia|].
    rewrite all_chars_app in H. apply andb_true_iff in H as [Ha Hb].
    rewrite length_append in Hlen.
    exists a, b. split; [reflexivity|]. split.
    + apply Matches_Exactly_Class. now split.
    + apply Matches_Upto_Class. split; [assumption | lia].
Qed.

Lemma Matches_AtLeast_Class lo p u :
  Matches (AtLeast lo (Class p)) u <->
  all_chars p u = true /\ lo <= String.length u.
Proof.
  unfold AtLeast. rewrite Matches_Cat_iff. split.
  - intros (a & b & -> & Ha & Hb).
    apply Matches_Exactly_Class in Ha as [Ha La].
    apply Matches_Star_Class in Hb.
    rewrite all_chars_app, length_append, Ha, Hb. split; [reflexivity | lia].
  - intros [H Hlen]. destruct (@split_at lo u) as (a & b & -> & La); [lia|].
    rewrite all_chars_app in H. apply andb_true_iff in H as [Ha Hb].
    exists a, b. split; [reflexivity|]. split.
    + apply Matches_Exactly_Class. now split.
    + now apply Matches_Star_Class.
Qed.

Lemma word_spec u :
  word u = true <-> all_chars Py.isword u = true /\ 1 <= String.length u.
Proof.
  unfold word. rewrite andb_true_iff. destruct u as [|c u]; simpl.
  - split; [intros [H _]; discriminate | intros [_ H]; lia].
  - split; intros [H1 H2]; split; auto; lia.
Qed.

Lemma nonempty_length (u : string) : u <> "" <-> 1 <= String.length u.
Proof.
  destruct u; simpl; split; intros H; try congruence; try lia.
Qed.

(** [\w+(\s+\w+)*]: one or more words separated by whitespace. *)
Lemma words_of_Matches b :
  Matches (Star (Cat (Plus s) (Plus w))) b ->
  forall a, word a = true -> words (a ++ b).
Proof.
  intros H. remember (Star (Cat (Plus s) (Plus w))) as r eqn:Er.
  induction H as [| | | | | | r0 | r0 u v Hu _ Hv IH]; try discriminate.
  - intros a Ha. rewrite append_nil_r. now apply words_one.
  - injection Er as ->. intros a Ha.
    apply Matches_Cat_iff in Hu as (gap & a' & -> & Hgap & Ha').
    apply Matches_Plus_Class in Hgap as [Hgap Lgap].
    apply Matches_Plus_Class in Ha'. apply word_spec in Ha'.
    rewrite append_assoc. apply words_more; try assumption.
    + now apply nonempty_length.
    + now apply IH.
Qed.

Lemma Matches_of_words x :
  words x ->
  exists a b, x = a ++ b /\ Matches (Plus w) a
              /\ Matches (Star (Cat (Plus s) (Plus w))) b.
Proof.
  induction 1 as [u Hu|u gap rest Hu Hgap Hne _ (a & b & -> & Ha & Hb)].
  - exists u, "". rewrite append_nil_r. split; [reflexivity|].
    split; [now apply Matches_Plus_Class, word_spec | constructor].
  - exists u, (gap ++ a ++ b). split; [reflexivity|].
    split; [now apply Matches_Plus_Class, word_spec|].
    rewrite <- append_assoc. apply MStarS; [|assumption].
    apply Matches_Cat_iff. exists gap, a. split; [reflexivity|].
    split; [|assumption].
    apply Matches_Plus_Class. split; [assumption | now apply nonempty_length].
Qed.

(** The pattern of the source matches exactly the strings of the shape
    spelled out in [address_shape]. *)
Lemma ADDRESS_REGEX_spec m :
  Matches ADDRESS_REGEX m <-> address_shape m.
Proof.
  unfold ADDRESS_REGEX, address_shape. cbn [seq]. split.
  - intros H.
    apply Matches_Cat_iff in H as (u1 & m1 & -> & H1 & H).
    apply Matches_Cat_iff in H as (u2 & m2 & -> & H2 & H).
    apply Matches_Cat_iff in H as (u3 & m3 & -> & H3 & H).
    apply Matches_Cat_iff in H as (u4 & m4 & -> & H4 & H).
    apply Matches_Cat_iff in H as (u5 & m5 & -> & H5 & H).
    apply Matches_Cat_iff in H as (u6 & m6 & -> & H6 & H).
    apply Matches_Cat_iff in H as (u7 & m7 & -> & H7 & H).
    apply Matches_Cat_iff in H as (u8 & m8 & -> & H8 & H).
    apply Matches_Cat_iff in H as (u9 & m9 & -> & H9 & H).
    apply Matches_Cat_iff in H as (u10 & m10 & -> & H10 & H).
    apply Matches_Cat_iff in H as (u11 & m11 & -> & H11 & H).
    apply Matches_Cat_iff in H as (u12 & u13 & -> & H12 & H13).
    apply Matches_Repeat_Class in H1 as [D1 L1]; [|lia].
    apply Matches_Plus_Class in H2 as [D2 L2].
    apply Matches_Plus_Class, word_spec in H3.
    apply Matches_comma_iff in H5. subst u5.
    apply Matches_Star_Class in H6.
    apply Matches_Plus_Class, word_spec in H7.
    apply Matches_comma_iff in H9. subst u9.
    apply Matches_Star_Class in H10.
    apply Matches_AtLeast_Class in H11 as [D11 L11].
    apply Matches_Star_Class in H12.
    apply Matches_AtLeast_Class in H13 as [D13 L13].
    exists u1, u2, (u3 ++ u4), u6, (u7 ++ u8), u10, u11, u12, u13.
    split; [now rewrite !append_assoc|].
    repeat (split; try assumption); try lia.
    + now apply words_of_Matches.
    + now apply words_of_Matches.
    + apply word_spec. split; [assumption | lia].
  - intros (number & gap1 & street & gap2 & city & gap3 & region & gap4 & code
            & -> & D1 & L1 & D2 & L2 & Hstreet & D6 & Hcity & D10
            & D11 & L11 & D12 & D13 & L13).
    apply Matches_of_words in Hstreet as (u3 & u4 & -> & H3 & H4).
    apply Matches_of_words in Hcity as (u7 & u8 & -> & H7 & H8).
    rewrite !append_assoc.
    apply MCat; [apply Matches_Repeat_Class; [lia | now split]|].
    apply MCat; [apply Matches_Plus_Class; now split|].
    apply MCat; [assumption|].
    apply MCat; [assumption|].
    apply MCat; [now apply Matches_comma_iff|].
    apply MCat; [now apply Matches_Star_Class|].
    apply MCat; [assumption|].
    apply MCat; [assumption|].
    apply MCat; [now apply Matches_comma_iff|].
    apply MCat; [now apply Matches_Star_Class|].
    apply MCat; [apply Matches_AtLeast_Class; split; [|assumption];
                 now apply word_spec in D11|].
    apply MCat; [now apply Matches_Star_Class|].
    apply Matches_AtLeast_Class. now split.
Qed.

End AddressFacts.

(* ================================================================== *)
(** * C9: the footer address *)
(* ================================================================== *)

(** C9.  When the document has a footer, [footer_address_found] is true
    exactly when some substring of the footer text matches the address
    pattern, where the footer text is the text nodes of the footer, each
    stripped, joined by single spaces, in their original case.  The
    strings that match the pattern are those of the shape [address_shape]:
    one to five digits, whitespace, words, a comma, words, a comma, a
    region of two or more word characters and five or more digits.  The
    text [123 Main Street, Springfield, IL 62704] is found to match; the
    text [Contact us!] is not, nor is an address without its street number,
    without its postal code, with a postal code of four digits or with a
    region of one letter.  A response is returned whenever the probes of
    the global loop answer with a status or raise a
    [requests.RequestException]; C2 has the other case. *)
Theorem C9_footer_address W url resp soup footer :
  fetched W url resp soup ->
  Soup.find "footer" soup = Some footer ->
  (no_foreign W 0 (global_urls soup) = true ->
   exists r log, verify_template W url [] = (Return r, log))
  /\ forall r log,
       verify_template W url [] = (Return r, log) ->
       let footer_text :=
         Py.join " " (filter Py.nonempty (map Py.strip (Soup.strings footer))) in
       let found := Result.footer_address_found (Result.checks_ r) in
       (found = true <->
        exists pre m post,
          footer_text = (pre ++ m ++ post)%string /\ Re.Matches ADDRESS_REGEX m)
       /\ (forall m, Re.Matches ADDRESS_REGEX m <-> address_shape m)
       /\ (found = true <->
           exists pre m post,
             footer_text = (pre ++ m ++ post)%string /\ address_shape m)
       /\ (footer_text = "123 Main Street, Springfield, IL 62704" -> found = true)
       /\ (footer_text = "Contact us!" -> found = false)
       /\ (footer_text = "Main Street, Springfield, IL 62704" -> found = false)
       /\ (footer_text = "123 Main Street, Springfield, IL" -> found = false)
       /\ (footer_text = "123 Main Street, Springfield, IL 6270" -> found = false)
       /\ (footer_text = "123 Main Street, Springfield, I 62704" -> found = false)
       /\ (footer_text = "123 Main Street Springfield, IL 62704" -> found = false).
Proof.
  intros Hf Hfooter. split; [exact (verify_template_responds Hf)|].
  intros r log E.
  destruct (verify_template_inv Hf E)
    as (_ & _ & _ & _ & _ & _ & _ & _ & Hc).
  cbv zeta. rewrite Hc. cbn [Result.footer_address_found].
  unfold footer_address. rewrite Hfooter. unfold Soup.get_text.
  split; [apply ReFacts.search_spec|].
  split; [apply AddressFacts.ADDRESS_REGEX_spec|].
  split.
  { rewrite ReFacts.search_spec.
    split; intros (pre & m & post & Ht & Hm); exists pre, m, post;
      (split; [exact Ht | now apply AddressFacts.ADDRESS_REGEX_spec]). }
  repeat split; intros ->; vm_compute; reflexivity.
Qed.

(** An address spread over two elements of the footer is found. *)
Lemma C9_footer_address_witness :
  exists r log,
    verify_template ExamplesC9.world_address "https://t.example/mail.html" []
      = (Return r, log)
    /\ Result.footer_address_found (Result.checks_ r) = true
    /\ Re.search ADDRESS_REGEX (Soup.get_text " " ExamplesC9.footer_contact) = false.
Proof.
  destruct (@C9_footer_address ExamplesC9.world_address
              "https://t.example/mail.html"
              {| status_code := 200; text := "<html>...</html>" |}
              ExamplesC9.soup_address
              (Soup.Tag "footer" []
                 [ Soup.Tag "span" [] [Soup.NavigableString " 123 Main Street, "];
                   Soup.Tag "span" [] [Soup.NavigableString "Springfield, IL 62704 "] ]))
    as [Hret Hall].
  - split; [|split]; reflexivity.
  - vm_compute. reflexivity.
  - destruct Hret as (r & log & E); [vm_compute; reflexivity|].
    exists r, log. split; [exact E|].
    destruct (Hall r log E) as (_ & _ & _ & Hyes & _).
    split; [apply Hyes; vm_compute; reflexivity | vm_compute; reflexivity].
Defined.

(* ================================================================== *)
(** * C10: dead footer links are broken global links *)
(* ================================================================== *)

Lemma not_alive_broken (o : outcome response) :
  alive o = false -> foreign o = false -> broken o = true.
Proof.
  destruct o as [r|e]; simpl.
  - intros H _. apply Z.ltb_ge in H. now apply Z.leb_le.
  - intros _ H. now apply negb_false_iff in H.
Qed.

Lemma no_foreign_in W urls :
  forall k u, no_foreign W k urls = true -> In u urls ->
              exists j, foreign (head W j u) = false.
Proof.
  induction urls as [|v urls IH]; intros k u Hno Hin; [contradiction|].
  unfold no_foreign in Hno. cbn [probe_all forallb snd] in Hno.
  apply andb_true_iff in Hno as [H0 H].
  destruct Hin as [->|Hin].
  - exists k. now apply negb_true_iff in H0.
  - now apply (IH (S k)).
Qed.

Lemma in_broken_among W urls :
  forall k u, In u urls -> (forall j, broken (head W j u) = true) ->
              In u (broken_among W k urls).
Proof.
  induction urls as [|v urls IH]; intros k u Hin Hb; [contradiction|].
  rewrite broken_among_cons. destruct Hin as [->|Hin].
  - rewrite Hb. now left.
  - destruct (broken (head W k v)); [right|]; now apply IH.
Qed.

Lemma footer_urls_incl soup :
  incl (footer_urls soup) (global_urls soup).
Proof.
  unfold footer_urls, global_urls.
  destruct (Soup.find "footer" soup) as [footer|] eqn:E.
  - apply absolute_hrefs_incl. now apply footer_links_incl.
  - intros u [].
Qed.

(** C10 as stated fails: the footer of this document holds one absolute
    link, its probe answers 404 whenever it is issued, and the verdict is
    the test-template failure of rule 1, not the broken-links failure. *)
Lemma C10_counterexample :
  probe_fixed ExamplesC10.world_test_dead_footer
  /\ footer_urls ExamplesC10.soup_test_dead_footer = ["http://bad.example"]
  /\ (forall k, head ExamplesC10.world_test_dead_footer k "http://bad.example"
                = Examples.answer 404)
  /\ exists r log,
       verify_template ExamplesC10.world_test_dead_footer
                       "https://t.example/mail.html" []
         = (Return r, log)
       /\ Result.broken_links (Result.checks_ r) = ["http://bad.example"]
       /\ Result.message r = message_test
       /\ Result.message r <> message_links.
Proof.
  split; [intros k k' u; reflexivity|]. split; [vm_compute; reflexivity|].
  split; [intros k; reflexivity|].
  eexists. eexists. split; [vm_compute; reflexivity|].
  split; [reflexivity|]. split; [reflexivity|]. vm_compute. discriminate.
Qed.

(** C10, amended.  Every absolute href of an anchor of the footer is also
    an absolute href of an anchor of the document.  Assume that the outcome
    of a probe depends on the URL alone, that the footer holds at least one
    absolute link, and that no absolute link of the footer is alive, each of
    them answering with a status of 400 or more or raising.  Then in every
    response that the endpoint returns [broken_links] is not empty and the
    verdict is [fail]: with the broken-links message of rule 2 when no test
    keyword is detected, with the test-template message of rule 1 when one
    is.  The footer message is not produced.  A response is returned
    whenever the probes of the global loop answer with a status or raise a
    [requests.RequestException]; C2 has the other case. *)
Theorem C10_dead_footer_links W url resp soup footer :
  fetched W url resp soup ->
  probe_fixed W ->
  Soup.find "footer" soup = Some footer ->
  absolute_hrefs (links footer) <> [] ->
  (forall u k, In u (absolute_hrefs (links footer)) -> alive (head W k u) = false) ->
  incl (absolute_hrefs (links footer)) (absolute_hrefs (links soup))
  /\ (no_foreign W 0 (global_urls soup) = true ->
      exists r log, verify_template W url [] = (Return r, log))
  /\ forall r log,
       verify_template W url [] = (Return r, log) ->
       Result.broken_links (Result.checks_ r) <> []
       /\ Result.verification r = "fail"
       /\ (Result.is_test_template (Result.checks_ r) = false ->
           Result.message r = message_links)
       /\ (Result.is_test_template (Result.checks_ r) = true ->
           Result.message r = message_test)
       /\ Result.message r <> message_footer.
Proof.
  intros Hf Hfixed Hfooter Hsome Hdead.
  assert (Hincl : incl (absolute_hrefs (links footer)) (global_urls soup)).
  { pose proof (footer_urls_incl soup) as H.
    unfold footer_urls in H. now rewrite Hfooter in H. }
  split; [exact Hincl|]. split; [exact (verify_template_responds Hf)|].
  intros r log E.
  destruct (verify_template_inv Hf E)
    as (Hno & _ & _ & _ & _ & _ & Hv & Hm & Hc).
  assert (Hbroken : broken_among W 0 (global_urls soup) <> []).
  { destruct (absolute_hrefs (links footer)) as [|u us] eqn:Eu; [congruence|].
    assert (Hu : In u (global_urls soup)) by (apply Hincl; now left).
    assert (Hin : In u (broken_among W 0 (global_urls soup))).
    { apply in_broken_among; [assumption|]. intros j.
      apply not_alive_broken; [apply Hdead; now left|].
      destruct (no_foreign_in W _ 0 u Hno Hu) as [j' Hj'].
      now rewrite (Hfixed j j' u). }
    intros E0. rewrite E0 in Hin. contradiction. }
  rewrite Hv, Hm, Hc. unfold verdict.
  cbn [Result.is_test_template Result.broken_links Result.all_links_valid].
  destruct (broken_among W 0 (global_urls soup)) as [|b bs];
    [congruence|].
  cbn [List.length Nat.eqb negb].
  destruct (is_test_template soup); cbn [fst snd];
    repeat split; try discriminate; try congruence.
Qed.

(** Without a test keyword the dead footer link gives the broken-links
    failure. *)
Lemma C10_dead_footer_links_witness :
  exists r log,
    verify_template ExamplesC10.world_dead_footer "https://t.example/mail.html" []
      = (Return r, log)
    /\ Result.broken_links (Result.checks_ r) <> []
    /\ Result.footer_link_valid (Result.checks_ r) = false
    /\ Result.verification r = "fail"
    /\ Result.message r = message_links.
Proof.
  destruct (@C10_dead_footer_links ExamplesC10.world_dead_footer
              "https://t.example/mail.html"
              {| status_code := 200; text := "<html>...</html>" |}
              ExamplesC10.soup_dead_footer
              ExamplesC10.footer_dead)
    as (_ & Hret & Hall).
  - split; [|split]; reflexivity.
  - intros k k' u. reflexivity.
  - vm_compute. reflexivity.
  - vm_compute. discriminate.
  - intros u k Hu. vm_compute in Hu. destruct Hu as [<-|[]]. reflexivity.
  - destruct Hret as (r & log & E); [vm_compute; reflexivity|].
    exists r, log. split; [exact E|].
    destruct (Hall r log E) as (Hb & Hv & Hm & _).
    split; [exact Hb|].
    vm_compute in E. injection E as <- _.
    split; [reflexivity|]. split; [exact Hv|]. apply Hm. reflexivity.
Defined.


(* ================================================================== *)
(** * Further properties of the endpoint *)
(* ================================================================== *)

(** X1.  A fetch that answers with a status other than 200 ends the
    request with an [HTTPException] of status 400 whose detail carries the
    status of the fetch in decimal; the page is not checked and no probe is
    issued. *)
Theorem X1_fetch_status_error W url resp :
  get W url = Return resp -> status_code resp <> 200%Z ->
  verify_template W url [] =
  (Raise (HTTPException 400
            ("Unable to fetch URL, status code: " ++ Py.str_of_int (status_code resp))),
   []).
Proof. apply verify_template_status_error. Qed.

Lemma X1_fetch_status_error_witness :
  verify_template ExamplesX.world_404 "https://t.example/mail.html" [] =
  (Raise (HTTPException 400 "Unable to fetch URL, status code: 404"), []).
Proof.
  apply (@X1_fetch_status_error ExamplesX.world_404 "https://t.example/mail.html"
           {| status_code := 404; text := "Not Found" |}).
  - reflexivity.
  - simpl. lia.
Defined.

(** A fetch that raises: the handler of the endpoint rewrites a
    [requests.RequestException] and lets every other exception pass. *)
Lemma verify_template_fetch_raises W url e :
  get W url = Raise e ->
  verify_template W url [] =
  (Raise (if is_RequestException e
          then HTTPException 500 ("Request failed: " ++ exn_str e)
          else e),
   []).
Proof.
  intros Hget. unfold verify_template, try_except, bind, requests_get.
  rewrite Hget. now destruct (is_RequestException e).
Qed.

(** X2.  A fetch that raises ends the request without a probe: a
    [requests.RequestException] becomes an [HTTPException] of status 500
    whose detail carries the text of the exception, and an exception of any
    other class leaves the endpoint as it is. *)
Theorem X2_fetch_raises W url e :
  get W url = Raise e ->
  verify_template W url [] =
  (Raise (if is_RequestException e
          then HTTPException 500 ("Request failed: " ++ exn_str e)
          else e),
   []).
Proof. apply verify_template_fetch_raises. Qed.

Lemma X2_fetch_raises_witness :
  verify_template ExamplesX.world_timeout "https://t.example/mail.html" [] =
  (Raise (HTTPException 500 "Request failed: ConnectTimeout"), []).
Proof.
  apply (@X2_fetch_raises ExamplesX.world_timeout "https://t.example/mail.html"
           (RequestException "ConnectTimeout")).
  reflexivity.
Defined.

(** X3.  No [requests.RequestException] leaves the endpoint, whatever the
    network does: the one of the fetch is turned into an [HTTPException],
    the ones of the probes are caught in the loops. *)
Theorem X3_no_request_exception_escapes W url e log :
  verify_template W url [] = (Raise e, log) -> is_RequestException e = false.
Proof.
  intros E. destruct (get W url) as [resp|e0] eqn:Hget.
  - destruct (Z.eq_dec (status_code resp) 200) as [H200|H200].
    + destruct (BeautifulSoup W (text resp)) as [soup|e1] eqn:Hsoup.
      * destruct (no_foreign W 0 (global_urls soup)) eqn:Hno.
        -- destruct (@verify_template_returns W url resp soup
                       (conj Hget (conj H200 Hsoup)) Hno) as (r & E' & _).
           rewrite E' in E. discriminate.
        -- destruct (@run_checks_raises W url (text resp) soup [] Hsoup Hno)
             as (e' & l & E' & He).
           unfold verify_template, try_except, bind, requests_get in E.
           rewrite Hget in E. apply Z.eqb_eq in H200. rewrite H200 in E.
           cbn [negb] in E. rewrite E', He in E. now injection E as <- _.
      * unfold verify_template, try_except, bind, requests_get in E.
        rewrite Hget in E. apply Z.eqb_eq in H200. rewrite H200 in E.
        cbn [negb] in E.
        rewrite (@run_checks_parser_raises W url (text resp) e1 [] Hsoup) in E.
        destruct (is_RequestException e1) eqn:He; injection E as <- _;
          [reflexivity | assumption].
    + rewrite (verify_template_status_error W url Hget H200) in E.
      now injection E as <- _.
  - rewrite (verify_template_fetch_raises W url Hget) in E.
    destruct (is_RequestException e0) eqn:He; injection E as <- _;
      [reflexivity | assumption].
Qed.

Lemma X3_no_request_exception_escapes_witness :
  is_RequestException
    (OtherException "LocationParseError: label empty or too long") = false.
Proof.
  apply (@X3_no_request_exception_escapes ExamplesC2.world_long_label
           "https://t.example/mail.html" _ [ExamplesC2.long_label_url]).
  vm_compute. reflexivity.
Defined.

(** X4.  The endpoint returns a response exactly when the fetch answers
    with status 200, the parser returns a tree for the page, and no probe
    of the global loop raises an exception outside
    [requests.RequestException]; what the probes of the footer loop do
    never decides it.  When the parser raises on a page fetched with status
    200, its exception ends the request before any probe: it leaves the
    endpoint as it is, or as an [HTTPException] of status 500 if it is a
    [requests.RequestException]. *)
Theorem X4_returns_iff W url :
  ((exists r log, verify_template W url [] = (Return r, log)) <->
   (exists resp soup,
       get W url = Return resp /\ status_code resp = 200%Z
       /\ BeautifulSoup W (text resp) = Return soup
       /\ forallb (fun p => negb (foreign (snd p)))
            (probe_all W 0 (filter is_absolute
                              (map (Soup.item "href") (links soup)))) = true))
  /\ (forall resp e,
        get W url = Return resp -> status_code resp = 200%Z ->
        BeautifulSoup W (text resp) = Raise e ->
        verify_template W url [] =
        (Raise (if is_RequestException e
                then HTTPException 500 ("Request failed: " ++ exn_str e)
                else e),
         [])).
Proof.
  split.
  - rewrite verify_template_returns_iff. unfold fetched.
    split; intros (resp & soup & H); exists resp, soup; tauto.
  - intros resp e Hget H200 Hsoup.
    unfold verify_template, try_except, bind, requests_get.
    rewrite Hget. apply Z.eqb_eq in H200. rewrite H200. cbn [negb].
    rewrite (@run_checks_parser_raises W url (text resp) e [] Hsoup).
    now destruct (is_RequestException e).
Qed.

(** Markup that the parser rejects: the request ends with the exception of
    the parser and without a probe. *)
Lemma X4_returns_iff_witness :
  verify_template ExamplesX.world_rejected_markup "https://t.example/mail.html" []
  = (Raise (OtherException "ParserRejectedMarkup: rejected by the parser"), []).
Proof.
  exact (proj2 (X4_returns_iff ExamplesX.world_rejected_markup
                  "https://t.example/mail.html")
           {| status_code := 200; text := "<![x]>" |}
           (OtherException "ParserRejectedMarkup: rejected by the parser")
           eq_refl eq_refl eq_refl).
Defined.

Lemma take_spec (n : nat) (s : string) :
  (exists rest, s = (Py.take n s ++ rest)%string)
  /\ String.length (Py.take n s) = Nat.min n (String.length s).
Proof.
  unfold Py.take. revert s. induction n as [|n IH]; intros s.
  - destruct s; simpl; split; eauto.
  - destruct s as [|c s]; simpl.
    + split; [now exists EmptyString | reflexivity].
    + destruct (IH s) as [[rest Hrest] Hlen]. split.
      * exists rest. now rewrite <- Hrest.
      * now rewrite Hlen.
Qed.

Lemma verdict_pass (c : Result.checks) :
  fst (verdict c) = "pass" <->
  Result.is_test_template c = false
  /\ Result.all_links_valid c = true
  /\ Result.footer_link_valid c = true
  /\ Result.footer_address_found c = true
  /\ Result.image_text_ratio_ok c = true.
Proof.
  unfold verdict.
  destruct (Result.is_test_template c), (Result.all_links_valid c),
    (Result.footer_link_valid c), (Result.footer_address_found c),
    (Result.image_text_ratio_ok c); cbn [negb orb fst];
    split; try discriminate; try tauto.
  all: intros (? & ? & ? & ? & ?); discriminate.
Qed.

Lemma verdict_values (c : Result.checks) :
  fst (verdict c) = "pass" \/ fst (verdict c) = "warning" \/ fst (verdict c) = "fail".
Proof.
  unfold verdict.
  destruct (Result.is_test_template c), (Result.all_links_valid c),
    (Result.footer_link_valid c), (Result.footer_address_found c),
    (Result.image_text_ratio_ok c); cbn [negb orb fst]; auto.
Qed.

(** X5.  The envelope of a response: [status] is ["success"], [url] is the
    URL of the request, [content_length] is the length of the fetched page,
    [preview_snippet] is the beginning of the page, 300 characters of it or
    the whole page when it is shorter, and [verification] is one of [pass],
    [warning] and [fail]. *)
Theorem X5_envelope W url resp soup :
  fetched W url resp soup ->
  (no_foreign W 0 (global_urls soup) = true ->
   exists r log, verify_template W url [] = (Return r, log))
  /\ forall r log,
       verify_template W url [] = (Return r, log) ->
       Result.status r = "success"
       /\ Result.url r = url
       /\ Result.content_length r = String.length (text resp)
       /\ (exists rest, text resp = (Result.preview_snippet r ++ rest)%string)
       /\ String.length (Result.preview_snippet r)
          = Nat.min 300 (Result.content_length r)
       /\ (Result.verification r = "pass"
           \/ Result.verification r = "warning"
           \/ Result.verification r = "fail").
Proof.
  intros Hf. split; [exact (verify_template_responds Hf)|].
  intros r log E.
  destruct (verify_template_inv Hf E)
    as (_ & _ & Hs & Hu & Hl & Hp & Hv & _ & _).
  rewrite Hs, Hu, Hl, Hp, Hv.
  destruct (take_spec 300 (text resp)) as [Hpre Hlen].
  repeat split; try assumption. apply verdict_values.
Qed.

Lemma X5_envelope_witness :
  exists r log,
    verify_template ExamplesX.world_pass "https://t.example/mail.html" []
      = (Return r, log)
    /\ Result.status r = "success"
    /\ Result.url r = "https://t.example/mail.html"
    /\ Result.content_length r = 16
    /\ Result.preview_snippet r = "<html>...</html>".
Proof.
  destruct (@X5_envelope ExamplesX.world_pass "https://t.example/mail.html"
              {| status_code := 200; text := "<html>...</html>" |}
              ExamplesX.soup_pass)
    as [Hret Hall].
  - split; [|split]; reflexivity.
  - destruct Hret as (r & log & E); [vm_compute; reflexivity|].
    exists r, log. split; [exact E|].
    destruct (Hall r log E) as (Hs & Hu & Hl & _).
    split; [exact Hs|]. split; [exact Hu|]. split; [exact Hl|].
    vm_compute in E. injection E as <- _. reflexivity.
Defined.

(** X6.  For a page whose text and whose image markup are shorter than
    [2 ^ 52] characters, [image_text_ratio_ok] decides the exact
    inequalities: it is true exactly when the text is not empty, is at most
    ten times as long as the image markup, and the image markup is at most
    twice as long as the text.  The rounding of the quotient to a double
    never moves it across [0.1] or [2.0]. *)
Theorem X6_ratio_exact W url resp soup :
  fetched W url resp soup ->
  (Z.of_nat (total_text_len soup) < 2 ^ 52)%Z ->
  (Z.of_nat (total_img_len W soup) < 2 ^ 52)%Z ->
  (no_foreign W 0 (global_urls soup) = true ->
   exists r log, verify_template W url [] = (Return r, log))
  /\ forall r log,
       verify_template W url [] = (Return r, log) ->
       let text_len := String.length (text_content soup) in
       let img_len :=
         list_sum (map (fun img => String.length (str W img))
                       (Soup.find_all "img" Soup.any_attrs soup)) in
       Result.image_text_ratio_ok (Result.checks_ r) = true <->
       0 < text_len /\ text_len <= 10 * img_len /\ img_len <= 2 * text_len.
Proof.
  intros Hf Ht Hi. split; [exact (verify_template_responds Hf)|].
  intros r log E.
  destruct (verify_template_inv Hf E)
    as (_ & _ & _ & _ & _ & _ & _ & _ & Hc).
  cbv zeta. rewrite Hc. cbn [Result.image_text_ratio_ok].
  unfold image_text_ratio.
  change (String.length (text_content soup))
    with (total_text_len soup).
  change (list_sum _) with (total_img_len W soup).
  destruct (Nat.eqb_spec (total_text_len soup) 0) as [H0|H0].
  - rewrite H0. split; [vm_compute; discriminate | lia].
  - rewrite FloatFacts.image_text_ratio_ok_exact by (assumption || lia). lia.
Qed.

Lemma X6_ratio_exact_witness :
  exists r log,
    verify_template ExamplesX.world_text_only "https://t.example/mail.html" []
      = (Return r, log)
    /\ total_img_len ExamplesX.world_text_only ExamplesX.soup_text_only = 0
    /\ Result.image_text_ratio_ok (Result.checks_ r) = false.
Proof.
  destruct (@X6_ratio_exact ExamplesX.world_text_only "https://t.example/mail.html"
              {| status_code := 200; text := "<html>...</html>" |}
              ExamplesX.soup_text_only)
    as [Hret Hall].
  - split; [|split]; reflexivity.
  - vm_compute. reflexivity.
  - vm_compute. reflexivity.
  - destruct Hret as (r & log & E); [vm_compute; reflexivity|].
    exists r, log. split; [exact E|]. split; [vm_compute; reflexivity|].
    destruct (Result.image_text_ratio_ok (Result.checks_ r)) eqn:Eok;
      [|reflexivity].
    apply (Hall r log E) in Eok. vm_compute in Eok. lia.
Defined.

Lemma list_sum_pos_nonempty {A} (f : A -> nat) (l : list A) :
  0 < list_sum (map f l) -> l <> [].
Proof. destruct l; simpl; [lia | discriminate]. Qed.

(** X7.  A page passes only if it has text and an image: when the
    extracted text is empty, or when no [img] element has markup, the ratio
    is not balanced and the verdict is not [pass]. *)
Theorem X7_pass_needs_text_and_image W url resp soup :
  fetched W url resp soup ->
  (no_foreign W 0 (global_urls soup) = true ->
   exists r log, verify_template W url [] = (Return r, log))
  /\ forall r log,
       verify_template W url [] = (Return r, log) ->
       Result.verification r = "pass" ->
       0 < String.length (text_content soup)
       /\ 0 < list_sum (map (fun img => String.length (str W img))
                            (Soup.find_all "img" Soup.any_attrs soup))
       /\ Soup.find_all "img" Soup.any_attrs soup <> [].
Proof.
  intros Hf. split; [exact (verify_template_responds Hf)|].
  intros r log E Hpass.
  destruct (verify_template_inv Hf E)
    as (_ & _ & _ & _ & _ & _ & Hv & _ & Hc).
  rewrite Hv in Hpass. apply verdict_pass in Hpass as (_ & _ & _ & _ & Hok).
  rewrite Hc in Hok. cbn [Result.image_text_ratio_ok] in Hok.
  apply image_text_ratio_ok_finite in Hok as (m & e & Hratio).
  unfold image_text_ratio, total_text_len, total_img_len in Hratio.
  set (text_len := String.length (text_content soup)) in *.
  set (img_len := list_sum _) in *.
  destruct (Nat.eqb_spec text_len 0) as [H0|H0]; [discriminate|].
  assert (Himg : 0 < img_len).
  { destruct img_len as [|n]; [|lia].
    unfold Py.truediv in Hratio. simpl in Hratio.
    destruct (N.of_nat text_len); discriminate. }
  split; [lia|]. split; [assumption|].
  now apply list_sum_pos_nonempty in Himg.
Qed.

Lemma X7_pass_needs_text_and_image_witness :
  exists r log,
    verify_template ExamplesX.world_pass "https://t.example/mail.html" []
      = (Return r, log)
    /\ Result.verification r = "pass"
    /\ Soup.find_all "img" Soup.any_attrs ExamplesX.soup_pass <> [].
Proof.
  destruct (@X7_pass_needs_text_and_image ExamplesX.world_pass
              "https://t.example/mail.html"
              {| status_code := 200; text := "<html>...</html>" |}
              ExamplesX.soup_pass)
    as [Hret Hall].
  - split; [|split]; reflexivity.
  - destruct Hret as (r & log & E); [vm_compute; reflexivity|].
    exists r, log. split; [exact E|].
    assert (Hpass : Result.verification r = "pass").
    { vm_compute in E. injection E as <- _. reflexivity. }
    split; [exact Hpass|]. apply (Hall r log E Hpass).
Defined.

(** The probes of the global loop, whatever its outcome, are a prefix of
    the absolute hrefs of the anchors it runs over. *)
Lemma validate_links_probes W anchors :
  forall acc log,
    exists probed rest,
      snd (validate_links W anchors acc log) = log ++ probed
      /\ absolute_hrefs anchors = probed ++ rest.
Proof.
  induction anchors as [|link rest IH]; intros acc log.
  - exists [], []. simpl. now rewrite app_nil_r.
  - cbn [validate_links]. rewrite absolute_hrefs_cons.
    destruct (is_absolute (Soup.item "href" link)); [|now apply IH].
    set (href := Soup.item "href" link).
    unfold bind at 1. unfold try_except, bind, requests_head, ret.
    destruct (head W (List.length log) href) as [r|e].
    + destruct (400 <=? status_code r)%Z.
      * destruct (IH (acc ++ [href]) (log ++ [href])) as (p & q & Hp & Hq).
        exists (href :: p), q. rewrite Hp, Hq, <- app_assoc. split; reflexivity.
      * destruct (IH acc (log ++ [href])) as (p & q & Hp & Hq).
        exists (href :: p), q. rewrite Hp, Hq, <- app_assoc. split; reflexivity.
    + destruct (is_RequestException e).
      * destruct (IH (acc ++ [href]) (log ++ [href])) as (p & q & Hp & Hq).
        exists (href :: p), q. rewrite Hp, Hq, <- app_assoc. split; reflexivity.
      * exists [href], (absolute_hrefs rest). split; reflexivity.
Qed.

Lemma absolute_hrefs_absolute anchors u :
  In u (absolute_hrefs anchors) -> is_absolute u = true.
Proof. unfold absolute_hrefs. intros H. now apply filter_In in H. Qed.

(** Every probe of the checks is a probe of an absolute href of an anchor
    of the page, also when the checks end with an exception. *)
Lemma run_checks_probes W url html u :
  In u (snd (run_checks W url html [])) ->
  exists soup, BeautifulSoup W html = Return soup /\ In u (global_urls soup).
Proof.
  unfold run_checks, bind, html_parser, global_urls.
  destruct (BeautifulSoup W html) as [soup|e0]; [|contradiction].
  intros Hu. exists soup. split; [reflexivity|]. revert Hu.
  destruct (validate_links_probes W (links soup) [] [])
    as (p & q & Hp & Hq).
  destruct (validate_links W (links soup) [] [])
    as [[broken_links|e] l] eqn:Ev; simpl in Hp; subst l.
  - rewrite footer_checks_spec. unfold ret. cbn [snd fst].
    intros Hu. apply in_app_or in Hu as [Hu|Hu].
    + rewrite Hq. apply in_or_app. now left.
    + apply footer_urls_incl.
      destruct (upto_first_alive_prefix W (footer_urls soup)
                  (List.length p)) as [rest' Hrest].
      rewrite Hrest. apply in_or_app. now left.
  - cbn [snd]. intros Hu. rewrite Hq. apply in_or_app. now left.
Qed.

(** X8.  What the endpoint probes: whatever the outcome of the request, a
    response or an exception, every URL it sends a HEAD request to starts
    with [http://] or [https://] and is the href of an anchor of the tree
    that the parser made of the fetched page; when the fetch does not
    answer 200 nothing is probed. *)
Theorem X8_probes_are_absolute_hrefs W url o log :
  verify_template W url [] = (o, log) ->
  (forall u, In u log -> Py.startswith "http://" u = true
                         \/ Py.startswith "https://" u = true)
  /\ (forall resp, get W url = Return resp ->
        forall u, In u log ->
          status_code resp = 200%Z
          /\ exists soup anchor,
               BeautifulSoup W (text resp) = Return soup
               /\ In anchor (links soup)
               /\ Soup.get "href" anchor = Some u)
  /\ (forall e, get W url = Raise e -> log = []).
Proof.
  intros E.
  assert (Hkey : forall resp, get W url = Return resp ->
            forall u, In u log ->
              status_code resp = 200%Z
              /\ exists soup, BeautifulSoup W (text resp) = Return soup
                              /\ In u (global_urls soup)).
  { intros resp Hget u Hu.
    destruct (Z.eq_dec (status_code resp) 200) as [H200|H200].
    - split; [assumption|]. apply run_checks_probes with (url := url).
      unfold verify_template, try_except, bind, requests_get in E.
      rewrite Hget in E. apply Z.eqb_eq in H200. rewrite H200 in E.
      cbn [negb] in E.
      destruct (run_checks W url (text resp) []) as [[r|e] l].
      + injection E as _ <-. exact Hu.
      + destruct (is_RequestException e); injection E as _ <-; exact Hu.
    - rewrite (verify_template_status_error W url Hget H200) in E.
      injection E as _ <-. contradiction. }
  split; [|split].
  - intros u Hu. destruct (get W url) as [resp|e] eqn:Hget.
    + destruct (Hkey resp eq_refl u Hu) as (_ & soup & _ & Hin).
      apply absolute_hrefs_absolute in Hin. now apply orb_true_iff in Hin.
    + rewrite (verify_template_fetch_raises W url Hget) in E.
      injection E as _ <-. contradiction.
  - intros resp Hget u Hu.
    destruct (Hkey resp Hget u Hu) as (H200 & soup & Hsoup & Hin).
    split; [assumption|]. unfold global_urls, absolute_hrefs in Hin.
    apply filter_In in Hin as [Hin _]. apply in_map_iff in Hin as (x & <- & Hx).
    exists soup, x. split; [assumption|]. split; [assumption|].
    apply links_spec in Hx as (_ & attrs & contents & href & -> & Hl).
    unfold Soup.item. simpl. now rewrite Hl.
  - intros e Hget. rewrite (verify_template_fetch_raises W url Hget) in E.
    now injection E as _ <-.
Qed.

(** The request that ends with the exception of a probe has probed one
    absolute href. *)
Lemma X8_probes_are_absolute_hrefs_witness :
  Py.startswith "http://" ExamplesC2.long_label_url = true
  \/ Py.startswith "https://" ExamplesC2.long_label_url = true.
Proof.
  refine (proj1 (@X8_probes_are_absolute_hrefs ExamplesC2.world_long_label
                   "https://t.example/mail.html"
                   (Raise (OtherException
                             "LocationParseError: label empty or too long"))
                   [ExamplesC2.long_label_url] _)
                ExamplesC2.long_label_url _).
  - vm_compute. reflexivity.
  - left. reflexivity.
Defined.

(* ================================================================== *)
(** * Further properties of the address pattern and the keywords *)
(* ================================================================== *)

Lemma Matches_leading_digit m :
  Re.Matches (Re.Repeat 1 5 Re.d) m ->
  exists c rest, m = String c rest /\ Py.isdecimal c = true.
Proof.
  intros H. apply Matches_Cat_inv in H as (u & v & -> & Hu & _).
  cbn [Re.Exactly] in Hu. apply Matches_Cat_inv in Hu as (u1 & u2 & -> & H1 & _).
  inversion H1 as [| |p x Hx| | | | |]; subst. simpl. eauto.
Qed.

(** A string that matches the address pattern starts with a decimal digit
    and holds two commas after it. *)
Lemma ADDRESS_REGEX_shape m :
  Re.Matches ADDRESS_REGEX m ->
  exists c x y z,
    Py.isdecimal c = true
    /\ m = String c (x ++ "," ++ y ++ "," ++ z)%string.
Proof.
  unfold ADDRESS_REGEX. cbn [Re.seq]. intros H.
  apply Matches_Cat_inv in H as (u1 & m1 & -> & H1 & H).
  apply Matches_Cat_inv in H as (u2 & m2 & -> & _ & H).
  apply Matches_Cat_inv in H as (u3 & m3 & -> & _ & H).
  apply Matches_Cat_inv in H as (u4 & m4 & -> & _ & H).
  apply Matches_Cat_inv in H as (u5 & m5 & -> & H5 & H).
  apply Matches_Cat_inv in H as (u6 & m6 & -> & _ & H).
  apply Matches_Cat_inv in H as (u7 & m7 & -> & _ & H).
  apply Matches_Cat_inv in H as (u8 & m8 & -> & _ & H).
  apply Matches_Cat_inv in H as (u9 & m9 & -> & H9 & _).
  apply Matches_leading_digit in H1 as (c & rest & -> & Hc).
  apply Matches_comma in H5, H9. subst u5 u9.
  exists c, (rest ++ u2 ++ u3 ++ u4)%string, (u6 ++ u7 ++ u8)%string, m9.
  split; [assumption|]. simpl. f_equal.
  now rewrite !append_assoc.
Qed.

(** X9.  What an address needs: when [footer_address_found] is true, the
    footer text holds a decimal digit followed, somewhere later, by a comma
    and then by another comma.  A footer text without a digit, or with
    fewer than two commas, is never taken for an address. *)
Theorem X9_address_needs_digit_and_commas W url resp soup footer :
  fetched W url resp soup ->
  Soup.find "footer" soup = Some footer ->
  (no_foreign W 0 (global_urls soup) = true ->
   exists r log, verify_template W url [] = (Return r, log))
  /\ forall r log,
       verify_template W url [] = (Return r, log) ->
       Result.footer_address_found (Result.checks_ r) = true ->
       exists pre c x y z,
         Py.isdecimal c = true
         /\ Soup.get_text " " footer
            = (pre ++ String c (x ++ "," ++ y ++ "," ++ z))%string.
Proof.
  intros Hf Hfooter. split; [exact (verify_template_responds Hf)|].
  intros r log E.
  destruct (verify_template_inv Hf E)
    as (_ & _ & _ & _ & _ & _ & _ & _ & Hc).
  rewrite Hc. cbn [Result.footer_address_found].
  unfold footer_address. rewrite Hfooter. intros Hfound.
  apply ReFacts.search_spec in Hfound as (pre & m & post & Htext & Hm).
  apply ADDRESS_REGEX_shape in Hm as (c & x & y & z & Hc' & ->).
  exists pre, c, x, y, (z ++ post)%string. split; [assumption|].
  rewrite Htext. f_equal.
  repeat (rewrite append_assoc || (progress cbn [append])). reflexivity.
Qed.

Lemma X9_address_needs_digit_and_commas_witness :
  exists r log,
    verify_template ExamplesC9.world_address "https://t.example/mail.html" []
      = (Return r, log)
    /\ exists pre c x y z,
         Py.isdecimal c = true
         /\ "123 Main Street, Springfield, IL 62704"
            = (pre ++ String c (x ++ "," ++ y ++ "," ++ z))%string.
Proof.
  destruct (@X9_address_needs_digit_and_commas ExamplesC9.world_address
              "https://t.example/mail.html"
              {| status_code := 200; text := "<html>...</html>" |}
              ExamplesC9.soup_address
              (Soup.Tag "footer" []
                 [ Soup.Tag "span" [] [Soup.NavigableString " 123 Main Street, "];
                   Soup.Tag "span" [] [Soup.NavigableString "Springfield, IL 62704 "] ]))
    as [Hret Hall].
  - split; [|split]; reflexivity.
  - vm_compute. reflexivity.
  - destruct Hret as (r & log & E); [vm_compute; reflexivity|].
    exists r, log. split; [exact E|].
    apply (Hall r log E).
    vm_compute in E. injection E as <- _. reflexivity.
Defined.

Lemma lower_append (a b : string) :
  Py.lower (a ++ b) = (Py.lower a ++ Py.lower b)%string.
Proof. induction a as [|c a IH]; simpl; [reflexivity | now rewrite IH]. Qed.

Lemma Substring_lower (sub s : string) :
  Substring sub s -> Substring (Py.lower sub) (Py.lower s).
Proof.
  intros (pre & post & ->). exists (Py.lower pre), (Py.lower post).
  now rewrite !lower_append.
Qed.

(** X10.  The keyword test ignores case: if the extracted text, before it
    is lowercased, holds a keyword written in any mix of capitals and small
    letters, the page is a test template. *)
Theorem X10_keywords_ignore_case soup written :
  In (Py.lower written) TEST_KEYWORDS ->
  Substring written (Soup.get_text " " soup) ->
  is_test_template soup = true.
Proof.
  intros Hk Hs. apply is_test_template_spec. exists (Py.lower written).
  split; [assumption|]. unfold text_content. now apply Substring_lower.
Qed.

Lemma X10_keywords_ignore_case_witness :
  is_test_template ExamplesX.soup_capitals = true.
Proof.
  apply (@X10_keywords_ignore_case ExamplesX.soup_capitals "LOREM IPSUM").
  - vm_compute. tauto.
  - apply contains_spec. vm_compute. reflexivity.
Defined.

(** X11.  The seventh keyword never decides: a text that holds
    [this is a test] holds [test], so the test gives the same answer with
    the first six keywords alone. *)
Theorem X11_seventh_keyword_redundant soup :
  is_test_template soup
  = existsb (fun keyword => Py.contains keyword (text_content soup))
            [ "test"; "dummy"; "lorem ipsum"; "sample template";
              "placeholder"; "example" ].
Proof.
  unfold is_test_template, TEST_KEYWORDS. cbn [existsb].
  rewrite !orb_false_r.
  destruct (Py.contains "this is a test" (text_content soup)) eqn:E7.
  - assert (E1 : Py.contains "test" (text_content soup) = true).
    { apply contains_spec. apply Substring_trans with (b := "this is a test").
      - now exists "this is a ", "".
      - now apply contains_spec. }
    rewrite E1. reflexivity.
  - now rewrite !orb_false_r.
Qed.

(* ================================================================== *)
(** * How the link checks and the verdict fit together *)
(* ================================================================== *)

Lemma not_broken_alive (o : outcome response) :
  broken o = false -> foreign o = false -> alive o = true.
Proof.
  destruct o as [r|e]; simpl.
  - intros H _. apply Z.leb_gt in H. now apply Z.ltb_lt.
  - intros H1 H2. rewrite H1 in H2. discriminate.
Qed.

(** With no broken link and no foreign exception, every probe of the list
    was alive. *)
Lemma all_alive W urls :
  forall k,
    broken_among W k urls = [] -> no_foreign W k urls = true ->
    forall i u, nth_error urls i = Some u -> alive (head W (k + i) u) = true.
Proof.
  induction urls as [|v urls IH]; intros k Hb Hno i u Hi.
  - destruct i; discriminate.
  - rewrite broken_among_cons in Hb.
    unfold no_foreign in Hno. cbn [probe_all forallb snd] in Hno.
    apply andb_true_iff in Hno as [H0 Hno].
    destruct (broken (head W k v)) eqn:Ebr; [discriminate|].
    destruct i as [|i]; simpl in Hi.
    + injection Hi as <-. rewrite Nat.add_0_r.
      apply not_broken_alive; [assumption | now apply negb_true_iff in H0].
    + rewrite <- Nat.add_succ_comm. now apply IH.
Qed.

(** X12.  The two link checks agree when probes are repeatable: if the
    outcome of a probe depends on the URL alone, no global link is broken
    and the footer holds at least one absolute link, then
    [footer_link_valid] is true.  A page whose links are all valid fails on
    its footer link only when the footer has no absolute link. *)
Theorem X12_valid_links_valid_footer W url resp soup footer :
  fetched W url resp soup ->
  probe_fixed W ->
  Soup.find "footer" soup = Some footer ->
  absolute_hrefs (links footer) <> [] ->
  (no_foreign W 0 (global_urls soup) = true ->
   exists r log, verify_template W url [] = (Return r, log))
  /\ forall r log,
       verify_template W url [] = (Return r, log) ->
       Result.all_links_valid (Result.checks_ r) = true ->
       Result.footer_link_valid (Result.checks_ r) = true.
Proof.
  intros Hf Hfixed Hfooter Hsome. split; [exact (verify_template_responds Hf)|].
  intros r log E.
  destruct (verify_template_inv Hf E)
    as (Hno & _ & _ & _ & _ & _ & _ & _ & Hc).
  rewrite Hc. cbn [Result.all_links_valid Result.footer_link_valid].
  intros Hvalid. apply all_links_valid_spec in Hvalid.
  unfold footer_urls. rewrite Hfooter.
  destruct (absolute_hrefs (links footer)) as [|u us] eqn:Eu; [congruence|].
  rewrite some_alive_cons. apply orb_true_iff. left.
  assert (Hu : In u (global_urls soup)).
  { pose proof (footer_urls_incl soup) as H.
    unfold footer_urls in H. rewrite Hfooter, Eu in H. apply H. now left. }
  apply In_nth_error in Hu as [i Hi].
  rewrite (Hfixed _ (0 + i) u).
  now apply (all_alive W (global_urls soup) 0 Hvalid Hno).
Qed.

Lemma X12_valid_links_valid_footer_witness :
  exists r log,
    verify_template ExamplesX.world_pass "https://t.example/mail.html" []
      = (Return r, log)
    /\ Result.all_links_valid (Result.checks_ r) = true
    /\ Result.footer_link_valid (Result.checks_ r) = true.
Proof.
  destruct (@X12_valid_links_valid_footer ExamplesX.world_pass
              "https://t.example/mail.html"
              {| status_code := 200; text := "<html>...</html>" |}
              ExamplesX.soup_pass
              Examples.good_footer)
    as [Hret Hall].
  - split; [|split]; reflexivity.
  - intros k k' u. reflexivity.
  - vm_compute. reflexivity.
  - vm_compute. discriminate.
  - destruct Hret as (r & log & E); [vm_compute; reflexivity|].
    exists r, log. split; [exact E|].
    assert (Hv : Result.all_links_valid (Result.checks_ r) = true).
    { vm_compute in E. injection E as <- _. reflexivity. }
    split; [exact Hv | exact (Hall r log E Hv)].
Defined.

(** X14.  What a [pass] stands for: the page has a footer; one of the
    absolute links of the footer answered its probe with a status below
    400; a part of the footer text matches the address pattern; no keyword
    occurs in the text; and every absolute link of the page answered its
    probe of the global loop with a status below 400. *)
Theorem X14_pass_means W url resp soup :
  fetched W url resp soup ->
  (no_foreign W 0 (global_urls soup) = true ->
   exists r log, verify_template W url [] = (Return r, log))
  /\ forall r log,
       verify_template W url [] = (Return r, log) ->
       Result.verification r = "pass" ->
       let global := filter is_absolute (map (Soup.item "href") (links soup)) in
       Result.message r = message_pass
       /\ (forall keyword, In keyword TEST_KEYWORDS ->
                           ~ Substring keyword (text_content soup))
       /\ (forall i u, nth_error global i = Some u ->
             exists a, head W i u = Return a /\ (status_code a < 400)%Z)
       /\ exists footer,
            Soup.find "footer" soup = Some footer
            /\ (exists i u a,
                  nth_error (filter is_absolute
                               (map (Soup.item "href") (links footer))) i = Some u
                  /\ head W (List.length global + i) u = Return a
                  /\ (status_code a < 400)%Z)
            /\ (exists pre m post,
                  Soup.get_text " " footer = (pre ++ m ++ post)%string
                  /\ Re.Matches ADDRESS_REGEX m).
Proof.
  intros Hf. split; [exact (verify_template_responds Hf)|].
  intros r log E Hpass.
  destruct (verify_template_inv Hf E)
    as (Hno & _ & _ & _ & _ & _ & Hv & Hm & Hc).
  rewrite Hv in Hpass. pose proof Hpass as Hp.
  apply verdict_pass in Hp as (Ht & Hl & Hfl & Hfa & Hok).
  cbv zeta. split.
  { rewrite Hm. unfold verdict. rewrite Ht, Hl, Hfl, Hfa, Hok. reflexivity. }
  rewrite Hc in Ht, Hl, Hfl, Hfa.
  cbn [Result.is_test_template Result.all_links_valid
       Result.footer_link_valid Result.footer_address_found] in Ht, Hl, Hfl, Hfa.
  split; [|split].
  - intros keyword Hk Hsub.
    assert (is_test_template soup = true)
      by (apply is_test_template_spec; eauto).
    congruence.
  - intros i u Hi. apply all_links_valid_spec in Hl.
    apply alive_spec. change i with (0 + i).
    exact (all_alive W (global_urls soup) 0 Hl Hno i Hi).
  - unfold footer_urls in Hfl. unfold footer_address in Hfa.
    destruct (Soup.find "footer" soup) as [footer|];
      [|discriminate].
    exists footer. split; [reflexivity|]. split.
    + destruct (upto_first_alive_some W _ _ Hfl)
        as (before & u & after & Hu & _ & Ha & _).
      apply alive_spec in Ha as (a & Ha & Hlt).
      exists (List.length before), u, a. repeat split; try assumption.
      change (filter is_absolute _) with (absolute_hrefs (links footer)).
      rewrite Hu, nth_error_app2, Nat.sub_diag by lia. reflexivity.
    + now apply ReFacts.search_spec.
Qed.

Lemma X14_pass_means_witness :
  exists r log,
    verify_template ExamplesX.world_pass "https://t.example/mail.html" []
      = (Return r, log)
    /\ Result.verification r = "pass"
    /\ Result.message r = message_pass
    /\ exists footer, Soup.find "footer" ExamplesX.soup_pass = Some footer.
Proof.
  destruct (@X14_pass_means ExamplesX.world_pass "https://t.example/mail.html"
              {| status_code := 200; text := "<html>...</html>" |}
              ExamplesX.soup_pass)
    as [Hret Hall].
  - split; [|split]; reflexivity.
  - destruct Hret as (r & log & E); [vm_compute; reflexivity|].
    exists r, log. split; [exact E|].
    assert (Hpass : Result.verification r = "pass").
    { vm_compute in E. injection E as <- _. reflexivity. }
    split; [exact Hpass|].
    destruct (Hall r log E Hpass) as (Hm & _ & _ & footer & Hfooter & _).
    split; [exact Hm|]. now exists footer.
Defined.

(* ================================================================== *)
(** * Further properties of the extracted text *)
(* ================================================================== *)

Lemma lstrip_shape (s : string) :
  Py.lstrip s = EmptyString
  \/ exists c rest, Py.lstrip s = String c rest /\ Py.isspace c = false.
Proof.
  induction s as [|c s IH]; simpl; [now left|].
  destruct (Py.isspace c) eqn:E; [assumption|]. right. eauto.
Qed.

Lemma lstrip_empty (s : string) :
  Py.lstrip s = EmptyString <-> all_space s = true.
Proof.
  induction s as [|c s IH]; simpl; [tauto|].
  destruct (Py.isspace c); simpl; [assumption|].
  split; discriminate.
Qed.

Lemma rstrip_nonspace_head (c : ascii) (s : string) :
  Py.isspace c = false -> Py.rstrip (String c s) <> EmptyString.
Proof.
  intros Hc. simpl. destruct (Py.rstrip s); [rewrite Hc|]; discriminate.
Qed.

(** [strip] leaves nothing exactly of the strings made of whitespace. *)
Lemma strip_empty (s : string) :
  Py.strip s = EmptyString <-> all_space s = true.
Proof.
  unfold Py.strip. rewrite <- lstrip_empty.
  destruct (lstrip_shape s) as [E|(c & rest & E & Hc)]; rewrite E.
  - simpl. tauto.
  - split; [|discriminate].
    intros H. now apply rstrip_nonspace_head in H.
Qed.

Lemma join_empty (sep : string) (l : list string) :
  Forall (fun s => Py.nonempty s = true) l ->
  Py.join sep l = EmptyString -> l = [].
Proof.
  destruct l as [|x l]; [reflexivity|].
  intros H. inversion H as [|? ? Hx _]; subst.
  destruct x as [|c x]; [discriminate|].
  destruct l; simpl; discriminate.
Qed.

Lemma lower_length (s : string) : String.length (Py.lower s) = String.length s.
Proof. induction s as [|c s IH]; simpl; [reflexivity | now rewrite IH]. Qed.

(** X13.  The extracted text is empty exactly when every text node of the
    page is made of whitespace, a page without text nodes included; the
    ratio is then positive infinity and not balanced. *)
Theorem X13_blank_text (W : World) (soup : Soup.node) :
  (total_text_len soup = 0 <->
   forall t, In t (Soup.strings soup) -> all_space t = true)
  /\ (total_text_len soup = 0 ->
      image_text_ratio W soup = S754_infinity false
      /\ image_text_ratio_ok (image_text_ratio W soup) = false).
Proof.
  split.
  - unfold total_text_len, text_content, Soup.get_text.
    rewrite lower_length.
    set (kept := filter Py.nonempty (map Py.strip (Soup.strings soup))).
    assert (Hkept : Forall (fun s => Py.nonempty s = true) kept).
    { apply Forall_forall. intros s Hs. now apply filter_In in Hs. }
    split.
    + intros Hlen t Ht.
      assert (Hjoin : Py.join " " kept = EmptyString)
        by (destruct (Py.join " " kept); [reflexivity | discriminate]).
      apply (join_empty _ Hkept) in Hjoin.
      apply strip_empty.
      destruct (Py.strip t) as [|c s] eqn:Es; [reflexivity|].
      assert (Hin : In (String c s) kept).
      { unfold kept. apply filter_In. split; [|reflexivity].
        rewrite <- Es. now apply in_map. }
      rewrite Hjoin in Hin. contradiction.
    + intros Hblank.
      assert (Hnil : kept = []).
      { destruct kept as [|x l] eqn:Ek; [reflexivity|].
        assert (Hx : In x kept) by (rewrite Ek; now left).
        unfold kept in Hx. apply filter_In in Hx as [Hx Hne].
        apply in_map_iff in Hx as (t & <- & Ht).
        apply Hblank, strip_empty in Ht. rewrite Ht in Hne. discriminate. }
      rewrite Hnil. reflexivity.
  - intros H0. unfold image_text_ratio. rewrite H0. split; reflexivity.
Qed.

(* ================================================================== *)
(** * The address search reads the class of a character only *)
(* ================================================================== *)

Lemma same_class_spec (x y : ascii) :
  same_class x y = true ->
  Py.isdecimal x = Py.isdecimal y /\ Py.isspace x = Py.isspace y
  /\ Py.isword x = Py.isword y /\ Ascii.eqb x "," = Ascii.eqb y ",".
Proof.
  unfold same_class. rewrite !andb_true_iff.
  intros [[[H1 H2] H3] H4]. apply eqb_prop in H1, H2, H3, H4. auto.
Qed.

Lemma lit_matches_comma (x : ascii) : Re.lit_matches "," x = Ascii.eqb x ",".
Proof.
  destruct x as [[] [] [] [] [] [] [] []]; vm_compute; reflexivity.
Qed.

(** The derivative of such a pattern is the same pattern for two
    characters that agree. *)
Lemma deriv_same_class x y r :
  same_class x y = true -> reads_classes r -> Re.deriv x r = Re.deriv y r.
Proof.
  intros Hxy. induction r as [| |c|p|r1 IH1 r2 IH2|r1 IH1 r2 IH2|r1 IH1];
    cbn [reads_classes Re.deriv]; intros H.
  - reflexivity.
  - reflexivity.
  - now rewrite (H x y Hxy).
  - now rewrite (H x y Hxy).
  - destruct H as [H1 H2]. now rewrite IH1, IH2.
  - destruct H as [H1 H2]. now rewrite IH1, IH2.
  - now rewrite IH1.
Qed.

Lemma reads_classes_cat r1 r2 :
  reads_classes r1 -> reads_classes r2 -> reads_classes (Re.cat r1 r2).
Proof. destruct r1, r2; simpl; tauto. Qed.

Lemma reads_classes_alt r1 r2 :
  reads_classes r1 -> reads_classes r2 -> reads_classes (Re.alt r1 r2).
Proof. destruct r1, r2; simpl; tauto. Qed.

Lemma reads_classes_deriv x r : reads_classes r -> reads_classes (Re.deriv x r).
Proof.
  induction r as [| |c|p|r1 IH1 r2 IH2|r1 IH1 r2 IH2|r1 IH1];
    cbn [reads_classes Re.deriv]; intros H.
  - exact I.
  - exact I.
  - now destruct (Re.lit_matches c x).
  - now destruct (p x).
  - destruct H as [H1 H2]. destruct (Re.nullable r1).
    + apply reads_classes_alt; [apply reads_classes_cat|]; auto.
    + apply reads_classes_cat; auto.
  - destruct H as [H1 H2]. apply reads_classes_alt; auto.
  - apply reads_classes_cat; auto.
Qed.

Lemma match_alike s :
  forall t r, alike s t = true -> reads_classes r ->
              Re.match_ r s = Re.match_ r t.
Proof.
  induction s as [|x s IH]; intros [|y t] r Hst Hr; try discriminate Hst.
  - reflexivity.
  - cbn [alike] in Hst. apply andb_true_iff in Hst as [Hxy Hst].
    cbn [Re.match_]. rewrite (@deriv_same_class x y r Hxy Hr).
    now rewrite (IH t (Re.deriv y r) Hst (@reads_classes_deriv y r Hr)).
Qed.

Lemma search_alike r s :
  forall t, alike s t = true -> reads_classes r ->
            Re.search r s = Re.search r t.
Proof.
  induction s as [|x s IH]; intros [|y t] Hst Hr; try discriminate Hst.
  - reflexivity.
  - cbn [Re.search]. rewrite (@match_alike (String x s) (String y t) r Hst Hr).
    cbn [alike] in Hst. apply andb_true_iff in Hst as [_ Hst].
    now rewrite (IH t Hst Hr).
Qed.

Lemma ADDRESS_REGEX_reads_classes : reads_classes ADDRESS_REGEX.
Proof.
  assert (Hd : forall x y, same_class x y = true -> Py.isdecimal x = Py.isdecimal y)
    by (intros x y H; now apply same_class_spec in H).
  assert (Hs : forall x y, same_class x y = true -> Py.isspace x = Py.isspace y)
    by (intros x y H; now apply same_class_spec in H).
  assert (Hw : forall x y, same_class x y = true -> Py.isword x = Py.isword y)
    by (intros x y H; now apply same_class_spec in H).
  assert (Hc : forall x y, same_class x y = true ->
                           Re.lit_matches "," x = Re.lit_matches "," y).
  { intros x y H. rewrite !lit_matches_comma. now apply same_class_spec in H. }
  unfold ADDRESS_REGEX, Re.Repeat, Re.AtLeast, Re.Plus, Re.d, Re.s, Re.w.
  cbn [Re.seq Re.Exactly Re.Upto Nat.sub reads_classes]. tauto.
Qed.

(** X15.  The address search asks four things of a character: whether it
    is a decimal digit, whitespace, a word character, a comma.  Two texts
    of one length whose characters agree on the four, place by place, get
    the same answer; so the answer does not change when a letter is
    replaced by another letter, a capital by a small letter or a digit by
    another digit. *)
Theorem X15_address_reads_classes (s1 s2 : string) :
  alike s1 s2 = true ->
  Re.search ADDRESS_REGEX s1 = Re.search ADDRESS_REGEX s2.
Proof.
  intros H. exact (@search_alike ADDRESS_REGEX s1 s2 H ADDRESS_REGEX_reads_classes).
Qed.

Lemma X15_address_reads_classes_witness :
  Re.search ADDRESS_REGEX "123 MAIN STREET, SPRINGFIELD, IL 62704"
  = Re.search ADDRESS_REGEX "742 Elms Avenue, Shelbyville, KY 40065".
Proof.
  apply X15_address_reads_classes. vm_compute. reflexivity.
Defined.
